(** * FemmeFlow: the Q-learning core of [menstrual_cycle_app.py]

    A shallow embedding of the learning core of the notification service:
    the state encoder ([MenstrualCycleEnvironment.get_current_state]), the
    reward calculator ([reward_function]), the Q-value table and its
    temporal-difference update ([MenstrualCycleQLearningAgent]), the
    epsilon-greedy policy ([choose_action]) and the two endpoints that drive
    them ([generate_user_notification], [process_notification_feedback]).
    The other endpoints ([create_user], [add_cycle_data],
    [get_user_analytics]) and the sample-data script [populate_db.py]
    ([create_sample_users], [create_cycle_data], [initialize_q_tables],
    [create_sample_notifications], [main]) follow on the same data model.

    Modelling conventions.
    - Python [int] is [Z]; Python [float] is idealised as an exact rational
      [Q] (rounding is not modelled).
    - Python [str] is [string]; every character stands for the code point of
      the same number (0..255).
    - The SQL tables are lists of rows in insertion order; [.first()] is the
      first matching row.
    - The session, the process-wide random generator and raised exceptions
      are threaded through a state-and-error monad [M].
    - Library functions that are not part of the repository
      ([random.random], [random]'s index draw, [json.loads], [str]) are
      section variables. *)

From Stdlib Require Import ZArith QArith Qround Qabs List String Ascii Bool Lia Lqa.
From Stdlib Require Import DecimalString.
From Stdlib Require Import Permutation Sorted.
From Stdlib Require Import DecimalPos DecimalZ.
Import ListNotations.

Local Close Scope Q_scope.
Local Open Scope string_scope.
Local Open Scope list_scope.

(* ================================================================== *)
(** ** Python values and built-ins *)

(** [x < y] on floats. *)
Definition Qlt_bool (x y : Q) : bool := negb (Qle_bool y x).

(* ------------------------------------------------------------------ *)
(** *** binary64 arithmetic where it decides a comparison

    The stored Q-values are binary64 numbers and [q_value += 0.5] is their
    floating-point sum: the exact sum rounded to the nearest binary64
    number, ties to the even significand.  The sum of a finite number and
    0.5 stays finite, so the rounding has no infinity to return. *)

(** [2 ^ e], [e] of either sign. *)
Definition Qpow2 (e : Z) : Q :=
  if (0 <=? e)%Z then inject_Z (2 ^ e) else 1 # Z.to_pos (2 ^ (- e)).

(** The binade of [x <> 0]: the [e] with [2 ^ e <= |x| < 2 ^ (e + 1)]. *)
Definition binade (x : Q) : Z :=
  let e := (Z.log2 (Z.abs (Qnum x)) - Z.log2 (Zpos (Qden x)))%Z in
  if Qlt_bool (Qabs x) (Qpow2 e) then (e - 1)%Z else e.

(** The integer nearest to [x], a tie going to the even one. *)
Definition round_half_even (x : Q) : Z :=
  let n := Qfloor x in
  match (x - inject_Z n ?= 1 # 2)%Q with
  | Lt => n
  | Gt => (n + 1)%Z
  | Eq => if Z.even n then n else (n + 1)%Z
  end.

(** The binary64 number nearest to [x]: 53 significant bits from the
    binade of [x] down, the subnormal numbers sharing the spacing
    [2 ^ -1074].  [x] is first put in lowest terms. *)
Definition binary64_round (x : Q) : Q :=
  let x := Qred x in
  if Qeq_bool x 0 then 0%Q
  else
    let ulp := Qpow2 (Z.max (binade x) (-1022) - 52) in
    (inject_Z (round_half_even (x / ulp)) * ulp)%Q.

(** [x + y] on floats. *)
Definition float_add (x y : Q) : Q := binary64_round (x + y).

(** The literal [0.6]: the binary64 number nearest to 6/10. *)
Definition float_0_6 : Q := 5404319552844595 # 9007199254740992.

(** [max(iterable, key=key)]: the first item whose key is maximal; an item
    replaces the running maximum only when its key is strictly greater. *)
Fixpoint py_max_from {A : Type} (key : A -> Q) (best : A) (l : list A) : A :=
  match l with
  | [] => best
  | x :: l' => py_max_from key (if Qlt_bool (key best) (key x) then x else best) l'
  end.

Definition py_max_by {A : Type} (key : A -> Q) (l : list A) : option A :=
  match l with
  | [] => None
  | x :: l' => Some (py_max_from key x l')
  end.

(** [max(iterable)] on floats. *)
Definition py_max (l : list Q) : option Q := py_max_by (fun q => q) l.

(** The values [json.loads] can return. *)
#[local] Unset Elimination Schemes.
Inductive json : Type :=
| JNull
| JBool (b : bool)
| JInt (z : Z)
| JFloat (q : Q)
| JStr (s : string)
| JArr (items : list json)
| JObj (members : list (string * json)).
#[local] Set Elimination Schemes.

(** [d.get(key)] and [d.get(key, default)] on a decoded object. *)
Fixpoint assoc_get {V : Type} (key : string) (d : list (string * V)) : option V :=
  match d with
  | [] => None
  | (k, v) :: d' => if String.eqb k key then Some v else assoc_get key d'
  end.

Definition dict_get (d : list (string * json)) (key : string) (default : json) : json :=
  match assoc_get key d with
  | Some v => v
  | None => default
  end.

(** [v == s] for a string literal [s]. *)
Definition py_eq_str (v : json) (s : string) : bool :=
  match v with
  | JStr t => String.eqb t s
  | _ => false
  end.

(** The numeric reading of a value in an ordering comparison against an
    [int]; [None] is Python's [TypeError]. *)
Definition py_number (v : json) : option Q :=
  match v with
  | JInt z => Some (inject_Z z)
  | JFloat q => Some q
  | JBool b => Some (if b then 1%Q else 0%Q)
  | _ => None
  end.

(** [v >= n] *)
Definition py_ge (v : json) (n : Z) : option bool :=
  option_map (fun q => Qle_bool (inject_Z n) q) (py_number v).

(** [v <= n] *)
Definition py_le (v : json) (n : Z) : option bool :=
  option_map (fun q => Qle_bool q (inject_Z n)) (py_number v).

(* ================================================================== *)
(** ** [json.dumps] on a flat dictionary of strings and integers *)

Definition dquote : string := String "034"%char EmptyString.

Definition hex_digit (n : nat) : ascii :=
  match n with
  | 0 => "0" | 1 => "1" | 2 => "2" | 3 => "3" | 4 => "4"
  | 5 => "5" | 6 => "6" | 7 => "7" | 8 => "8" | 9 => "9"
  | 10 => "a" | 11 => "b" | 12 => "c" | 13 => "d" | 14 => "e"
  | _ => "f"
  end%char.

(** ESCAPE_DCT and the [\uXXXX] fallback of [py_encode_basestring_ascii]. *)
Definition escape_char (c : ascii) : string :=
  let n := nat_of_ascii c in
  if Nat.eqb n 34 then "\" ++ dquote
  else if Nat.eqb n 92 then "\\"
  else if Nat.eqb n 8 then "\b"
  else if Nat.eqb n 12 then "\f"
  else if Nat.eqb n 10 then "\n"
  else if Nat.eqb n 13 then "\r"
  else if Nat.eqb n 9 then "\t"
  else if (Nat.leb 32 n && Nat.leb n 126)%bool then String c EmptyString
  else "\u00" ++ String (hex_digit (n / 16)) (String (hex_digit (n mod 16)) EmptyString).

Fixpoint escape_string (s : string) : string :=
  match s with
  | EmptyString => EmptyString
  | String c s' => escape_char c ++ escape_string s'
  end.

Definition json_of_str (s : string) : string := dquote ++ escape_string s ++ dquote.

Definition json_of_int (z : Z) : string := NilZero.string_of_int (Z.to_int z).

Inductive field : Type :=
| FStr (s : string)
| FInt (z : Z).

Definition json_of_field (f : field) : string :=
  match f with
  | FStr s => json_of_str s
  | FInt z => json_of_int z
  end.

Fixpoint json_members (d : list (string * field)) : string :=
  match d with
  | [] => EmptyString
  | [(k, v)] => json_of_str k ++ ": " ++ json_of_field v
  | (k, v) :: d' => json_of_str k ++ ": " ++ json_of_field v ++ ", " ++ json_members d'
  end.

Definition json_dumps (d : list (string * field)) : string :=
  "{" ++ json_members d ++ "}".

(* ================================================================== *)
(** ** Reference instances of the library functions

    A decoder for the flat objects [json_dumps] writes and a seeded
    generator; the model is run on concrete inputs with them. *)

Inductive token : Type :=
| TLBrace | TRBrace | TColon | TComma
| TString (s : string)
| TNumber (z : Z).

Inductive lexer_mode : Type :=
| Idle
| InString (acc : string)
| InEscape (acc : string)
| InUnicode (acc : string) (remaining code : nat)
| InNumber (negative : bool) (magnitude : Z).

Definition snoc_char (s : string) (c : ascii) : string := s ++ String c EmptyString.

Definition digit_value (c : ascii) : option Z :=
  let n := nat_of_ascii c in
  if (Nat.leb 48 n && Nat.leb n 57)%bool then Some (Z.of_nat (n - 48)) else None.

Definition hex_value (c : ascii) : option nat :=
  let n := nat_of_ascii c in
  if (Nat.leb 48 n && Nat.leb n 57)%bool then Some (n - 48)
  else if (Nat.leb 97 n && Nat.leb n 102)%bool then Some (n - 87)
  else if (Nat.leb 65 n && Nat.leb n 70)%bool then Some (n - 55)
  else None.

Definition number_token (negative : bool) (magnitude : Z) : token :=
  TNumber (if negative then (- magnitude)%Z else magnitude).

(** One character read between tokens: the tokens it completes and the
    mode it leaves the lexer in. *)
Definition idle_step (c : ascii) : option (list token * lexer_mode) :=
  let n := nat_of_ascii c in
  if Nat.eqb n 123 then Some ([TLBrace], Idle)
  else if Nat.eqb n 125 then Some ([TRBrace], Idle)
  else if Nat.eqb n 58 then Some ([TColon], Idle)
  else if Nat.eqb n 44 then Some ([TComma], Idle)
  else if Nat.eqb n 34 then Some ([], InString EmptyString)
  else if Nat.eqb n 45 then Some ([], InNumber true 0%Z)
  else if (Nat.eqb n 32 || Nat.eqb n 9 || Nat.eqb n 10 || Nat.eqb n 13)%bool then Some ([], Idle)
  else match digit_value c with
       | Some d => Some ([], InNumber false d)
       | None => None
       end.

Definition unescape (c : ascii) : option ascii :=
  let n := nat_of_ascii c in
  if (Nat.eqb n 34 || Nat.eqb n 92 || Nat.eqb n 47)%bool then Some c
  else if Nat.eqb n 98 then Some (ascii_of_nat 8)
  else if Nat.eqb n 102 then Some (ascii_of_nat 12)
  else if Nat.eqb n 110 then Some (ascii_of_nat 10)
  else if Nat.eqb n 114 then Some (ascii_of_nat 13)
  else if Nat.eqb n 116 then Some (ascii_of_nat 9)
  else None.

Fixpoint lex (m : lexer_mode) (s : string) : option (list token) :=
  match s with
  | EmptyString =>
      match m with
      | Idle => Some []
      | InNumber neg z => Some [number_token neg z]
      | _ => None
      end
  | String c s' =>
      match m with
      | Idle =>
          match idle_step c with
          | Some (ts, m') => option_map (app ts) (lex m' s')
          | None => None
          end
      | InString acc =>
          if Nat.eqb (nat_of_ascii c) 34 then option_map (cons (TString acc)) (lex Idle s')
          else if Nat.eqb (nat_of_ascii c) 92 then lex (InEscape acc) s'
          else lex (InString (snoc_char acc c)) s'
      | InEscape acc =>
          if Nat.eqb (nat_of_ascii c) 117 then lex (InUnicode acc 4 0) s'
          else match unescape c with
               | Some c' => lex (InString (snoc_char acc c')) s'
               | None => None
               end
      | InUnicode acc remaining code =>
          match hex_value c with
          | None => None
          | Some h =>
              let code' := 16 * code + h in
              match remaining with
              | 0 => None
              | 1 => if Nat.ltb code' 256
                     then lex (InString (snoc_char acc (ascii_of_nat code'))) s'
                     else None
              | S k => lex (InUnicode acc k code') s'
              end
          end
      | InNumber neg z =>
          match digit_value c with
          | Some d => lex (InNumber neg (10 * z + d)%Z) s'
          | None =>
              match idle_step c with
              | Some (ts, m') => option_map (app (number_token neg z :: ts)) (lex m' s')
              | None => None
              end
          end
      end
  end.

(** [d[key] = v]: overwrite in place, or append. *)
Fixpoint dict_set (d : list (string * json)) (key : string) (v : json) : list (string * json) :=
  match d with
  | [] => [(key, v)]
  | (k, w) :: d' => if String.eqb k key then (k, v) :: d' else (k, w) :: dict_set d' key v
  end.

Definition token_value (t : token) : option json :=
  match t with
  | TString s => Some (JStr s)
  | TNumber z => Some (JInt z)
  | _ => None
  end.

Fixpoint parse_members (ts : list token) (acc : list (string * json)) : option (list (string * json)) :=
  match ts with
  | TString k :: TColon :: t :: rest =>
      match token_value t with
      | None => None
      | Some v =>
          let acc' := dict_set acc k v in
          match rest with
          | [TRBrace] => Some acc'
          | TComma :: rest' => parse_members rest' acc'
          | _ => None
          end
      end
  | _ => None
  end.

Definition flat_loads (s : string) : option json :=
  match lex Idle s with
  | Some [TLBrace; TRBrace] => Some (JObj [])
  | Some (TLBrace :: ts) => option_map JObj (parse_members ts [])
  | _ => None
  end.

(** [str(v)] on the values [flat_loads] returns. *)
Definition flat_str (v : json) : string :=
  match v with
  | JStr s => s
  | JInt z => json_of_int z
  | _ => EmptyString
  end.

(** A seeded linear congruential generator. *)
Definition lcg_modulus : positive := 2147483648.

Definition lcg_next (seed : Z) : Z := ((1103515245 * seed + 12345) mod Zpos lcg_modulus)%Z.

Definition lcg_random (seed : Z) : Q * Z :=
  let seed' := lcg_next seed in (Qmake seed' lcg_modulus, seed').

Definition lcg_randbelow (n : nat) (seed : Z) : nat * Z :=
  let seed' := lcg_next seed in (Z.to_nat (seed' mod Z.of_nat n), seed').

(* ================================================================== *)
(** ** Data model: the tables and the request bodies

    One record per table, with the columns the program reads or writes.
    The surrogate keys of [cycle_data], [q_tables] and [q_table_history]
    are never read and are left out.  The [users] table, which the
    learning core does not read, is kept apart from these four tables
    (see [create_user] and [create_sample_users]). *)

(** [datetime.now()]: an instant on the time line and its local hour. *)
Record datetime : Type := { dt_instant : Z; dt_hour : Z }.

Module CycleData.
Record t : Type := mk {
  user_id : string;
  timestamp : datetime;
  cycle_phase : string;
  sleep_score : Z;
  mood_score : Z;
  stress_level : Z;
  pain_level : Z;
  energy_level : Z
}.
End CycleData.

Module QTable.
Record t : Type := mk {
  user_id : string;
  state : string;
  action : string;
  q_value : Q
}.
End QTable.

Module QTableHistory.
Record t : Type := mk {
  user_id : string;
  state : string;
  action : string;
  q_value : Q;
  timestamp : datetime;
  action_taken : Z;
  reward : Q;
  next_day_energy : option Z;
  next_day_mood : option Z
}.
End QTableHistory.

Module Notification.
Record t : Type := mk {
  id : Z;
  user_id : string;
  message : string;
  timestamp : datetime;
  action : string;
  state : string;
  action_taken : Z;
  effectiveness : Q
}.
End Notification.

Module NotificationResponse.
Record t : Type := mk {
  notification_id : Z;
  user_id : string;
  message : string;
  action : string
}.
End NotificationResponse.

Module NotificationFeedback.
Record t : Type := mk {
  notification_id : Z;
  action_taken : Z;
  effectiveness : Q;
  next_day_energy : Z;
  next_day_mood : Z
}.

(** The integers of a request body. *)
Definition integers (feedback : t) : list Z :=
  [notification_id feedback; action_taken feedback; next_day_energy feedback;
   next_day_mood feedback].
End NotificationFeedback.

Record database : Type := {
  cycle_data : list CycleData.t;
  q_tables : list QTable.t;
  q_table_history : list QTableHistory.t;
  notifications : list Notification.t
}.

(** *** Queries *)

(** [order_by(CycleData.timestamp.desc()).first()]: a row of greatest
    timestamp (the earliest inserted one among equals). *)
Fixpoint latest (rows : list CycleData.t) : option CycleData.t :=
  match rows with
  | [] => None
  | r :: rows' =>
      match latest rows' with
      | None => Some r
      | Some r' =>
          if (dt_instant (CycleData.timestamp r) <? dt_instant (CycleData.timestamp r'))%Z
          then Some r' else Some r
      end
  end.

Definition latest_cycle_data (user_id : string) (d : database) : option CycleData.t :=
  latest (filter (fun r => String.eqb (CycleData.user_id r) user_id) (cycle_data d)).

Definition q_matches (user_id state action : string) (r : QTable.t) : bool :=
  (String.eqb (QTable.user_id r) user_id
   && String.eqb (QTable.state r) state
   && String.eqb (QTable.action r) action)%bool.

(** [query(QTable).filter_by(user_id, state, action).first()] *)
Definition first_q (user_id state action : string) (d : database) : option QTable.t :=
  find (q_matches user_id state action) (q_tables d).

(** [query(Notification).filter_by(id=...).first()] *)
Definition first_notification (nid : Z) (d : database) : option Notification.t :=
  find (fun n => Z.eqb (Notification.id n) nid) (notifications d).

(** *** Writes *)

(** [q_entry.q_value = v] on the row [first_q] returned. *)
Fixpoint assign_q (user_id state action : string) (v : Q) (rows : list QTable.t) : list QTable.t :=
  match rows with
  | [] => []
  | r :: rows' =>
      if q_matches user_id state action r
      then QTable.mk (QTable.user_id r) (QTable.state r) (QTable.action r) v :: rows'
      else r :: assign_q user_id state action v rows'
  end.

(** A notification annotated with feedback. *)
Definition with_feedback (n : Notification.t) (action_taken : Z) (effectiveness : Q)
  : Notification.t :=
  Notification.mk (Notification.id n) (Notification.user_id n) (Notification.message n)
    (Notification.timestamp n) (Notification.action n) (Notification.state n)
    action_taken effectiveness.

(** [notification.action_taken = a; notification.effectiveness = e] on the
    row [first_notification] returned. *)
Fixpoint assign_feedback (nid : Z) (a : Z) (e : Q) (rows : list Notification.t)
  : list Notification.t :=
  match rows with
  | [] => []
  | n :: rows' =>
      if Z.eqb (Notification.id n) nid
      then with_feedback n a e :: rows'
      else n :: assign_feedback nid a e rows'
  end.

(** The integer primary key of a new row: one more than the greatest. *)
Definition next_id (rows : list Notification.t) : Z :=
  (1 + fold_right (fun n m => Z.max (Notification.id n) m) 0 rows)%Z.

Definition with_q_tables (d : database) (rows : list QTable.t) : database :=
  {| cycle_data := cycle_data d; q_tables := rows;
     q_table_history := q_table_history d; notifications := notifications d |}.

Definition with_history (d : database) (rows : list QTableHistory.t) : database :=
  {| cycle_data := cycle_data d; q_tables := q_tables d;
     q_table_history := rows; notifications := notifications d |}.

Definition with_notifications (d : database) (rows : list Notification.t) : database :=
  {| cycle_data := cycle_data d; q_tables := q_tables d;
     q_table_history := q_table_history d; notifications := rows |}.

(** *** The two service objects *)

Module Environment.
Record t : Type := mk {
  user_id : string;
  state_features : list string;
  actions : list string
}.

Definition init (user_id : string) : t :=
  mk user_id
     ["cycle_phase"; "sleep_score"; "mood_score";
      "stress_level"; "pain_level"; "time_of_day"; "energy_level"]
     ["stretch_prompt"; "mindfulness"; "magnesium_suggestion";
      "nap_suggestion"; "healthy_snack"; "movement_break"].
End Environment.

Module Agent.
Record t : Type := mk {
  user_id : string;
  actions : list string;
  alpha : Q;
  gamma : Q;
  epsilon : Q
}.

(** The constructor with its default learning rate, discount factor and
    exploration rate. *)
Definition init (user_id : string) (actions : list string) : t :=
  mk user_id actions (1 # 10) (9 # 10) (1 # 10).
End Agent.

Inductive exn : Type :=
| HTTPException (status_code : Z) (detail : string)
| JSONDecodeError
| AttributeError
| TypeError
| ValueError
| IndexError
| OverflowError.

(** An [int] the SQLite driver binds as an INTEGER parameter: a signed
    64-bit number.  Binding any other raises OverflowError: in a query at
    once, in a write at the commit that flushes it, and that commit is
    rolled back. *)
Definition sqlite_integer (z : Z) : bool := ((- 2 ^ 63 <=? z) && (z <? 2 ^ 63))%Z.

(* ================================================================== *)
(** ** Vocabulary of the specification *)

(** The Q-Value Table read as a partial map: [Q(s, a)] of a user. *)
Definition lookup_q (user_id state action : string) (d : database) : option Q :=
  option_map QTable.q_value (first_q user_id state action d).

(** [d'] is [d] with Q-value entries added: every entry of [d] is read back
    unchanged and the other tables are the same. *)
Definition q_grows (d d' : database) : Prop :=
  cycle_data d' = cycle_data d
  /\ q_table_history d' = q_table_history d
  /\ notifications d' = notifications d
  /\ forall u s a v, lookup_q u s a d = Some v -> lookup_q u s a d' = Some v.

(** The State Key of the six observation fields and a time-of-day bucket. *)
Definition state_key (phase : string) (sleep mood stress pain : Z) (bucket : string)
    (energy : Z) : string :=
  json_dumps
    [("cycle_phase", FStr phase); ("sleep_score", FInt sleep); ("mood_score", FInt mood);
     ("stress_level", FInt stress); ("pain_level", FInt pain); ("time_of_day", FStr bucket);
     ("energy_level", FInt energy)].

(** The six actions, in their enumeration order. *)
Definition six_actions : list string :=
  Environment.actions (Environment.init EmptyString).

(** The decision-time boost [b(a)] of the pain-management actions. *)
Definition boost (action : string) : Q :=
  if existsb (String.eqb action) ["magnesium_suggestion"; "stretch_prompt"]
  then 5 # 10 else 0.

(** [Q(s, a)] as a number (0 where the table has no entry) and the boosted
    value [Q(s, a) + b(a)]: the floating-point sum for the two actions that
    have a boost, the value itself for the others. *)
Definition q_of (user_id state : string) (d : database) (action : string) : Q :=
  match lookup_q user_id state action d with
  | Some v => v
  | None => 0
  end.

Definition boosted_value (action : string) (q : Q) : Q :=
  if existsb (String.eqb action) ["magnesium_suggestion"; "stretch_prompt"]
  then float_add q (boost action) else q.

Definition boosted_q (user_id state : string) (d : database) (action : string) : Q :=
  boosted_value action (q_of user_id state d action).

(* ================================================================== *)
(** ** The other request bodies and tables *)

Module CycleDataInput.
Record t : Type := mk {
  user_id : string;
  cycle_phase : string;
  sleep_score : Z;
  mood_score : Z;
  stress_level : Z;
  pain_level : Z;
  energy_level : Z
}.

(** The integers of the row made from a request body. *)
Definition integers (data : t) : list Z :=
  [sleep_score data; mood_score data; stress_level data; pain_level data;
   energy_level data].
End CycleDataInput.

Definition with_cycle_data (d : database) (rows : list CycleData.t) : database :=
  {| cycle_data := rows; q_tables := q_tables d;
     q_table_history := q_table_history d; notifications := notifications d |}.

(** The decoded form of a State Key: what [json.loads] returns on it. *)
Definition state_dict (phase : string) (sleep mood stress pain : Z) (bucket : string)
    (energy : Z) : list (string * json) :=
  [("cycle_phase", JStr phase); ("sleep_score", JInt sleep); ("mood_score", JInt mood);
   ("stress_level", JInt stress); ("pain_level", JInt pain); ("time_of_day", JStr bucket);
   ("energy_level", JInt energy)].


(* ================================================================== *)
(** ** Analytics: per-action reward statistics *)

(** [d[key] = f(d[key])] on a dict kept as an association list. *)
Fixpoint assoc_update {V : Type} (key : string) (f : V -> V) (d : list (string * V))
  : list (string * V) :=
  match d with
  | [] => []
  | (k, v) :: d' =>
      if String.eqb k key then (k, f v) :: d' else (k, v) :: assoc_update key f d'
  end.

(** One turn of the first loop of [get_user_analytics]: the entry of the
    action is created at zero if missing, then its total and count grow. *)
Definition tally_step (d : list (string * (Q * Z))) (entry : QTableHistory.t)
  : list (string * (Q * Z)) :=
  let action := QTableHistory.action entry in
  let d :=
    match assoc_get action d with
    | Some _ => d
    | None => d ++ [(action, (0%Q, 0%Z))]
    end in
  assoc_update action
    (fun tc => ((fst tc + QTableHistory.reward entry)%Q, (snd tc + 1)%Z)) d.

Definition tally (history : list QTableHistory.t) : list (string * (Q * Z)) :=
  fold_left tally_step history [].

Module ActionStats.
Record t : Type := mk {
  total_reward : Q;
  count : Z;
  average : Q
}.
End ActionStats.

(** The second loop: the average of an entry. *)
Definition with_average (tc : Q * Z) : ActionStats.t :=
  ActionStats.mk (fst tc) (snd tc)
    (if (0 <? snd tc)%Z then (fst tc / inject_Z (snd tc))%Q else 0%Q).

(** [sorted(items, key=key, reverse=True)]: the stable sort into
    descending key order, written as an insertion sort. *)
Fixpoint insert_desc {A : Type} (key : A -> Q) (x : A) (l : list A) : list A :=
  match l with
  | [] => [x]
  | y :: l' => if Qlt_bool (key x) (key y) then y :: insert_desc key x l' else x :: y :: l'
  end.

Definition py_sorted_desc {A : Type} (key : A -> Q) (l : list A) : list A :=
  fold_right (insert_desc key) [] l.

Module Analytics.
Record t : Type := mk {
  top_actions : list string;
  action_effectiveness : list (string * ActionStats.t)
}.
End Analytics.

(** [query(QTableHistory).filter_by(user_id=user_id).all()] *)
Definition history_of (user_id : string) (d : database) : list QTableHistory.t :=
  filter (fun h => String.eqb (QTableHistory.user_id h) user_id) (q_table_history d).

Definition user_analytics (user_id : string) (d : database) : Analytics.t :=
  let history := history_of user_id d in
  let action_effectiveness :=
    map (fun kv => (fst kv, with_average (snd kv))) (tally history) in
  let top_actions :=
    firstn 3 (py_sorted_desc (fun x => ActionStats.average (snd x)) action_effectiveness) in
  Analytics.mk (map fst top_actions) action_effectiveness.

(** The rewards the history holds for one action, and their sum. *)
Definition rewards_of (action : string) (history : list QTableHistory.t) : list Q :=
  map QTableHistory.reward
    (filter (fun h => String.eqb (QTableHistory.action h) action) history).

Definition Qsum (l : list Q) : Q := fold_right Qplus 0%Q l.


(* ================================================================== *)
(** ** The users table *)

Module User.
Record t : Type := mk {
  id : Z;
  user_id : string;
  created_at : datetime
}.
End User.

Module UserCreate.
Record t : Type := mk {
  user_id : string
}.
End UserCreate.

(** [query(User).filter(User.user_id == user_id).first()] *)
Definition first_user (user_id : string) (users : list User.t) : option User.t :=
  find (fun u => String.eqb (User.user_id u) user_id) users.

Definition next_user_id (users : list User.t) : Z :=
  (1 + fold_right (fun u m => Z.max (User.id u) m) 0 users)%Z.

(** [create_user], on the one table it reads and writes: the row returned
    and the table afterwards. *)
Definition create_user (user : UserCreate.t) (now : datetime) (users : list User.t)
  : User.t * list User.t :=
  match first_user (UserCreate.user_id user) users with
  | Some existing_user => (existing_user, users)
  | None =>
      let db_user := User.mk (next_user_id users) (UserCreate.user_id user) now in
      (db_user, users ++ [db_user])
  end.


(* ------------------------------------------------------------------ *)
(** *** [populate_db.py]: the sample-data script

    The script fills the tables of the service with sample rows.  Its
    [print] calls are left out.  Instants are counted in microseconds, the
    resolution of [datetime], and day counts are taken within the range
    of [datetime], so that no date arithmetic overflows.  The clock is
    read again at every [datetime.now()] and for every timestamp default:
    the scripts take the readings as a function of the item or row they
    are made for. *)

(** [timedelta(days=n)] *)
Definition timedelta_days (n : Z) : Z := (n * 86400000000)%Z.

(** [t + timedelta(days=n)]: a whole number of days moves the instant and
    keeps the hour of the day. *)
Definition datetime_add_days (t : datetime) (n : Z) : datetime :=
  {| dt_instant := dt_instant t + timedelta_days n; dt_hour := dt_hour t |}.

(** [seq[i]] on a list, a negative index counting from the end. *)
Definition py_index {A : Type} (l : list A) (i : Z) : option A :=
  if (i <? 0)%Z
  then if (0 <=? Z.of_nat (List.length l) + i)%Z
       then nth_error l (Z.to_nat (Z.of_nat (List.length l) + i))
       else None
  else nth_error l (Z.to_nat i).

(** The items of a list with their positions. *)
Definition numbered {A : Type} (l : list A) : list (nat * A) :=
  combine (seq 0 (List.length l)) l.

(** [min(10, max(1, x))] *)
Definition clamp_score (x : Z) : Z := Z.min 10 (Z.max 1 x).

Definition cycle_phases : list string :=
  ["menstrual"; "follicular"; "ovulation"; "luteal"].

Definition phase_durations : list (string * Z) :=
  [("menstrual", 5); ("follicular", 7); ("ovulation", 2); ("luteal", 14)]%Z.

Definition base_scores : list (string * list (string * Z)) :=
  [("menstrual",
    [("sleep", 6); ("mood", 5); ("stress", 7); ("pain", 7); ("energy", 4)]);
   ("follicular",
    [("sleep", 7); ("mood", 7); ("stress", 5); ("pain", 3); ("energy", 7)]);
   ("ovulation",
    [("sleep", 8); ("mood", 8); ("stress", 4); ("pain", 2); ("energy", 8)]);
   ("luteal",
    [("sleep", 6); ("mood", 6); ("stress", 6); ("pain", 4); ("energy", 6)])]%Z.

(** The [actions] list of [initialize_q_tables] and of
    [create_sample_notifications]. *)
Definition sample_actions : list string :=
  ["stretch_prompt"; "mindfulness"; "magnesium_suggestion";
   "nap_suggestion"; "healthy_snack"; "movement_break"].

Definition base_q_values : list (string * list (string * Q)) :=
  [("menstrual",
    [("stretch_prompt", 3 # 10); ("mindfulness", 4 # 10);
     ("magnesium_suggestion", 6 # 10); ("nap_suggestion", 5 # 10);
     ("healthy_snack", 4 # 10); ("movement_break", 2 # 10)]);
   ("follicular",
    [("stretch_prompt", 4 # 10); ("mindfulness", 3 # 10);
     ("magnesium_suggestion", 2 # 10); ("nap_suggestion", 3 # 10);
     ("healthy_snack", 5 # 10); ("movement_break", 6 # 10)]);
   ("ovulation",
    [("stretch_prompt", 5 # 10); ("mindfulness", 4 # 10);
     ("magnesium_suggestion", 2 # 10); ("nap_suggestion", 2 # 10);
     ("healthy_snack", 4 # 10); ("movement_break", 6 # 10)]);
   ("luteal",
    [("stretch_prompt", 3 # 10); ("mindfulness", 5 # 10);
     ("magnesium_suggestion", 4 # 10); ("nap_suggestion", 4 # 10);
     ("healthy_snack", 5 # 10); ("movement_break", 3 # 10)])]%Q.

(** The sample state of a phase in [initialize_q_tables]. *)
Definition sample_state (phase : string) : string :=
  state_key phase 7 7 5 4 "morning" 6.

(** [f"user_{i+1}"], with [str] of an [int] the decimal numeral
    [json.dumps] writes too. *)
Definition sample_user_id (i : nat) : string :=
  ("user_" ++ json_of_int (Z.of_nat i + 1))%string.

(** [create_sample_users], on the [users] table: the session of the script
    does not flush before a query, so each lookup reads the table as it
    was at the start, and the commit inserts the new rows in the order
    they were added.  One turn of the loop, on the list returned so far
    and the rows waiting for the commit: *)
Definition create_sample_users_step (table : list User.t) (now : Z -> datetime)
    (acc : list User.t * list User.t) (i : nat) : list User.t * list User.t :=
  let (users, pending) := acc in
  let user_id := sample_user_id i in
  match first_user user_id table with
  | Some existing_user => (users ++ [existing_user], pending)
  | None =>
      let id := next_user_id (table ++ pending) in
      let user := User.mk id user_id (now id) in
      (users ++ [user], pending ++ [user])
  end.

(** The list returned and the table after the commit; [now id] is the
    clock reading when the row [id] is inserted. *)
Definition create_sample_users (num_users : nat) (now : Z -> datetime)
    (table : list User.t) : list User.t * list User.t :=
  let (users, pending) :=
    fold_left (create_sample_users_step table now) (seq 0 num_users) ([], []) in
  (users, table ++ pending).


(** A row of sample observations of [user_id]: one of the four phases and
    five scores on the 1..10 scale. *)
Definition sample_cycle_row (user_id : string) (r : CycleData.t) : Prop :=
  CycleData.user_id r = user_id
  /\ In (CycleData.cycle_phase r) cycle_phases
  /\ (1 <= CycleData.sleep_score r <= 10)%Z
  /\ (1 <= CycleData.mood_score r <= 10)%Z
  /\ (1 <= CycleData.stress_level r <= 10)%Z
  /\ (1 <= CycleData.pain_level r <= 10)%Z
  /\ (1 <= CycleData.energy_level r <= 10)%Z.

(** The [days] consecutive days that begin at [start]. *)
Definition consecutive_days (start : datetime) (days : nat) : list datetime :=
  map (fun i => datetime_add_days start (Z.of_nat i)) (seq 0 days).


(** The (user, state, action) triples [initialize_q_tables] writes a row
    for, in the order of its three loops. *)
Definition sample_triples (users : list User.t) : list (string * string * string) :=
  flat_map
    (fun user =>
       flat_map
         (fun phase =>
            map (fun action => (User.user_id user, sample_state phase, action))
              sample_actions)
         cycle_phases)
    users.

Definition q_triple (r : QTable.t) : string * string * string :=
  (QTable.user_id r, QTable.state r, QTable.action r).


(** A sample notification of [user_id], made from the observation [o]. *)
Definition sample_notification (user_id : string) (o : CycleData.t) (n : Notification.t)
  : Prop :=
  Notification.user_id n = user_id
  /\ In (Notification.action n) sample_actions
  /\ Notification.message n = ("Sample notification for " ++ Notification.action n)%string
  /\ Notification.state n
     = state_key (CycleData.cycle_phase o) (CycleData.sleep_score o)
         (CycleData.mood_score o) (CycleData.stress_level o) (CycleData.pain_level o)
         "morning" (CycleData.energy_level o)
  /\ (Notification.action_taken n = 0%Z \/ Notification.action_taken n = 1%Z)
  /\ (5 <= Notification.effectiveness n)%Q /\ (Notification.effectiveness n <= 9)%Q.


(** What one history row does to the running total and count of [action]. *)
Definition add_if (action : string) (tc : Q * Z) (entry : QTableHistory.t) : Q * Z :=
  if String.eqb (QTableHistory.action entry) action
  then ((fst tc + QTableHistory.reward entry)%Q, (snd tc + 1)%Z)
  else tc.

(** The number the lexer accumulates over the digits of [d]. *)
Fixpoint uint_value (d : Decimal.uint) (acc : Z) : Z :=
  match d with
  | Decimal.Nil => acc
  | Decimal.D0 d' => uint_value d' (10 * acc + 0)
  | Decimal.D1 d' => uint_value d' (10 * acc + 1)
  | Decimal.D2 d' => uint_value d' (10 * acc + 2)
  | Decimal.D3 d' => uint_value d' (10 * acc + 3)
  | Decimal.D4 d' => uint_value d' (10 * acc + 4)
  | Decimal.D5 d' => uint_value d' (10 * acc + 5)
  | Decimal.D6 d' => uint_value d' (10 * acc + 6)
  | Decimal.D7 d' => uint_value d' (10 * acc + 7)
  | Decimal.D8 d' => uint_value d' (10 * acc + 8)
  | Decimal.D9 d' => uint_value d' (10 * acc + 9)
  end%Z.

(* ================================================================== *)
(** ** A worked scenario

    One user in a high-pain menstrual state, queried in the morning, with
    the Q-values of that state seeded and one notification outstanding. *)

Definition scenario_recorded : datetime := {| dt_instant := 1000; dt_hour := 21 |}.

Definition scenario_now : datetime := {| dt_instant := 1043; dt_hour := 9 |}.

Definition scenario_observation : CycleData.t :=
  CycleData.mk "user_1" scenario_recorded "menstrual" 6 5 7 8 4.

Definition scenario_key : string := state_key "menstrual" 6 5 7 8 "morning" 4.

Definition scenario_q_tables : list QTable.t :=
  [QTable.mk "user_1" scenario_key "stretch_prompt" (85 # 100);
   QTable.mk "user_1" scenario_key "mindfulness" (1 # 10);
   QTable.mk "user_1" scenario_key "magnesium_suggestion" (9 # 10);
   QTable.mk "user_1" scenario_key "nap_suggestion" (1 # 10);
   QTable.mk "user_1" scenario_key "healthy_snack" (1 # 10);
   QTable.mk "user_1" scenario_key "movement_break" (1 # 10)].

Definition scenario_notification : Notification.t :=
  Notification.mk 1 "user_1" "Remember your magnesium supplement to support your body's needs"
    scenario_recorded "magnesium_suggestion" scenario_key 0 0.

Definition scenario_db : database :=
  {| cycle_data := [scenario_observation];
     q_tables := scenario_q_tables;
     q_table_history := [];
     notifications := [scenario_notification] |}.

(** The same user before any Q-value was read. *)
Definition fresh_db : database :=
  {| cycle_data := [scenario_observation];
     q_tables := [];
     q_table_history := [];
     notifications := [] |}.

(** Another user with the same scores, recorded at another time. *)
Definition other_observation : CycleData.t :=
  CycleData.mk "user_2" {| dt_instant := 2000; dt_hour := 14 |} "menstrual" 6 5 7 8 4.

Definition other_db : database :=
  {| cycle_data := [scenario_observation; other_observation];
     q_tables := [];
     q_table_history := [];
     notifications := [] |}.

Definition feedback_taken : NotificationFeedback.t :=
  NotificationFeedback.mk 1 1 8 7 7.

Definition feedback_ignored : NotificationFeedback.t :=
  NotificationFeedback.mk 1 0 9 10 10.


(** The same user in the follicular phase, pain 3: the plain arg-max. *)
Definition calm_key : string := state_key "follicular" 7 7 5 3 "morning" 7.

Definition calm_db : database :=
  {| cycle_data := [CycleData.mk "user_1" scenario_recorded "follicular" 7 7 5 3 7];
     q_tables :=
       [QTable.mk "user_1" calm_key "stretch_prompt" (4 # 10);
        QTable.mk "user_1" calm_key "mindfulness" (3 # 10);
        QTable.mk "user_1" calm_key "magnesium_suggestion" (2 # 10);
        QTable.mk "user_1" calm_key "nap_suggestion" (3 # 10);
        QTable.mk "user_1" calm_key "healthy_snack" (6 # 10);
        QTable.mk "user_1" calm_key "movement_break" (6 # 10)];
     q_table_history := [];
     notifications := [] |}.

Definition new_reading : CycleDataInput.t :=
  CycleDataInput.mk "user_1" "luteal" 6 6 6 4 6.


(** Two sample users, the second without an observation in [scenario_db]. *)
Definition scenario_users : list User.t :=
  [User.mk 1 "user_1" scenario_recorded; User.mk 2 "user_2" scenario_recorded].


(** The scenario's store with the Q-values as the floats the code holds
    for the literals 0.85, 0.1 and 0.9. *)
Definition float_q_tables : list QTable.t :=
  [QTable.mk "user_1" scenario_key "stretch_prompt" (binary64_round (85 # 100));
   QTable.mk "user_1" scenario_key "mindfulness" (binary64_round (1 # 10));
   QTable.mk "user_1" scenario_key "magnesium_suggestion" (binary64_round (9 # 10));
   QTable.mk "user_1" scenario_key "nap_suggestion" (binary64_round (1 # 10));
   QTable.mk "user_1" scenario_key "healthy_snack" (binary64_round (1 # 10));
   QTable.mk "user_1" scenario_key "movement_break" (binary64_round (1 # 10))].

Definition float_db : database :=
  {| cycle_data := [scenario_observation];
     q_tables := float_q_tables;
     q_table_history := [];
     notifications := [] |}.





(* ================================================================== *)
(** ** The program *)

Section Core.

#[local] Set Default Proof Using "Type".

(** The process-wide generator behind [random.random()] and the index
    draw of [random.choice], the JSON decoder and [str]. *)
Variable rng : Type.
Variable rng_random : rng -> Q * rng.
Variable rng_randbelow : nat -> rng -> nat * rng.
Variable json_loads : string -> option json.
Variable py_str : json -> string.

Record world : Type := { db : database; gen : rng }.

(** *** State and exceptions *)

Definition M (A : Type) : Type := world -> (exn + A) * world.

Definition ret {A : Type} (a : A) : M A := fun w => (inr a, w).

Definition bind {A B : Type} (m : M A) (f : A -> M B) : M B :=
  fun w =>
    match m w with
    | (inl e, w') => (inl e, w')
    | (inr a, w') => f a w'
    end.

Definition raise {A : Type} (e : exn) : M A := fun w => (inl e, w).

Notation "x <- c ;; k" := (bind c (fun x => k))
  (at level 61, c at next level, right associativity).
Notation "c ;; k" := (bind c (fun _ => k))
  (at level 61, right associativity).

Definition query {A : Type} (q : database -> A) : M A := fun w => (inr (q (db w)), w).

Definition modify (f : database -> database) : M unit :=
  fun w => (inr tt, {| db := f (db w); gen := gen w |}).

Definition from_option {A : Type} (e : exn) (o : option A) : M A :=
  match o with
  | Some a => ret a
  | None => raise e
  end.

Fixpoint for_each {A B : Type} (l : list A) (f : A -> M B) : M (list B) :=
  match l with
  | [] => ret []
  | x :: l' => y <- f x ;; ys <- for_each l' f ;; ret (y :: ys)
  end.

(** *** The [random] module *)

Definition random : M Q :=
  fun w => let (r, g) := rng_random (gen w) in (inr r, {| db := db w; gen := g |}).

(** [random.uniform(a, b)] is [a + (b - a) * random()]. *)
Definition random_uniform (a b : Q) : M Q :=
  r <- random ;; ret (a + (b - a) * r)%Q.

(** [random.choice(seq)] is [seq[randbelow(len(seq))]]. *)
Definition random_choice {A : Type} (seq : list A) : M A :=
  match seq with
  | [] => raise IndexError
  | _ =>
      fun w =>
        let (i, g) := rng_randbelow (List.length seq) (gen w) in
        match nth_error seq i with
        | Some x => (inr x, {| db := db w; gen := g |})
        | None => (inl IndexError, {| db := db w; gen := g |})
        end
  end.

(** *** Session writes *)

(** The statements of a query or a commit bind the given integers: they go
    through when the driver can bind them all and raise otherwise,
    leaving the store as it was. *)
Definition bind_integers (zs : list Z) : M unit :=
  if forallb sqlite_integer zs then ret tt else raise OverflowError.

Definition db_add_q (row : QTable.t) : M unit :=
  modify (fun d => with_q_tables d (q_tables d ++ [row])).

Definition db_add_history (row : QTableHistory.t) : M unit :=
  modify (fun d => with_history d (q_table_history d ++ [row])).

Definition db_add_notification (user_id message action state : string) (now : datetime)
  : M Notification.t :=
  fun w =>
    let n := Notification.mk (next_id (notifications (db w))) user_id message now
               action state 0%Z 0%Q in
    (inr n, {| db := with_notifications (db w) (notifications (db w) ++ [n]); gen := gen w |}).

(** *** MenstrualCycleEnvironment *)

Definition time_of_day (current_hour : Z) : string :=
  if ((5 <=? current_hour) && (current_hour <? 12))%Z%bool then "morning"
  else if ((12 <=? current_hour) && (current_hour <? 17))%Z%bool then "afternoon"
  else if ((17 <=? current_hour) && (current_hour <? 22))%Z%bool then "evening"
  else "night".

Definition get_current_state (self : Environment.t) (now : datetime) : M (option string) :=
  cycle_data <- query (latest_cycle_data (Environment.user_id self)) ;;
  match cycle_data with
  | None => ret None
  | Some cycle_data =>
      let current_hour := dt_hour now in
      let state :=
        [("cycle_phase", FStr (CycleData.cycle_phase cycle_data));
         ("sleep_score", FInt (CycleData.sleep_score cycle_data));
         ("mood_score", FInt (CycleData.mood_score cycle_data));
         ("stress_level", FInt (CycleData.stress_level cycle_data));
         ("pain_level", FInt (CycleData.pain_level cycle_data));
         ("time_of_day", FStr (time_of_day current_hour));
         ("energy_level", FInt (CycleData.energy_level cycle_data))] in
      ret (Some (json_dumps state))
  end.

Definition reward_function (self : Environment.t) (notification_feedback : NotificationFeedback.t)
  : M Q :=
  let action_taken := NotificationFeedback.action_taken notification_feedback in
  let effectiveness := NotificationFeedback.effectiveness notification_feedback in
  let next_day_energy := NotificationFeedback.next_day_energy notification_feedback in
  let next_day_mood := NotificationFeedback.next_day_mood notification_feedback in
  if (action_taken =? 0)%Z then ret (inject_Z (-1))
  else
    let immediate_reward := (effectiveness - inject_Z 5)%Q in
    prev_data <- query (latest_cycle_data (Environment.user_id self)) ;;
    let improvement_reward :=
      match prev_data with
      | Some prev_data =>
          let energy_improvement := (next_day_energy - CycleData.energy_level prev_data)%Z in
          let mood_improvement := (next_day_mood - CycleData.mood_score prev_data)%Z in
          (inject_Z (energy_improvement + mood_improvement) / inject_Z 2)%Q
      | None => inject_Z 0
      end in
    let total_reward := (immediate_reward + improvement_reward)%Q in
    ret total_reward.

(** *** MenstrualCycleQLearningAgent *)

Definition get_q_value (self : Agent.t) (state action : string) : M Q :=
  q_entry <- query (first_q (Agent.user_id self) state action) ;;
  match q_entry with
  | Some q_entry => ret (QTable.q_value q_entry)
  | None =>
      new_q <- random_uniform (- (1 # 10)) (1 # 10) ;;
      db_add_q (QTable.mk (Agent.user_id self) state action new_q) ;;
      ret new_q
  end.

Definition update_q_value (self : Agent.t) (state action : string) (reward : Q)
    (next_state : string) (action_taken : Z) (effectiveness : Q)
    (next_day_energy next_day_mood : option Z) (now : datetime) : M unit :=
  current_q <- get_q_value self state action ;;
  next_qs <- for_each (Agent.actions self) (fun a => get_q_value self next_state a) ;;
  max_next_q <- from_option ValueError (py_max next_qs) ;;
  let new_q :=
    (current_q + Agent.alpha self * (reward + Agent.gamma self * max_next_q - current_q))%Q in
  q_entry <- query (first_q (Agent.user_id self) state action) ;;
  match q_entry with
  | Some _ =>
      modify (fun d => with_q_tables d
                         (assign_q (Agent.user_id self) state action new_q (q_tables d)))
  | None => db_add_q (QTable.mk (Agent.user_id self) state action new_q)
  end ;;
  db_add_history
    (QTableHistory.mk (Agent.user_id self) state action new_q now
       action_taken reward next_day_energy next_day_mood).

(** [json.loads(state)] followed by [.get], which only a dict has. *)
Definition loads_dict (state : string) : M (list (string * json)) :=
  v <- from_option JSONDecodeError (json_loads state) ;;
  match v with
  | JObj members => ret members
  | _ => raise AttributeError
  end.

(** [cycle_phase == "menstrual" and pain_level >= 6] *)
Definition high_pain_menstrual (cycle_phase pain_level : json) : M bool :=
  if py_eq_str cycle_phase "menstrual"
  then from_option TypeError (py_ge pain_level 6)
  else ret false.

Definition pain_management_actions : list string :=
  ["magnesium_suggestion"; "stretch_prompt"].

Definition is_pain_management (action : string) : bool :=
  existsb (String.eqb action) pain_management_actions.

Definition choose_action (self : Agent.t) (state : string) : M string :=
  state_dict <- loads_dict state ;;
  let cycle_phase := dict_get state_dict "cycle_phase" JNull in
  let pain_level := dict_get state_dict "pain_level" (JInt 5) in
  r <- random ;;
  if Qlt_bool r (Agent.epsilon self) then
    boosted <- high_pain_menstrual cycle_phase pain_level ;;
    if boosted then
      r' <- random ;;
      if Qlt_bool r' float_0_6 then random_choice pain_management_actions
      else random_choice (Agent.actions self)
    else random_choice (Agent.actions self)
  else
    boosted <- high_pain_menstrual cycle_phase pain_level ;;
    if boosted then
      q_values <- for_each (Agent.actions self)
                    (fun action =>
                       q_value <- get_q_value self state action ;;
                       ret (action,
                            if is_pain_management action
                            then float_add q_value (5 # 10) else q_value)) ;;
      best <- from_option ValueError (py_max_by snd q_values) ;;
      ret (fst best)
    else
      q_values <- for_each (Agent.actions self)
                    (fun action =>
                       q_value <- get_q_value self state action ;;
                       ret (action, q_value)) ;;
      best <- from_option ValueError (py_max_by snd q_values) ;;
      ret (fst best).

(** *** Notification content *)

Definition newline : string := String "010"%char EmptyString.

(** [table.get(cycle_phase, default)]; a list or dict key is unhashable. *)
Definition phase_get (table : list (string * string)) (default : string) (cycle_phase : json)
  : M string :=
  match cycle_phase with
  | JStr s => ret (match assoc_get s table with Some v => v | None => default end)
  | JArr _ | JObj _ => raise TypeError
  | _ => ret default
  end.

Definition get_stretch_type : json -> M string :=
  phase_get
    [("menstrual", "hip-opening and gentle yoga");
     ("follicular", "dynamic stretches and flow movements");
     ("ovulation", "energetic and full-range stretches");
     ("luteal", "calming and restorative stretches")]
    "comfortable stretches".

Definition get_snack_suggestion : json -> M string :=
  phase_get
    [("menstrual", "iron-rich foods and dark chocolate");
     ("follicular", "light, nutrient-dense foods");
     ("ovulation", "fresh fruits and vegetables");
     ("luteal", "complex carbs and protein-rich foods")]
    "balanced, nutritious foods".

Definition get_movement_type : json -> M string :=
  phase_get
    [("menstrual", "gentle walking or stretching");
     ("follicular", "moderate cardio or strength training");
     ("ovulation", "high-intensity activities or dance");
     ("luteal", "yoga or light cardio")]
    "movement that feels good".

Definition generate_notification (action state_str : string) : M string :=
  state <- loads_dict state_str ;;
  let cycle_phase := dict_get state "cycle_phase" (JStr EmptyString) in
  let pain_level := dict_get state "pain_level" (JInt 5) in
  let energy_level := dict_get state "energy_level" (JInt 5) in
  let phase := py_str cycle_phase in
  stretch_type <- get_stretch_type cycle_phase ;;
  snack_suggestion <- get_snack_suggestion cycle_phase ;;
  movement_type <- get_movement_type cycle_phase ;;
  let messages :=
    [("stretch_prompt",
      [("Time for some gentle stretching! During " ++ phase ++ " phase, focus on " ++ stretch_type)%string;
       ("Your body could use some movement. Try these " ++ phase ++ "-friendly stretches")%string;
       "Quick stretch break! Listen to your body and move gently"]);
     ("mindfulness",
      [("Take a moment to check in with yourself. During " ++ phase ++ ", practice deep breathing")%string;
       "Time for a mindful moment. Close your eyes and breathe deeply";
       "Pause for peace. A short meditation can help balance your energy"]);
     ("magnesium_suggestion",
      [("During " ++ phase ++ ", magnesium can help with comfort. Consider taking a supplement")%string;
       "Magnesium-rich foods like dark chocolate or nuts could help with symptoms";
       "Remember your magnesium supplement to support your body's needs"]);
     ("nap_suggestion",
      [("Your energy seems low. A short nap could help during " ++ phase ++ " phase")%string;
       "Listen to your body - a 20-minute power nap might be just what you need";
       "Rest is important! Consider a short nap to recharge"]);
     ("healthy_snack",
      [("Time for a " ++ phase ++ "-supporting snack! Focus on " ++ snack_suggestion)%string;
       "Nourish your body with a balanced snack";
       "Hungry? Choose a nutrient-rich snack to support your energy"]);
     ("movement_break",
      [("Time to move! During " ++ phase ++ ", try " ++ movement_type)%string;
       "A short walk or gentle movement can help with energy and mood";
       "Your body needs movement - choose an activity that feels good"])] in
  let message_list :=
    match assoc_get action messages with
    | Some l => l
    | None => ["Time to take care of yourself!"]
    end in
  selected_message <- random_choice message_list ;;
  high_pain <- from_option TypeError (py_ge pain_level 7) ;;
  let selected_message :=
    if (high_pain && py_eq_str cycle_phase "menstrual")%bool
    then (selected_message ++ newline
          ++ "Remember to be gentle with yourself and listen to your body's needs.")%string
    else selected_message in
  low_energy <- from_option TypeError (py_le energy_level 3) ;;
  let selected_message :=
    if low_energy
    then (selected_message ++ newline ++ "Keep it gentle and rest if needed.")%string
    else selected_message in
  ret selected_message.

(** *** API endpoints *)

Definition generate_user_notification (user_id : string) (now : datetime)
  : M NotificationResponse.t :=
  let env := Environment.init user_id in
  let agent := Agent.init user_id (Environment.actions env) in
  state <- get_current_state env now ;;
  match state with
  | None | Some EmptyString =>
      raise (HTTPException 404 "No cycle data found for user")
  | Some state =>
      action <- choose_action agent state ;;
      message <- generate_notification action state ;;
      notification <- db_add_notification user_id message action state now ;;
      ret (NotificationResponse.mk (Notification.id notification) user_id message action)
  end.

(** *** The session of a feedback request

    The session does not flush before a query ([autoflush=False]), so the
    two assignments to the notification wait for the next commit, which
    writes them together with whatever else is pending.  A commit that has
    an integer to bind which the driver cannot bind raises OverflowError
    and is rolled back: the store is again what the last commit that went
    through left, and the exception ends the request.  (Integers beyond
    the range of a float, about 10^308, on which the division in
    [reward_function] raises first, are left out.) *)

(** [body] in a session last committed at [committed]: when it raises, the
    store is [committed] again. *)
Definition rolled_back {A : Type} (committed : database) (body : M A) : M A :=
  fun w =>
    match body w with
    | (inl e, w') => (inl e, {| db := committed; gen := gen w' |})
    | (inr a, w') => (inr a, w')
    end.

(** [get_q_value] in a session that holds a change it cannot flush: the
    commit of a lazy initialisation raises. *)
Definition get_q_value_unflushed (self : Agent.t) (state action : string) : M Q :=
  q_entry <- query (first_q (Agent.user_id self) state action) ;;
  match q_entry with
  | Some q_entry => ret (QTable.q_value q_entry)
  | None =>
      new_q <- random_uniform (- (1 # 10)) (1 # 10) ;;
      raise OverflowError
  end.

(** [update_q_value] in such a session: whichever commit comes first
    raises, the one that ends the function at the latest. *)
Definition update_q_value_unflushed (self : Agent.t) (state action next_state : string)
  : M unit :=
  current_q <- get_q_value_unflushed self state action ;;
  next_qs <- for_each (Agent.actions self)
               (fun a => get_q_value_unflushed self next_state a) ;;
  max_next_q <- from_option ValueError (py_max next_qs) ;;
  raise OverflowError.

(** [update_q_value] with a history row the driver cannot bind, in a
    session last committed at [start]: the lazy initialisations commit as
    usual, and with them what was pending; the commit that ends the
    function raises and is rolled back to the store the last of them left,
    or to [start] when there was none. *)
Definition update_q_value_unbound (self : Agent.t) (state action next_state : string)
    (start : database) : M unit :=
  rows <- query (fun d => List.length (q_tables d)) ;;
  current_q <- get_q_value self state action ;;
  next_qs <- for_each (Agent.actions self) (fun a => get_q_value self next_state a) ;;
  committed <- query (fun d => if (List.length (q_tables d) =? rows)%nat then start else d) ;;
  rolled_back committed
    (max_next_q <- from_option ValueError (py_max next_qs) ;;
     raise OverflowError).

Definition process_notification_feedback (feedback : NotificationFeedback.t) (now : datetime)
  : M (string * Q) :=
  bind_integers [NotificationFeedback.notification_id feedback] ;;
  notification <- query (first_notification (NotificationFeedback.notification_id feedback)) ;;
  match notification with
  | None => raise (HTTPException 404 "Notification not found")
  | Some notification =>
      start <- query (fun d => d) ;;
      modify (fun d => with_notifications d
                         (assign_feedback (Notification.id notification)
                            (NotificationFeedback.action_taken feedback)
                            (NotificationFeedback.effectiveness feedback)
                            (notifications d))) ;;
      let env := Environment.init (Notification.user_id notification) in
      let agent := Agent.init (Notification.user_id notification) (Environment.actions env) in
      reward <- reward_function env feedback ;;
      next_state <- get_current_state env now ;;
      let next_state :=
        match next_state with
        | None | Some EmptyString => Notification.state notification
        | Some s => s
        end in
      (if negb (sqlite_integer (NotificationFeedback.action_taken feedback))
       then
         rolled_back start
           (update_q_value_unflushed agent (Notification.state notification)
              (Notification.action notification) next_state)
       else if forallb sqlite_integer [NotificationFeedback.next_day_energy feedback;
                                        NotificationFeedback.next_day_mood feedback]
       then
         update_q_value agent (Notification.state notification)
           (Notification.action notification) reward next_state
           (NotificationFeedback.action_taken feedback)
           (NotificationFeedback.effectiveness feedback)
           (Some (NotificationFeedback.next_day_energy feedback))
           (Some (NotificationFeedback.next_day_mood feedback)) now
       else
         update_q_value_unbound agent (Notification.state notification)
           (Notification.action notification) next_state start) ;;
      ret ("success", reward)
  end.

(* ================================================================ *)
(** ** What a computation may do to the store *)

(** [m] leaves the four tables as they are, whatever it returns or raises. *)
Definition keeps_db {A : Type} (m : M A) : Prop :=
  forall w r w', m w = (r, w') -> db w' = db w.

(** [m] at most adds Q-value entries, whatever it returns or raises. *)
Definition grows_db {A : Type} (m : M A) : Prop :=
  forall w r w', m w = (r, w') -> q_grows (db w) (db w').


(** A [CycleData] row of the fields of the request body, with the timestamp
    column's default.  The commit inserts the row, binding its five
    scores. *)
Definition add_cycle_data (data : CycleDataInput.t) (now : datetime) : M CycleData.t :=
  let db_data :=
    CycleData.mk (CycleDataInput.user_id data) now
      (CycleDataInput.cycle_phase data) (CycleDataInput.sleep_score data)
      (CycleDataInput.mood_score data) (CycleDataInput.stress_level data)
      (CycleDataInput.pain_level data) (CycleDataInput.energy_level data) in
  bind_integers (CycleDataInput.integers data) ;;
  modify (fun d => with_cycle_data d (cycle_data d ++ [db_data])) ;;
  ret db_data.


Definition get_user_analytics (user_id : string) : M Analytics.t :=
  query (user_analytics user_id).


(* ================================================================ *)
(** ** [populate_db.py] *)

(** [random.randint(a, b)] is [a + randbelow(b - a + 1)]; an empty range
    raises ValueError. *)
Definition random_randint (a b : Z) : M Z :=
  if (a <=? b)%Z
  then fun w =>
         let (i, g) := rng_randbelow (Z.to_nat (b - a + 1)) (gen w) in
         (inr (a + Z.of_nat i)%Z, {| db := db w; gen := g |})
  else raise ValueError.

(** [d[key]] on a dict literal.  A missing key raises KeyError, a
    LookupError as IndexError is, which stands for it here; the script
    only looks up the keys of its own tables. *)
Definition subscript {A : Type} (d : list (string * A)) (key : string) : M A :=
  from_option IndexError (assoc_get key d).

(** [db.add(...)] ... [db.commit()]: the rows added are written by the one
    commit that ends the function; when the body raises, the commit is not
    reached and the session is closed without them. *)
Definition transaction {A : Type} (body : M A) : M A :=
  fun w =>
    match body w with
    | (inl e, w') => (inl e, {| db := db w; gen := gen w' |})
    | (inr a, w') => (inr a, w')
    end.

Definition db_add_cycle_data (row : CycleData.t) : M unit :=
  modify (fun d => with_cycle_data d (cycle_data d ++ [row])).

(** [min(10, max(1, base_scores[phase][key] + random.randint(-2, 2)))] *)
Definition sample_score (scores : list (string * Z)) (key : string) : M Z :=
  base <- subscript scores key ;;
  variation <- random_randint (-2) 2 ;;
  ret (clamp_score (base + variation)).

(** The body of [for day in range(days_of_data)], [days] turns of it. *)
Fixpoint create_cycle_days (days : nat) (user_id : string) (current_date : datetime)
    (current_phase_idx days_in_current_phase : Z) : M unit :=
  match days with
  | O => ret tt
  | S days' =>
      current_phase <- from_option IndexError (py_index cycle_phases current_phase_idx) ;;
      scores <- subscript base_scores current_phase ;;
      sleep <- sample_score scores "sleep" ;;
      mood <- sample_score scores "mood" ;;
      stress <- sample_score scores "stress" ;;
      pain <- sample_score scores "pain" ;;
      energy <- sample_score scores "energy" ;;
      db_add_cycle_data
        (CycleData.mk user_id current_date current_phase sleep mood stress pain energy) ;;
      duration <- subscript phase_durations current_phase ;;
      if (duration <=? days_in_current_phase + 1)%Z
      then create_cycle_days days' user_id (datetime_add_days current_date 1)
             ((current_phase_idx + 1) mod 4)%Z 0%Z
      else create_cycle_days days' user_id (datetime_add_days current_date 1)
             current_phase_idx (days_in_current_phase + 1)%Z
  end.

(** [now k] is the clock reading taken for the [k]-th user of the list. *)
Definition create_cycle_data (users : list User.t) (days_of_data : Z)
    (now : nat -> datetime) : M unit :=
  transaction
    (for_each (numbered users)
       (fun item =>
          let current_date := datetime_add_days (now (fst item)) (- days_of_data) in
          current_phase_idx <- random_randint 0 3 ;;
          create_cycle_days (Z.to_nat days_of_data) (User.user_id (snd item))
            current_date current_phase_idx 0%Z) ;;
     ret tt).

Definition initialize_q_tables (users : list User.t) : M unit :=
  transaction
    (for_each users
       (fun user =>
          for_each cycle_phases
            (fun phase =>
               let state := sample_state phase in
               for_each sample_actions
                 (fun action =>
                    by_action <- subscript base_q_values phase ;;
                    base <- subscript by_action action ;;
                    variation <- random_uniform (- (1 # 10)) (1 # 10) ;;
                    db_add_q (QTable.mk (User.user_id user) state action
                                (base + variation)%Q)))) ;;
     ret tt).

(** [db.add(Notification(...))] with both feedback columns given; the id and
    the timestamp default are filled in when the row is inserted. *)
Definition db_add_sample_notification (user_id message action state : string)
    (action_taken : Z) (effectiveness : Q) (now : Z -> datetime) : M unit :=
  modify (fun d =>
            let id := next_id (notifications d) in
            with_notifications d
              (notifications d
               ++ [Notification.mk id user_id message (now id) action state
                     action_taken effectiveness])).

Definition create_sample_notifications (users : list User.t) (now : Z -> datetime)
  : M unit :=
  transaction
    (for_each users
       (fun user =>
          cycle_data <- query (latest_cycle_data (User.user_id user)) ;;
          match cycle_data with
          | Some cycle_data =>
              let state :=
                state_key (CycleData.cycle_phase cycle_data)
                  (CycleData.sleep_score cycle_data) (CycleData.mood_score cycle_data)
                  (CycleData.stress_level cycle_data) (CycleData.pain_level cycle_data)
                  "morning" (CycleData.energy_level cycle_data) in
              for_each (seq 0 3)
                (fun _ =>
                   action <- random_choice sample_actions ;;
                   action_taken <- random_choice [0; 1]%Z ;;
                   effectiveness <- random_uniform 5 9 ;;
                   db_add_sample_notification (User.user_id user)
                     ("Sample notification for " ++ action)%string action state
                     action_taken effectiveness now) ;;
              ret tt
          | None => ret tt
          end) ;;
     ret tt).

(** [main]: the four steps in turn on the [users] table and the session;
    the table of users after it is returned. *)
Definition main (now_user : Z -> datetime) (now_cycle : nat -> datetime)
    (now_notification : Z -> datetime) (table : list User.t) : M (list User.t) :=
  let (users, table') := create_sample_users 5 now_user table in
  create_cycle_data users 30 now_cycle ;;
  initialize_q_tables users ;;
  create_sample_notifications users now_notification ;;
  ret table'.


(** Whatever [m] returns or raises, the store before and the store after it
    are related by [R]. *)
Definition relates_db (R : database -> database -> Prop) {A : Type} (m : M A) : Prop :=
  forall w r w', m w = (r, w') -> R (db w) (db w').

(** [m] leaves the table (or column) [g] of the store as it is. *)
Definition keeps_table {X A : Type} (g : database -> X) (m : M A) : Prop :=
  relates_db (fun d d' => g d' = g d) m.


(* ================================================================ *)
(** ** Vocabulary of the specification, continued *)

(** The value [random.uniform(-0.1, 0.1)] draws from generator state [g]. *)
Definition fresh_q (g : rng) : Q :=
  (- (1 # 10) + ((1 # 10) - - (1 # 10)) * fst (rng_random g))%Q.

(** The world after a first read of [(user_id, state, action)]. *)
Definition after_first_read (user_id state action : string) (w : world) : world :=
  {| db := with_q_tables (db w)
             (q_tables (db w) ++ [QTable.mk user_id state action (fresh_q (gen w))]);
     gen := snd (rng_random (gen w)) |}.

(** The database [update_q_value] commits, from the table [d1] its reads
    leave behind. *)
Definition updated (self : Agent.t) (state action : string) (new_q reward : Q)
    (action_taken : Z) (next_day_energy next_day_mood : option Z) (now : datetime)
    (d1 : database) : database :=
  with_history
    (with_q_tables d1 (assign_q (Agent.user_id self) state action new_q (q_tables d1)))
    (q_table_history d1
       ++ [QTableHistory.mk (Agent.user_id self) state action new_q now
             action_taken reward next_day_energy next_day_mood]).


(** A row of [initialize_q_tables]: in the sample state of a phase, its
    value the base value of the phase and the action plus a draw of
    [random.uniform(-0.1, 0.1)]. *)
Definition seeded_row (r : QTable.t) : Prop :=
  exists phase by_action base g,
    assoc_get phase base_q_values = Some by_action
    /\ assoc_get (QTable.action r) by_action = Some base
    /\ QTable.state r = sample_state phase
    /\ QTable.q_value r = (base + fresh_q g)%Q.


(** The next state of a feedback request: the user's current state, or the
    notification's own state when there is none. *)
Definition feedback_next_state (n : Notification.t) (now : datetime) (d : database)
  : string :=
  match latest_cycle_data (Notification.user_id n) d with
  | Some o =>
      match state_key (CycleData.cycle_phase o) (CycleData.sleep_score o)
              (CycleData.mood_score o) (CycleData.stress_level o)
              (CycleData.pain_level o) (time_of_day (dt_hour now))
              (CycleData.energy_level o) with
      | EmptyString => Notification.state n
      | s => s
      end
  | None => Notification.state n
  end.


(* ================================================================ *)
(** ** Facts about the built-ins *)

Lemma Qlt_bool_iff (x y : Q) : Qlt_bool x y = true <-> (x < y)%Q.
Proof.
  unfold Qlt_bool. rewrite negb_true_iff. split; intro H.
  - apply Qnot_le_lt. intro Hle. apply Qle_bool_iff in Hle. congruence.
  - destruct (Qle_bool y x) eqn:E; [| reflexivity].
    apply Qle_bool_iff in E. exfalso. exact (Qlt_not_le _ _ H E).
Qed.

Lemma Qlt_bool_false (x y : Q) : Qlt_bool x y = false <-> (y <= x)%Q.
Proof.
  unfold Qlt_bool. rewrite negb_false_iff. apply Qle_bool_iff.
Qed.

(** [max] returns the first item of greatest key: the items before it
    are strictly smaller, the items after it are not greater. *)
Lemma py_max_from_first {A : Type} (key : A -> Q) (l : list A) :
  forall best : A,
  exists l1 l2,
    best :: l = l1 ++ py_max_from key best l :: l2
    /\ (forall y, In y l1 -> (key y < key (py_max_from key best l))%Q)
    /\ (forall y, In y l2 -> (key y <= key (py_max_from key best l))%Q).
Proof.
  induction l as [| x l IH]; intro best; simpl.
  - exists [], []. repeat split; intros y [].
  - destruct (Qlt_bool (key best) (key x)) eqn:E.
    + apply Qlt_bool_iff in E.
      destruct (IH x) as (l1 & l2 & Heq & Hlt & Hle).
      exists (best :: l1), l2. split; [simpl; now rewrite Heq |]. split; [| exact Hle].
      intros y [<- | Hy]; [| now apply Hlt].
      destruct l1 as [| z l1]; simpl in Heq; injection Heq as Hx _.
      * now rewrite <- Hx.
      * apply Qlt_trans with (key x); [exact E |]. apply Hlt. left. now symmetry.
    + apply Qlt_bool_false in E.
      destruct (IH best) as (l1 & l2 & Heq & Hlt & Hle).
      destruct l1 as [| z l1]; simpl in Heq; injection Heq as Hb Hl.
      * exists [], (x :: l). split; [simpl; now rewrite <- Hb |]. split; [intros y [] |].
        intros y [<- | Hy]; [now rewrite <- Hb |].
        apply Hle. now rewrite <- Hl.
      * exists (best :: x :: l1), l2. split; [simpl; now rewrite <- Hl |]. split; [| exact Hle].
        intros y [<- | [<- | Hy]].
        -- apply Hlt. left. now symmetry.
        -- apply Qle_lt_trans with (key best); [exact E |]. apply Hlt. left. now symmetry.
        -- apply Hlt. now right.
Qed.

Lemma py_max_by_first {A : Type} (key : A -> Q) (l : list A) (b : A) :
  py_max_by key l = Some b ->
  exists l1 l2,
    l = l1 ++ b :: l2
    /\ (forall y, In y l1 -> (key y < key b)%Q)
    /\ (forall y, In y l2 -> (key y <= key b)%Q).
Proof.
  destruct l as [| x l]; simpl; [discriminate |].
  intro H. injection H as <-. apply py_max_from_first.
Qed.

Lemma py_max_by_nonempty {A : Type} (key : A -> Q) (l : list A) :
  l <> [] -> exists b, py_max_by key l = Some b.
Proof.
  destruct l as [| x l]; [congruence |]. intros _. simpl. eauto.
Qed.

(* ================================================================ *)
(** ** Facts about the Q-value table *)

Lemma q_matches_mk (u s a : string) (v : Q) :
  q_matches u s a (QTable.mk u s a v) = true.
Proof. unfold q_matches. simpl. now rewrite !String.eqb_refl. Qed.

Lemma q_matches_true (u s a : string) (r : QTable.t) :
  q_matches u s a r = true ->
  QTable.user_id r = u /\ QTable.state r = s /\ QTable.action r = a.
Proof.
  unfold q_matches. rewrite !andb_true_iff, !String.eqb_eq.
  intros [[Hu Hs] Ha]. auto.
Qed.

Lemma find_snoc {A : Type} (p : A -> bool) (l : list A) (x : A) :
  find p (l ++ [x]) =
  match find p l with
  | Some y => Some y
  | None => if p x then Some x else None
  end.
Proof.
  induction l as [| y l IH]; simpl; [reflexivity |].
  destruct (p y); [reflexivity | exact IH].
Qed.

Lemma lookup_q_add_same (d : database) (u s a : string) (v : Q) :
  lookup_q u s a d = None ->
  lookup_q u s a (with_q_tables d (q_tables d ++ [QTable.mk u s a v])) = Some v.
Proof.
  unfold lookup_q, first_q. simpl. rewrite find_snoc.
  destruct (find (q_matches u s a) (q_tables d)); [discriminate |].
  now rewrite q_matches_mk.
Qed.

Lemma lookup_q_add_old (d : database) (row : QTable.t) (u s a : string) (v : Q) :
  lookup_q u s a d = Some v ->
  lookup_q u s a (with_q_tables d (q_tables d ++ [row])) = Some v.
Proof.
  unfold lookup_q, first_q. simpl. rewrite find_snoc.
  destruct (find (q_matches u s a) (q_tables d)); [auto | discriminate].
Qed.


Lemma lookup_q_assign_other (d : database) (u s a u' s' a' : string) (v : Q) :
  (u', s', a') <> (u, s, a) ->
  lookup_q u' s' a' (with_q_tables d (assign_q u s a v (q_tables d))) = lookup_q u' s' a' d.
Proof.
  intro Hne. unfold lookup_q, first_q. simpl.
  induction (q_tables d) as [| r rows IH]; simpl; [reflexivity |].
  destruct (q_matches u s a r) eqn:E; simpl.
  - apply q_matches_true in E. destruct E as (Eu & Es & Ea).
    assert (Hm : forall w, q_matches u' s' a'
                   (QTable.mk (QTable.user_id r) (QTable.state r) (QTable.action r) w) = false).
    { intro w. destruct (q_matches u' s' a' _) eqn:E'; [| reflexivity].
      apply q_matches_true in E'. simpl in E'. destruct E' as (Eu' & Es' & Ea').
      exfalso. apply Hne. congruence. }
    rewrite Hm.
    assert (Hr : q_matches u' s' a' r = false).
    { specialize (Hm (QTable.q_value r)). now destruct r. }
    now rewrite Hr.
  - destruct (q_matches u' s' a' r); [reflexivity | exact IH].
Qed.

Lemma q_grows_refl (d : database) : q_grows d d.
Proof. unfold q_grows. auto. Qed.

Lemma q_grows_trans (d1 d2 d3 : database) :
  q_grows d1 d2 -> q_grows d2 d3 -> q_grows d1 d3.
Proof.
  intros (A1 & B1 & C1 & D1) (A2 & B2 & C2 & D2). unfold q_grows.
  repeat split; try congruence. auto.
Qed.

Lemma q_grows_add (d : database) (row : QTable.t) :
  q_grows d (with_q_tables d (q_tables d ++ [row])).
Proof.
  unfold q_grows. simpl. repeat split; auto.
  intros u s a v. apply lookup_q_add_old.
Qed.

(* ================================================================ *)
(** ** Running the monad *)

Lemma bind_inr {A B : Type} (m : M A) (f : A -> M B) (w w' : world) (a : A) :
  m w = (inr a, w') -> bind m f w = f a w'.
Proof. intro H. unfold bind. now rewrite H. Qed.

Lemma bind_inl {A B : Type} (m : M A) (f : A -> M B) (w w' : world) (e : exn) :
  m w = (inl e, w') -> bind m f w = (inl e, w').
Proof. intro H. unfold bind. now rewrite H. Qed.

Lemma bind_run {A B : Type} (m : M A) (f : A -> M B) (w w' : world) (r : exn + B) :
  bind m f w = (r, w') ->
  (exists e, m w = (inl e, w') /\ r = inl e)
  \/ (exists a w1, m w = (inr a, w1) /\ f a w1 = (r, w')).
Proof.
  unfold bind. destruct (m w) as [[e | a] w1]; intro H.
  - left. exists e. now injection H as <- <-.
  - right. now exists a, w1.
Qed.

Lemma world_eta (w : world) : {| db := db w; gen := gen w |} = w.
Proof. now destruct w. Qed.

(* ================================================================ *)
(** ** Reading the table: [get_q_value] *)

Lemma get_q_value_hit (self : Agent.t) (s a : string) (w : world) (v : Q) :
  lookup_q (Agent.user_id self) s a (db w) = Some v ->
  get_q_value self s a w = (inr v, w).
Proof.
  unfold lookup_q, get_q_value, bind, query, ret.
  destruct (first_q (Agent.user_id self) s a (db w)); simpl; [| discriminate].
  now intros [= ->].
Qed.

Lemma get_q_value_miss (self : Agent.t) (s a : string) (w : world) :
  lookup_q (Agent.user_id self) s a (db w) = None ->
  get_q_value self s a w
  = (inr (fresh_q (gen w)), after_first_read (Agent.user_id self) s a w).
Proof.
  unfold lookup_q, get_q_value, bind, query, ret, random_uniform, random, db_add_q, modify,
    after_first_read, fresh_q, bind, ret.
  destruct (first_q (Agent.user_id self) s a (db w)); simpl; [discriminate |].
  intros _. now destruct (rng_random (gen w)).
Qed.

(** Every read succeeds, leaves the value it returns in the table and
    changes no entry that was there. *)
Lemma get_q_value_total (self : Agent.t) (s a : string) (w : world) :
  exists v w',
    get_q_value self s a w = (inr v, w')
    /\ q_grows (db w) (db w')
    /\ lookup_q (Agent.user_id self) s a (db w') = Some v.
Proof.
  destruct (lookup_q (Agent.user_id self) s a (db w)) as [v |] eqn:E.
  - exists v, w. split; [now apply get_q_value_hit |]. split; [apply q_grows_refl | exact E].
  - exists (fresh_q (gen w)), (after_first_read (Agent.user_id self) s a w).
    split; [now apply get_q_value_miss |]. split.
    + apply q_grows_add.
    + now apply lookup_q_add_same.
Qed.

(** A loop whose body always succeeds and only adds table entries. *)
Lemma for_each_reads {B : Type} (f : string -> M B) (P : string -> B -> database -> Prop) :
  (forall a w, exists y w', f a w = (inr y, w') /\ q_grows (db w) (db w') /\ P a y (db w')) ->
  (forall a y d d', P a y d -> q_grows d d' -> P a y d') ->
  forall (l : list string) (w : world),
  exists ys w',
    for_each l f w = (inr ys, w')
    /\ q_grows (db w) (db w')
    /\ Forall2 (fun a y => P a y (db w')) l ys.
Proof.
  intros Hf Hmono. induction l as [| a l IH]; intro w; simpl.
  - exists [], w. split; [reflexivity |]. split; [apply q_grows_refl | constructor].
  - destruct (Hf a w) as (y & w1 & Hrun & Hg1 & Hp).
    destruct (IH w1) as (ys & w2 & Hrun2 & Hg2 & Hall).
    exists (y :: ys), w2. split.
    + rewrite (bind_inr _ _ _ _ _ Hrun). now rewrite (bind_inr _ _ _ _ _ Hrun2).
    + split; [eapply q_grows_trans; eauto |].
      constructor; [eapply Hmono; eauto | exact Hall].
Qed.

Lemma Forall2_In_right {A B : Type} (R : A -> B -> Prop) (l : list A) (l' : list B) (y : B) :
  Forall2 R l l' -> In y l' -> exists x, In x l /\ R x y.
Proof.
  induction 1 as [| x y' l l' Hxy _ IH]; simpl; [intros [] |].
  intros [<- | Hy]; [eauto |]. destruct (IH Hy) as (x' & Hin & Hr). eauto.
Qed.

Lemma Forall2_In_left {A B : Type} (R : A -> B -> Prop) (l : list A) (l' : list B) (x : A) :
  Forall2 R l l' -> In x l -> exists y, In y l' /\ R x y.
Proof.
  induction 1 as [| x' y l l' Hxy _ IH]; simpl; [intros [] |].
  intros [<- | Hx]; [eauto |]. destruct (IH Hx) as (y' & Hin & Hr). eauto.
Qed.

(* ================================================================ *)
(** ** The learning update: [update_q_value] *)

Lemma update_q_value_run (self : Agent.t) (s a : string) (r : Q) (s' : string)
    (taken : Z) (eff : Q) (nde ndm : option Z) (now : datetime) (w : world) :
  Agent.actions self <> [] ->
  exists (d1 : database) (g' : rng) (cur m : Q),
    q_grows (db w) d1
    /\ lookup_q (Agent.user_id self) s a d1 = Some cur
    /\ (exists a', In a' (Agent.actions self)
                   /\ lookup_q (Agent.user_id self) s' a' d1 = Some m)
    /\ (forall a', In a' (Agent.actions self) ->
          exists q, lookup_q (Agent.user_id self) s' a' d1 = Some q /\ (q <= m)%Q)
    /\ update_q_value self s a r s' taken eff nde ndm now w
       = (inr tt,
          {| db := updated self s a
                     (cur + Agent.alpha self * (r + Agent.gamma self * m - cur))%Q
                     r taken nde ndm now d1;
             gen := g' |}).
Proof.
  intro Hne.
  destruct (get_q_value_total self s a w) as (cur & w1 & Hrun1 & Hg1 & Hcur).
  destruct (for_each_reads (fun a' => get_q_value self s' a')
              (fun a' q d => lookup_q (Agent.user_id self) s' a' d = Some q)
              (fun a' w0 => get_q_value_total self s' a' w0)
              (fun a' q d d' Hq Hg => proj2 (proj2 (proj2 Hg)) _ _ _ _ Hq)
              (Agent.actions self) w1)
    as (qs & w2 & Hrun2 & Hg2 & Hall).
  assert (Hqs : qs <> []).
  { intro E. subst qs. inversion Hall as [E' |]. now apply Hne. }
  destruct (py_max_by_nonempty (fun q => q) qs Hqs) as (m & Hm).
  destruct (py_max_by_first _ _ _ Hm) as (l1 & l2 & Hsplit & Hlt & Hle).
  assert (Hcur2 : lookup_q (Agent.user_id self) s a (db w2) = Some cur)
    by (apply Hg2; exact Hcur).
  exists (db w2), (gen w2), cur, m.
  split; [eapply q_grows_trans; eauto |]. split; [exact Hcur2 |]. split.
  { apply (Forall2_In_right _ _ _ m Hall). rewrite Hsplit. apply in_elt. }
  split.
  { intros a' Hin. destruct (Forall2_In_left _ _ _ a' Hall Hin) as (q & Hq & Hlook).
    exists q. split; [exact Hlook |].
    rewrite Hsplit in Hq. apply in_app_or in Hq. destruct Hq as [Hq | [<- | Hq]].
    - apply Qlt_le_weak. now apply Hlt.
    - apply Qle_refl.
    - now apply Hle. }
  unfold update_q_value.
  rewrite (bind_inr _ _ _ _ _ Hrun1), (bind_inr _ _ _ _ _ Hrun2).
  unfold py_max. rewrite Hm. simpl.
  unfold lookup_q in Hcur2.
  unfold bind at 1. unfold ret at 1.
  unfold bind at 1. unfold query at 1.
  destruct (first_q (Agent.user_id self) s a (db w2)) as [e |]; [| discriminate].
  reflexivity.
Qed.

Lemma lookup_q_with_history (d : database) (rows : list QTableHistory.t) (u s a : string) :
  lookup_q u s a (with_history d rows) = lookup_q u s a d.
Proof. reflexivity. Qed.


(** C2. The first read of a triple with no stored entry returns a value
    in [-0.1, 0.1] (the generator's draw being in [0, 1)) and stores it at
    once; the next read of the triple returns the same value and changes
    nothing. *)
Theorem get_q_value_lazy_init_stable (self : Agent.t) (s a : string) (w : world) :
  (0 <= fst (rng_random (gen w)))%Q ->
  (fst (rng_random (gen w)) < 1)%Q ->
  lookup_q (Agent.user_id self) s a (db w) = None ->
  exists (v : Q) (w1 : world),
    get_q_value self s a w = (inr v, w1)
    /\ (- (1 # 10) <= v)%Q /\ (v <= 1 # 10)%Q
    /\ lookup_q (Agent.user_id self) s a (db w1) = Some v
    /\ get_q_value self s a w1 = (inr v, w1).
Proof.
  intros Hlo Hhi Hnone.
  exists (fresh_q (gen w)), (after_first_read (Agent.user_id self) s a w).
  assert (Hstored : lookup_q (Agent.user_id self) s a
                      (db (after_first_read (Agent.user_id self) s a w))
                    = Some (fresh_q (gen w)))
    by now apply lookup_q_add_same.
  split; [now apply get_q_value_miss |].
  unfold fresh_q. repeat split.
  - lra.
  - lra.
  - exact Hstored.
  - now apply get_q_value_hit.
Qed.

(** C3. With [action_taken = 1] the reward is
    [(effectiveness - 5) + ((next_day_energy - energy) + (next_day_mood - mood)) / 2]
    over the user's latest observation, and [effectiveness - 5] when the
    user has none; effectiveness 8, next-day energy 7 and mood 7 after
    energy 4 and mood 5 give 5.5. *)
Theorem reward_function_action_taken (self : Environment.t) (fb : NotificationFeedback.t)
    (w : world) :
  NotificationFeedback.action_taken fb = 1%Z ->
  exists reward : Q,
    reward_function self fb w = (inr reward, w)
    /\ (forall prev,
          latest_cycle_data (Environment.user_id self) (db w) = Some prev ->
          (reward ==
           (NotificationFeedback.effectiveness fb - 5)
           + (inject_Z (NotificationFeedback.next_day_energy fb - CycleData.energy_level prev)
              + inject_Z (NotificationFeedback.next_day_mood fb - CycleData.mood_score prev))
             / 2)%Q)
    /\ (latest_cycle_data (Environment.user_id self) (db w) = None ->
          (reward == NotificationFeedback.effectiveness fb - 5)%Q)
    /\ (forall prev,
          latest_cycle_data (Environment.user_id self) (db w) = Some prev ->
          (NotificationFeedback.effectiveness fb == 8)%Q ->
          NotificationFeedback.next_day_energy fb = 7%Z ->
          NotificationFeedback.next_day_mood fb = 7%Z ->
          CycleData.energy_level prev = 4%Z ->
          CycleData.mood_score prev = 5%Z ->
          (reward == 5.5)%Q).
Proof.
  intro Htaken. unfold reward_function. rewrite Htaken. simpl.
  unfold bind, query, ret.
  destruct (latest_cycle_data (Environment.user_id self) (db w)) as [p |] eqn:E.
  - eexists. split; [reflexivity |]. split; [| split].
    + intros prev [= <-]. rewrite inject_Z_plus. reflexivity.
    + discriminate.
    + intros prev [= <-] Heff He Hm Hpe Hpm.
      rewrite Heff, He, Hm, Hpe, Hpm. reflexivity.
  - eexists. split; [reflexivity |]. split; [| split].
    + discriminate.
    + intros _. unfold inject_Z. ring.
    + discriminate.
Qed.

(** C4. With [action_taken = 0] the reward is -1, whatever the
    effectiveness, the next-day energy and mood, and whether or not the
    user has an observation. *)
Theorem reward_function_action_not_taken (self : Environment.t)
    (fb : NotificationFeedback.t) (w : world) :
  NotificationFeedback.action_taken fb = 0%Z ->
  reward_function self fb w = (inr (-1)%Q, w).
Proof.
  intro Htaken. unfold reward_function. now rewrite Htaken.
Qed.

(* ================================================================ *)
(** ** The policy: [choose_action] *)

Lemma loads_dict_object (state : string) (d : list (string * json)) (w : world) :
  json_loads state = Some (JObj d) -> loads_dict state w = (inr d, w).
Proof. intro H. unfold loads_dict, bind, from_option. now rewrite H. Qed.

Lemma tagged_reads {B : Type} (L : string -> option Q) (g : string -> Q -> B)
    (l : list string) (ys : list (string * B)) :
  Forall2 (fun a y => exists q, L a = Some q /\ y = (a, g a q)) l ys ->
  map fst ys = l
  /\ Forall (fun y => exists q, L (fst y) = Some q /\ snd y = g (fst y) q) ys.
Proof.
  induction 1 as [| a y l ys (q & Hq & ->) _ [IHm IHf]]; simpl.
  - split; [reflexivity | constructor].
  - split; [now rewrite IHm |]. constructor; [| exact IHf]. simpl. eauto.
Qed.

(** The exploit branch in a high-pain menstrual state: the loop reads the
    six values, and the action returned is the first one of greatest
    boosted value. *)
Lemma choose_action_exploit_boosted (self : Agent.t) (state : string)
    (d : list (string * json)) (w : world) :
  Agent.actions self <> [] ->
  json_loads state = Some (JObj d) ->
  py_eq_str (dict_get d "cycle_phase" JNull) "menstrual" = true ->
  py_ge (dict_get d "pain_level" (JInt 5)) 6 = Some true ->
  Qlt_bool (fst (rng_random (gen w))) (Agent.epsilon self) = false ->
  exists (best : string) (w' : world) (before after : list string),
    choose_action self state w = (inr best, w')
    /\ q_grows (db w) (db w')
    /\ (forall a, In a (Agent.actions self) ->
          lookup_q (Agent.user_id self) state a (db w') <> None)
    /\ Agent.actions self = before ++ best :: after
    /\ (forall a, In a before ->
          (boosted_q (Agent.user_id self) state (db w') a
           < boosted_q (Agent.user_id self) state (db w') best)%Q)
    /\ (forall a, In a after ->
          (boosted_q (Agent.user_id self) state (db w') a
           <= boosted_q (Agent.user_id self) state (db w') best)%Q).
Proof.
  intros Hne Hloads Hphase Hpain Hexploit.
  set (u := Agent.user_id self).
  set (adjust := fun (a : string) (q : Q) =>
                   if is_pain_management a then float_add q (5 # 10) else q).
  set (w0 := {| db := db w; gen := snd (rng_random (gen w)) |}).
  destruct (for_each_reads
              (fun action => bind (get_q_value self state action)
                               (fun q_value => ret (action, adjust action q_value)))
              (fun a y dd => exists q, lookup_q u state a dd = Some q /\ y = (a, adjust a q))
              (fun a w1 =>
                 match get_q_value_total self state a w1 with
                 | ex_intro _ v (ex_intro _ w2 (conj Hr (conj Hg Hl))) =>
                     ex_intro _ (a, adjust a v)
                       (ex_intro _ w2
                          (conj (eq_trans (bind_inr _ _ _ _ _ Hr) eq_refl)
                             (conj Hg (ex_intro _ v (conj Hl eq_refl)))))
                 end)
              (fun a y dd dd' Hp Hg =>
                 match Hp with
                 | ex_intro _ q (conj Hq Hy) =>
                     ex_intro _ q (conj (proj2 (proj2 (proj2 Hg)) _ _ _ _ Hq) Hy)
                 end)
              (Agent.actions self) w0)
    as (qs & w' & Hrun & Hg & Hall).
  destruct (tagged_reads _ _ _ _ Hall) as [Hfst Hvals].
  assert (Hqs : qs <> []).
  { intro E. subst qs. simpl in Hfst. now apply Hne. }
  destruct (py_max_by_nonempty snd qs Hqs) as (best & Hbest).
  destruct (py_max_by_first _ _ _ Hbest) as (l1 & l2 & Hsplit & Hlt & Hle).
  assert (Hscore : forall y, In y qs -> (snd y == boosted_q u state (db w') (fst y))%Q).
  { intros y Hy. rewrite Forall_forall in Hvals.
    destruct (Hvals y Hy) as (q & Hq & ->).
    unfold boosted_q, boosted_value, q_of, boost, adjust, is_pain_management,
      pain_management_actions.
    rewrite Hq. destruct (existsb _ _); [reflexivity | ring]. }
  assert (Hin : forall y, In y l1 \/ y = best \/ In y l2 -> In y qs).
  { intros y Hy. rewrite Hsplit. apply in_or_app. simpl.
    destruct Hy as [Hy | [-> | Hy]]; auto. }
  exists (fst best), w', (map fst l1), (map fst l2).
  split.
  { unfold choose_action.
    rewrite (bind_inr _ _ _ _ _ (loads_dict_object _ _ _ Hloads)).
    assert (Hr : random w = (inr (fst (rng_random (gen w))), w0)).
    { unfold random, w0. now destruct (rng_random (gen w)). }
    rewrite (bind_inr _ _ _ _ _ Hr), Hexploit.
    unfold high_pain_menstrual. rewrite Hphase, Hpain. simpl from_option.
    unfold bind at 1. unfold ret at 1.
    fold adjust. rewrite (bind_inr _ _ _ _ _ Hrun), Hbest. reflexivity. }
  split; [exact Hg |]. split.
  { intros a Ha. rewrite <- Hfst in Ha. apply in_map_iff in Ha.
    destruct Ha as (y & <- & Hy). rewrite Forall_forall in Hvals.
    destruct (Hvals y Hy) as (q & Hq & _). fold u. congruence. }
  split; [now rewrite <- Hfst, Hsplit, map_app |]. split.
  - intros a Ha. apply in_map_iff in Ha. destruct Ha as (y & <- & Hy).
    rewrite <- (Hscore y), <- (Hscore best) by (apply Hin; auto). now apply Hlt.
  - intros a Ha. apply in_map_iff in Ha. destruct Ha as (y & <- & Hy).
    rewrite <- (Hscore y), <- (Hscore best) by (apply Hin; auto). now apply Hle.
Qed.

Lemma binary64_round_comp (x y : Q) : (x == y)%Q -> binary64_round x = binary64_round y.
Proof. intro H. unfold binary64_round. now rewrite (Qred_complete x y H). Qed.

Lemma float_add_comp (x y b : Q) : (x == y)%Q -> float_add x b = float_add y b.
Proof. intro H. unfold float_add. apply binary64_round_comp. now rewrite H. Qed.

Lemma boosted_q_value (u state : string) (d : database) (a : string) (v x : Q) :
  lookup_q u state a d = Some v -> (v == x)%Q ->
  (boosted_q u state d a == boosted_value a x)%Q.
Proof.
  intros Hl Hv. unfold boosted_q, boosted_value, q_of. rewrite Hl.
  destruct (existsb _ _); [| exact Hv].
  now rewrite (float_add_comp v x _ Hv).
Qed.

(** The boosted values of the scenario: 0.9 + 0.5 above 0.85 + 0.5 above
    0.1, in floating-point arithmetic. *)
Lemma scenario_boosted_values :
  (boosted_value "stretch_prompt" (binary64_round (85 # 100))
   < boosted_value "magnesium_suggestion" (binary64_round (9 # 10)))%Q
  /\ forall a, In a ["mindfulness"; "nap_suggestion"; "healthy_snack"; "movement_break"] ->
       (boosted_value a (binary64_round (1 # 10))
        < boosted_value "stretch_prompt" (binary64_round (85 # 100)))%Q.
Proof.
  split; [vm_compute; reflexivity |].
  intros a [<- | [<- | [<- | [<- | []]]]]; vm_compute; reflexivity.
Qed.

(** C5. On the exploit branch (the draw is not below epsilon), in a state
    decoded with phase "menstrual" and pain level at least 6, the action
    returned is the arg-max over the six actions of [Q(state, a) + b(a)],
    with [b] = 0.5 on magnesium_suggestion and stretch_prompt and 0
    elsewhere, the sum being the floating-point sum the code computes:
    every action before it in the enumeration has a strictly smaller
    boosted value and every action after it a boosted value that is not
    greater. With magnesium at 0.9, stretch at 0.85 and the other four at
    0.1 (the floats of these literals) the action is
    magnesium_suggestion. *)
Theorem choose_action_exploit_high_pain (u : string) (alpha gamma epsilon : Q)
    (state : string) (d : list (string * json)) (w : world) :
  json_loads state = Some (JObj d) ->
  py_eq_str (dict_get d "cycle_phase" JNull) "menstrual" = true ->
  py_ge (dict_get d "pain_level" (JInt 5)) 6 = Some true ->
  Qlt_bool (fst (rng_random (gen w))) epsilon = false ->
  exists (best : string) (w' : world) (before after : list string),
    choose_action (Agent.mk u six_actions alpha gamma epsilon) state w = (inr best, w')
    /\ q_grows (db w) (db w')
    /\ (forall a, In a six_actions -> lookup_q u state a (db w') <> None)
    /\ six_actions = before ++ best :: after
    /\ (forall a, In a before ->
          (boosted_q u state (db w') a < boosted_q u state (db w') best)%Q)
    /\ (forall a, In a after ->
          (boosted_q u state (db w') a <= boosted_q u state (db w') best)%Q)
    /\ ((exists v, lookup_q u state "magnesium_suggestion" (db w) = Some v
                   /\ (v == binary64_round (9 # 10))%Q) ->
        (exists v, lookup_q u state "stretch_prompt" (db w) = Some v
                   /\ (v == binary64_round (85 # 100))%Q) ->
        (forall a, In a ["mindfulness"; "nap_suggestion"; "healthy_snack"; "movement_break"] ->
                   exists v, lookup_q u state a (db w) = Some v
                             /\ (v == binary64_round (1 # 10))%Q) ->
        best = "magnesium_suggestion").
Proof.
  intros Hloads Hphase Hpain Hexploit.
  destruct (choose_action_exploit_boosted (Agent.mk u six_actions alpha gamma epsilon)
              state d w) as (best & w' & before & after & Hrun & Hg & Hdef & Hsplit & Hlt & Hle);
    try assumption; [discriminate |].
  cbn [Agent.user_id Agent.actions] in Hdef, Hsplit, Hlt, Hle.
  exists best, w', before, after.
  repeat (split; [assumption |]).
  intros (vm & Hm & Em) (vs & Hs & Es) Hothers.
  destruct Hg as (_ & _ & _ & Hkeep).
  pose proof (boosted_q_value _ _ _ _ _ _ (Hkeep _ _ _ _ Hm) Em) as Bm.
  pose proof (boosted_q_value _ _ _ _ _ _ (Hkeep _ _ _ _ Hs) Es) as Bs.
  assert (Bo : forall a,
             In a ["mindfulness"; "nap_suggestion"; "healthy_snack"; "movement_break"] ->
             (boosted_q u state (db w') a < boosted_q u state (db w') "stretch_prompt")%Q).
  { intros a Ha. destruct (Hothers a Ha) as (v & Hv & Ev).
    exact (proj2 (Qlt_compat _ _ (boosted_q_value _ _ _ _ _ _ (Hkeep _ _ _ _ Hv) Ev)
                    _ _ Bs)
             (proj2 scenario_boosted_values a Ha)). }
  pose proof (proj2 (Qlt_compat _ _ Bs _ _ Bm) (proj1 scenario_boosted_values)) as Hsm.
  unfold six_actions in Hsplit. simpl in Hsplit.
  destruct before as [| b0 [| b1 [| b2 [| b3 [| b4 [| b5 before]]]]]];
    simpl in Hsplit; injection Hsplit as <-; intros; subst;
    try reflexivity; exfalso.
  - pose proof (Hle "magnesium_suggestion" ltac:(simpl; auto)) as X.
    exact (Qlt_not_le _ _ Hsm X).
  - pose proof (Hlt "stretch_prompt" ltac:(simpl; auto)) as X.
    exact (Qlt_irrefl _ (Qlt_trans _ _ _ X (Bo "mindfulness" ltac:(simpl; auto)))).
  - pose proof (Hlt "stretch_prompt" ltac:(simpl; auto)) as X.
    exact (Qlt_irrefl _ (Qlt_trans _ _ _ X (Bo "nap_suggestion" ltac:(simpl; auto)))).
  - pose proof (Hlt "stretch_prompt" ltac:(simpl; auto)) as X.
    exact (Qlt_irrefl _ (Qlt_trans _ _ _ X (Bo "healthy_snack" ltac:(simpl; auto)))).
  - pose proof (Hlt "stretch_prompt" ltac:(simpl; auto)) as X.
    exact (Qlt_irrefl _ (Qlt_trans _ _ _ X (Bo "movement_break" ltac:(simpl; auto 6)))).
  - match goal with
    | H : [] = _ |- _ => destruct before; discriminate H
    end.
Qed.

(* ================================================================ *)
(** ** The state encoder: [get_current_state] *)

Lemma get_current_state_found (self : Environment.t) (now : datetime) (w : world)
    (o : CycleData.t) :
  latest_cycle_data (Environment.user_id self) (db w) = Some o ->
  get_current_state self now w
  = (inr (Some (state_key (CycleData.cycle_phase o) (CycleData.sleep_score o)
                  (CycleData.mood_score o) (CycleData.stress_level o)
                  (CycleData.pain_level o) (time_of_day (dt_hour now))
                  (CycleData.energy_level o))), w).
Proof.
  intro H. unfold get_current_state, bind, query. now rewrite H.
Qed.

Lemma get_current_state_missing (self : Environment.t) (now : datetime) (w : world) :
  latest_cycle_data (Environment.user_id self) (db w) = None ->
  get_current_state self now w = (inr None, w).
Proof.
  intro H. unfold get_current_state, bind, query. now rewrite H.
Qed.

Lemma get_current_state_total (self : Environment.t) (now : datetime) (w : world) :
  exists o, get_current_state self now w = (inr o, w).
Proof.
  destruct (latest_cycle_data (Environment.user_id self) (db w)) eqn:E.
  - eexists. exact (get_current_state_found _ _ _ _ E).
  - eexists. exact (get_current_state_missing _ _ _ E).
Qed.

(** C6. Two encodings of observations that agree on the six fields, made
    at clock readings of the same time-of-day bucket, return the same
    State Key, character for character. *)
Theorem get_current_state_deterministic (self1 self2 : Environment.t)
    (now1 now2 : datetime) (w1 w2 : world) (o1 o2 : CycleData.t) :
  latest_cycle_data (Environment.user_id self1) (db w1) = Some o1 ->
  latest_cycle_data (Environment.user_id self2) (db w2) = Some o2 ->
  CycleData.cycle_phase o1 = CycleData.cycle_phase o2 ->
  CycleData.sleep_score o1 = CycleData.sleep_score o2 ->
  CycleData.mood_score o1 = CycleData.mood_score o2 ->
  CycleData.stress_level o1 = CycleData.stress_level o2 ->
  CycleData.pain_level o1 = CycleData.pain_level o2 ->
  CycleData.energy_level o1 = CycleData.energy_level o2 ->
  time_of_day (dt_hour now1) = time_of_day (dt_hour now2) ->
  exists key : string,
    get_current_state self1 now1 w1 = (inr (Some key), w1)
    /\ get_current_state self2 now2 w2 = (inr (Some key), w2).
Proof.
  intros H1 H2 Hphase Hsleep Hmood Hstress Hpain Henergy Hbucket.
  eexists. split.
  - exact (get_current_state_found _ _ _ _ H1).
  - rewrite (get_current_state_found _ _ _ _ H2).
    now rewrite Hphase, Hsleep, Hmood, Hstress, Hpain, Henergy, Hbucket.
Qed.

(** C9. The time-of-day field of the State Key is the bucket of the hour
    of the clock reading passed to the query (morning on [5,12),
    afternoon on [12,17), evening on [17,22), night otherwise); the
    timestamp stored with the observation does not enter the key. *)
Theorem time_of_day_bound_at_query_time :
  (forall h : Z,
      ((5 <= h < 12)%Z -> time_of_day h = "morning")
      /\ ((12 <= h < 17)%Z -> time_of_day h = "afternoon")
      /\ ((17 <= h < 22)%Z -> time_of_day h = "evening")
      /\ ((h < 5 \/ 22 <= h)%Z -> time_of_day h = "night"))
  /\ (forall (self : Environment.t) (now : datetime) (w : world) (o : CycleData.t),
        latest_cycle_data (Environment.user_id self) (db w) = Some o ->
        get_current_state self now w
        = (inr (Some (state_key (CycleData.cycle_phase o) (CycleData.sleep_score o)
                        (CycleData.mood_score o) (CycleData.stress_level o)
                        (CycleData.pain_level o) (time_of_day (dt_hour now))
                        (CycleData.energy_level o))), w)).
Proof.
  split; [| exact get_current_state_found].
  intro h. unfold time_of_day. repeat split; intro H.
  - replace (5 <=? h)%Z with true by (symmetry; apply Z.leb_le; lia).
    replace (h <? 12)%Z with true by (symmetry; apply Z.ltb_lt; lia). reflexivity.
  - replace (h <? 12)%Z with false by (symmetry; apply Z.ltb_ge; lia).
    rewrite andb_false_r.
    replace (12 <=? h)%Z with true by (symmetry; apply Z.leb_le; lia).
    replace (h <? 17)%Z with true by (symmetry; apply Z.ltb_lt; lia). reflexivity.
  - replace (h <? 12)%Z with false by (symmetry; apply Z.ltb_ge; lia).
    replace (h <? 17)%Z with false by (symmetry; apply Z.ltb_ge; lia).
    rewrite !andb_false_r.
    replace (17 <=? h)%Z with true by (symmetry; apply Z.leb_le; lia).
    replace (h <? 22)%Z with true by (symmetry; apply Z.ltb_lt; lia). reflexivity.
  - destruct H as [H | H].
    + replace (5 <=? h)%Z with false by (symmetry; apply Z.leb_gt; lia).
      replace (12 <=? h)%Z with false by (symmetry; apply Z.leb_gt; lia).
      replace (17 <=? h)%Z with false by (symmetry; apply Z.leb_gt; lia).
      reflexivity.
    + replace (h <? 12)%Z with false by (symmetry; apply Z.ltb_ge; lia).
      replace (h <? 17)%Z with false by (symmetry; apply Z.ltb_ge; lia).
      replace (h <? 22)%Z with false by (symmetry; apply Z.ltb_ge; lia).
      now rewrite !andb_false_r.
Qed.

(* ================================================================ *)
(** ** The endpoints *)

(** C8. For a user with no observation the encoder returns no state and
    the notification request fails with status 404; no action is chosen,
    no Q-value is read or initialised and no notification is stored: the
    world is the one the request started in. *)
Theorem generate_user_notification_without_observation (user_id : string)
    (now : datetime) (w : world) :
  latest_cycle_data user_id (db w) = None ->
  get_current_state (Environment.init user_id) now w = (inr None, w)
  /\ generate_user_notification user_id now w
     = (inl (HTTPException 404 "No cycle data found for user"), w).
Proof.
  intro H.
  assert (Hs : get_current_state (Environment.init user_id) now w = (inr None, w))
    by now apply get_current_state_missing.
  split; [exact Hs |].
  unfold generate_user_notification. now rewrite (bind_inr _ _ _ _ _ Hs).
Qed.

Lemma map_id_assign_feedback (nid a : Z) (e : Q) (rows : list Notification.t) :
  map Notification.id (assign_feedback nid a e rows) = map Notification.id rows.
Proof.
  induction rows as [| x rows IH]; simpl; [reflexivity |].
  destruct (Notification.id x =? nid)%Z; simpl; [reflexivity | now rewrite IH].
Qed.

Lemma first_notification_id (nid : Z) (d : database) (n : Notification.t) :
  first_notification nid d = Some n -> Notification.id n = nid.
Proof.
  unfold first_notification. intro H. apply find_some in H. now apply Z.eqb_eq.
Qed.


Lemma reward_function_reads (self : Environment.t) (fb : NotificationFeedback.t)
    (w w' : world) :
  cycle_data (db w') = cycle_data (db w) ->
  exists reward,
    reward_function self fb w = (inr reward, w)
    /\ reward_function self fb w' = (inr reward, w').
Proof.
  intro H. unfold reward_function.
  destruct (NotificationFeedback.action_taken fb =? 0)%Z.
  - eexists. split; reflexivity.
  - unfold bind, query, ret, latest_cycle_data. rewrite H.
    eexists. split; reflexivity.
Qed.

(** The integers of a body, one by one. *)
Lemma feedback_integers (fb : NotificationFeedback.t) :
  forallb sqlite_integer (NotificationFeedback.integers fb) = true ->
  sqlite_integer (NotificationFeedback.notification_id fb) = true
  /\ sqlite_integer (NotificationFeedback.action_taken fb) = true
  /\ sqlite_integer (NotificationFeedback.next_day_energy fb) = true
  /\ sqlite_integer (NotificationFeedback.next_day_mood fb) = true.
Proof.
  unfold NotificationFeedback.integers. cbn [forallb].
  rewrite !andb_true_iff. intros (H1 & H2 & H3 & H4 & _). auto.
Qed.

(** A request for a notification that is found: what is left to run, once
    the lookup, the two assignments (pending in the session), the reward
    and the next state are through. *)
Lemma process_notification_feedback_known (fb : NotificationFeedback.t) (now : datetime)
    (w : world) (n : Notification.t) :
  sqlite_integer (NotificationFeedback.notification_id fb) = true ->
  first_notification (NotificationFeedback.notification_id fb) (db w) = Some n ->
  exists reward : Q,
    reward_function (Environment.init (Notification.user_id n)) fb w = (inr reward, w)
    /\ process_notification_feedback fb now w
       = ((if negb (sqlite_integer (NotificationFeedback.action_taken fb))
           then
             rolled_back (db w)
               (update_q_value_unflushed (Agent.init (Notification.user_id n) six_actions)
                  (Notification.state n) (Notification.action n)
                  (feedback_next_state n now (db w)))
           else if forallb sqlite_integer [NotificationFeedback.next_day_energy fb;
                                            NotificationFeedback.next_day_mood fb]
           then
             update_q_value (Agent.init (Notification.user_id n) six_actions)
               (Notification.state n) (Notification.action n) reward
               (feedback_next_state n now (db w))
               (NotificationFeedback.action_taken fb) (NotificationFeedback.effectiveness fb)
               (Some (NotificationFeedback.next_day_energy fb))
               (Some (NotificationFeedback.next_day_mood fb)) now
           else
             update_q_value_unbound (Agent.init (Notification.user_id n) six_actions)
               (Notification.state n) (Notification.action n)
               (feedback_next_state n now (db w)) (db w)) ;;
          ret ("success", reward))
           {| db := with_notifications (db w)
                      (assign_feedback (NotificationFeedback.notification_id fb)
                         (NotificationFeedback.action_taken fb)
                         (NotificationFeedback.effectiveness fb)
                         (notifications (db w)));
              gen := gen w |}.
Proof.
  intros Hid Hfind.
  pose proof (first_notification_id _ _ _ Hfind) as Hn.
  set (w1 := {| db := with_notifications (db w)
                        (assign_feedback (NotificationFeedback.notification_id fb)
                           (NotificationFeedback.action_taken fb)
                           (NotificationFeedback.effectiveness fb)
                           (notifications (db w)));
                gen := gen w |}).
  set (env := Environment.init (Notification.user_id n)).
  destruct (reward_function_reads env fb w w1 eq_refl) as (reward & Hrew & Hrew1).
  exists reward. split; [exact Hrew |].
  assert (Hstate : exists o,
             get_current_state env now w1 = (inr o, w1)
             /\ match o with
                | None | Some EmptyString => Notification.state n
                | Some s => s
                end = feedback_next_state n now (db w)).
  { unfold feedback_next_state.
    change (latest_cycle_data (Notification.user_id n) (db w))
      with (latest_cycle_data (Environment.user_id env) (db w1)).
    destruct (latest_cycle_data (Environment.user_id env) (db w1)) as [o |] eqn:Hlatest.
    - eexists. split; [exact (get_current_state_found env now w1 o Hlatest) |].
      reflexivity.
    - exists None. split; [exact (get_current_state_missing env now w1 Hlatest) |].
      reflexivity. }
  destruct Hstate as (o & Hstate & Hnext).
  unfold process_notification_feedback.
  unfold bind at 1. unfold bind_integers. cbn [forallb]. rewrite Hid. cbn [andb ret].
  unfold bind at 1. unfold query at 1. rewrite Hfind.
  unfold bind at 1. unfold query at 1.
  unfold bind at 1. unfold modify at 1. rewrite Hn. fold w1. cbv zeta. fold env.
  rewrite (bind_inr _ _ _ _ _ Hrew1), (bind_inr _ _ _ _ _ Hstate).
  rewrite Hnext. reflexivity.
Qed.

(** An id the driver cannot bind: the lookup raises. *)
Lemma process_notification_feedback_unbound_id (fb : NotificationFeedback.t)
    (now : datetime) (w : world) :
  sqlite_integer (NotificationFeedback.notification_id fb) = false ->
  process_notification_feedback fb now w = (inl OverflowError, w).
Proof.
  intro Hid. unfold process_notification_feedback.
  unfold bind at 1. unfold bind_integers. cbn [forallb]. rewrite Hid. reflexivity.
Qed.

Lemma process_notification_feedback_unknown_run (fb : NotificationFeedback.t)
    (now : datetime) (w : world) :
  sqlite_integer (NotificationFeedback.notification_id fb) = true ->
  first_notification (NotificationFeedback.notification_id fb) (db w) = None ->
  process_notification_feedback fb now w
  = (inl (HTTPException 404 "Notification not found"), w).
Proof.
  intros Hid H. unfold process_notification_feedback.
  unfold bind at 1. unfold bind_integers. cbn [forallb]. rewrite Hid. cbn [andb ret].
  unfold bind, query. now rewrite H.
Qed.

(** The accepted request: the reward, the table [d1] the reads of the
    update leave, the two values the update reads from it and the store
    it commits. *)
Lemma process_notification_feedback_run (fb : NotificationFeedback.t) (now : datetime)
    (w : world) (n : Notification.t) :
  forallb sqlite_integer (NotificationFeedback.integers fb) = true ->
  first_notification (NotificationFeedback.notification_id fb) (db w) = Some n ->
  exists (reward cur m : Q) (d1 : database) (g : rng),
    reward_function (Environment.init (Notification.user_id n)) fb w = (inr reward, w)
    /\ q_grows (with_notifications (db w)
                  (assign_feedback (NotificationFeedback.notification_id fb)
                     (NotificationFeedback.action_taken fb)
                     (NotificationFeedback.effectiveness fb) (notifications (db w)))) d1
    /\ lookup_q (Notification.user_id n) (Notification.state n) (Notification.action n) d1
       = Some cur
    /\ (exists a', In a' six_actions
                   /\ lookup_q (Notification.user_id n)
                        (feedback_next_state n now (db w)) a' d1 = Some m)
    /\ (forall a', In a' six_actions ->
          exists q, lookup_q (Notification.user_id n)
                      (feedback_next_state n now (db w)) a' d1 = Some q
                    /\ (q <= m)%Q)
    /\ process_notification_feedback fb now w
       = (inr ("success", reward),
          {| db := updated (Agent.init (Notification.user_id n) six_actions)
                     (Notification.state n) (Notification.action n)
                     (cur + (1 # 10) * (reward + (9 # 10) * m - cur))%Q reward
                     (NotificationFeedback.action_taken fb)
                     (Some (NotificationFeedback.next_day_energy fb))
                     (Some (NotificationFeedback.next_day_mood fb)) now d1;
             gen := g |}).
Proof.
  intros Hints Hfind.
  destruct (feedback_integers fb Hints) as (Hid & Htaken & He & Hm).
  destruct (process_notification_feedback_known fb now w n Hid Hfind)
    as (reward & Hrew & Hrun).
  rewrite Htaken in Hrun. cbn [negb forallb] in Hrun. rewrite He, Hm in Hrun.
  cbn [andb] in Hrun.
  destruct (update_q_value_run (Agent.init (Notification.user_id n) six_actions)
              (Notification.state n) (Notification.action n) reward
              (feedback_next_state n now (db w))
              (NotificationFeedback.action_taken fb) (NotificationFeedback.effectiveness fb)
              (Some (NotificationFeedback.next_day_energy fb))
              (Some (NotificationFeedback.next_day_mood fb)) now
              {| db := with_notifications (db w)
                         (assign_feedback (NotificationFeedback.notification_id fb)
                            (NotificationFeedback.action_taken fb)
                            (NotificationFeedback.effectiveness fb)
                            (notifications (db w)));
                 gen := gen w |})
    as (d1 & g' & cur & m & Hg & Hcur & Hmax & Hub & Hupd); [discriminate |].
  cbn [Agent.user_id Agent.actions Agent.alpha Agent.gamma Agent.init db]
    in Hg, Hcur, Hmax, Hub, Hupd.
  exists reward, cur, m, d1, g'.
  split; [exact Hrew |]. split; [exact Hg |]. split; [exact Hcur |].
  split; [exact Hmax |]. split; [exact Hub |].
  rewrite Hrun, (bind_inr _ _ _ _ _ Hupd). reflexivity.
Qed.

Lemma rolled_back_inl {A : Type} (committed : database) (body : M A) (w w' : world)
    (e : exn) :
  body w = (inl e, w') ->
  rolled_back committed body w = (inl e, {| db := committed; gen := gen w' |}).
Proof. intro H. unfold rolled_back. now rewrite H. Qed.

Lemma get_q_value_unflushed_run (self : Agent.t) (s a : string) (w w' : world)
    (r : exn + Q) :
  get_q_value_unflushed self s a w = (r, w') ->
  db w' = db w /\ ((exists v, r = inr v) \/ r = inl OverflowError).
Proof.
  unfold get_q_value_unflushed, bind, query.
  destruct (first_q (Agent.user_id self) s a (db w)) as [row |].
  - intros [= <- <-]. split; [reflexivity | left; eauto].
  - unfold random_uniform, random, bind, ret, raise.
    destruct (rng_random (gen w)) as [x g]. intros [= <- <-].
    split; [reflexivity | now right].
Qed.

Lemma for_each_unflushed (self : Agent.t) (s : string) (l : list string) :
  forall (w w' : world) (r : exn + list Q),
    for_each l (fun a => get_q_value_unflushed self s a) w = (r, w') ->
    db w' = db w
    /\ ((exists ys, r = inr ys /\ List.length ys = List.length l) \/ r = inl OverflowError).
Proof.
  induction l as [| a l IH]; intros w w' r; cbn [for_each].
  - intros [= <- <-]. split; [reflexivity | left; exists []; split; reflexivity].
  - intro Hrun.
    destruct (bind_run _ _ _ _ _ Hrun) as [(e & H1 & ->) | (v & w1 & H1 & Hrest)].
    + destruct (get_q_value_unflushed_run _ _ _ _ _ _ H1) as (Hdb & [(v & Hv) | He]);
        [discriminate Hv |].
      split; [exact Hdb | right; now injection He as ->].
    + destruct (get_q_value_unflushed_run _ _ _ _ _ _ H1) as (Hdb1 & _).
      destruct (bind_run _ _ _ _ _ Hrest) as [(e & H2 & ->) | (ys & w2 & H2 & Hret)].
      * destruct (IH _ _ _ H2) as (Hdb2 & [(ys & Hys & _) | He]); [discriminate Hys |].
        split; [now rewrite Hdb2 | right; now injection He as ->].
      * destruct (IH _ _ _ H2) as (Hdb2 & [(ys' & [= <-] & Hlen) | He]);
          [| discriminate He].
        injection Hret as <- <-.
        split; [now rewrite Hdb2 | left].
        exists (v :: ys). split; [reflexivity | cbn [List.length]; now rewrite Hlen].
Qed.

(** In a session that cannot flush, [update_q_value] raises OverflowError
    and has written nothing. *)
Lemma update_q_value_unflushed_run (self : Agent.t) (s a s' : string) (w : world) :
  Agent.actions self <> [] ->
  exists w', update_q_value_unflushed self s a s' w = (inl OverflowError, w')
             /\ db w' = db w.
Proof.
  intro Hne. unfold update_q_value_unflushed.
  destruct (get_q_value_unflushed self s a w) as [r1 w1] eqn:H1.
  destruct (get_q_value_unflushed_run _ _ _ _ _ _ H1) as (Hdb1 & [(v & ->) | ->]).
  2:{ exists w1. rewrite (bind_inl _ _ _ _ _ H1). split; [reflexivity | exact Hdb1]. }
  rewrite (bind_inr _ _ _ _ _ H1).
  destruct (for_each (Agent.actions self) (fun a0 => get_q_value_unflushed self s' a0) w1)
    as [r2 w2] eqn:H2.
  destruct (for_each_unflushed _ _ _ _ _ _ H2) as (Hdb2 & [(ys & -> & Hlen) | ->]).
  2:{ exists w2. rewrite (bind_inl _ _ _ _ _ H2). split; [reflexivity | congruence]. }
  rewrite (bind_inr _ _ _ _ _ H2).
  assert (Hys : ys <> []).
  { intro E. subst ys. cbn in Hlen. destruct (Agent.actions self); [now apply Hne |].
    discriminate Hlen. }
  destruct (py_max_by_nonempty (fun q => q) ys Hys) as (m & Hm).
  unfold py_max. rewrite Hm. exists w2. split; [reflexivity | congruence].
Qed.

(** With a history row that cannot be bound, [update_q_value] raises
    OverflowError after its reads: the store is the one its lazy
    initialisations left, or [start] when there was none. *)
Lemma update_q_value_unbound_run (self : Agent.t) (s a s' : string) (start : database)
    (w : world) :
  Agent.actions self <> [] ->
  exists w1,
    q_grows (db w) (db w1)
    /\ update_q_value_unbound self s a s' start w
       = (inl OverflowError,
          {| db := if (List.length (q_tables (db w1)) =? List.length (q_tables (db w)))%nat
                   then start else db w1;
             gen := gen w1 |}).
Proof.
  intro Hne.
  destruct (get_q_value_total self s a w) as (cur & w1 & Hrun1 & Hg1 & _).
  destruct (for_each_reads (fun a' => get_q_value self s' a')
              (fun a' q d => lookup_q (Agent.user_id self) s' a' d = Some q)
              (fun a' w0 => get_q_value_total self s' a' w0)
              (fun a' q d d' Hq Hg => proj2 (proj2 (proj2 Hg)) _ _ _ _ Hq)
              (Agent.actions self) w1)
    as (qs & w2 & Hrun2 & Hg2 & Hall).
  assert (Hqs : qs <> []).
  { intro E. subst qs. inversion Hall as [E' |]. now apply Hne. }
  destruct (py_max_by_nonempty (fun q => q) qs Hqs) as (m & Hm).
  exists w2. split; [eapply q_grows_trans; eauto |].
  unfold update_q_value_unbound.
  unfold bind at 1. unfold query at 1.
  rewrite (bind_inr _ _ _ _ _ Hrun1), (bind_inr _ _ _ _ _ Hrun2).
  unfold bind at 1. unfold query at 1.
  apply rolled_back_inl. unfold py_max. rewrite Hm. reflexivity.
Qed.

(** A request whose [action_taken] cannot be bound raises OverflowError and
    leaves the store as it was. *)
Lemma process_notification_feedback_unflushed (fb : NotificationFeedback.t)
    (now : datetime) (w : world) (n : Notification.t) :
  sqlite_integer (NotificationFeedback.notification_id fb) = true ->
  first_notification (NotificationFeedback.notification_id fb) (db w) = Some n ->
  sqlite_integer (NotificationFeedback.action_taken fb) = false ->
  exists g, process_notification_feedback fb now w
            = (inl OverflowError, {| db := db w; gen := g |}).
Proof.
  intros Hid Hfind Htaken.
  destruct (process_notification_feedback_known fb now w n Hid Hfind)
    as (reward & _ & Hrun).
  rewrite Htaken in Hrun. cbn [negb] in Hrun.
  destruct (update_q_value_unflushed_run (Agent.init (Notification.user_id n) six_actions)
              (Notification.state n) (Notification.action n)
              (feedback_next_state n now (db w))
              {| db := with_notifications (db w)
                         (assign_feedback (NotificationFeedback.notification_id fb)
                            (NotificationFeedback.action_taken fb)
                            (NotificationFeedback.effectiveness fb)
                            (notifications (db w)));
                 gen := gen w |} ltac:(discriminate))
    as (w' & Hupd & _).
  exists (gen w'). rewrite Hrun.
  now rewrite (bind_inl _ _ _ _ _ (rolled_back_inl (db w) _ _ _ _ Hupd)).
Qed.

(** A request whose next-day values cannot be bound raises OverflowError;
    the store is as it was, or holds the assignments and the lazily
    initialised Q-values that a commit wrote before. *)
Lemma process_notification_feedback_unbound (fb : NotificationFeedback.t)
    (now : datetime) (w : world) (n : Notification.t) :
  sqlite_integer (NotificationFeedback.notification_id fb) = true ->
  first_notification (NotificationFeedback.notification_id fb) (db w) = Some n ->
  sqlite_integer (NotificationFeedback.action_taken fb) = true ->
  forallb sqlite_integer [NotificationFeedback.next_day_energy fb;
                          NotificationFeedback.next_day_mood fb] = false ->
  exists d' g,
    process_notification_feedback fb now w = (inl OverflowError, {| db := d'; gen := g |})
    /\ (d' = db w
        \/ q_grows (with_notifications (db w)
                      (assign_feedback (NotificationFeedback.notification_id fb)
                         (NotificationFeedback.action_taken fb)
                         (NotificationFeedback.effectiveness fb) (notifications (db w))))
             d').
Proof.
  intros Hid Hfind Htaken Hnext.
  destruct (process_notification_feedback_known fb now w n Hid Hfind)
    as (reward & _ & Hrun).
  rewrite Htaken, Hnext in Hrun. cbn [negb] in Hrun.
  destruct (update_q_value_unbound_run (Agent.init (Notification.user_id n) six_actions)
              (Notification.state n) (Notification.action n)
              (feedback_next_state n now (db w)) (db w)
              {| db := with_notifications (db w)
                         (assign_feedback (NotificationFeedback.notification_id fb)
                            (NotificationFeedback.action_taken fb)
                            (NotificationFeedback.effectiveness fb)
                            (notifications (db w)));
                 gen := gen w |} ltac:(discriminate))
    as (w1 & Hg & Hupd).
  eexists _, _. split; [rewrite Hrun; now rewrite (bind_inl _ _ _ _ _ Hupd) |].
  destruct (_ =? _)%nat; [now left | right; exact Hg].
Qed.


(** Whatever a feedback request returns or raises, the notifications keep
    their ids. *)
Lemma process_notification_feedback_ids (fb : NotificationFeedback.t) (now : datetime)
    (w : world) :
  map Notification.id (notifications (db (snd (process_notification_feedback fb now w))))
  = map Notification.id (notifications (db w)).
Proof.
  destruct (sqlite_integer (NotificationFeedback.notification_id fb)) eqn:Hid.
  2:{ now rewrite (process_notification_feedback_unbound_id fb now w Hid). }
  destruct (first_notification (NotificationFeedback.notification_id fb) (db w))
    as [n |] eqn:Hfind.
  2:{ now rewrite (process_notification_feedback_unknown_run fb now w Hid Hfind). }
  destruct (sqlite_integer (NotificationFeedback.action_taken fb)) eqn:Htaken.
  2:{ destruct (process_notification_feedback_unflushed fb now w n Hid Hfind Htaken)
        as (g & Hrun).
      now rewrite Hrun. }
  destruct (forallb sqlite_integer [NotificationFeedback.next_day_energy fb;
                                    NotificationFeedback.next_day_mood fb]) eqn:Hnext.
  - assert (Hints : forallb sqlite_integer (NotificationFeedback.integers fb) = true).
    { unfold NotificationFeedback.integers. cbn [forallb] in *.
      now rewrite Hid, Htaken, Hnext. }
    destruct (process_notification_feedback_run fb now w n Hints Hfind)
      as (reward & cur & m & d1 & g & _ & (_ & _ & Hnot & _) & _ & _ & _ & Hrun).
    rewrite Hrun. cbn [snd db]. unfold updated.
    cbn [notifications with_history with_q_tables with_notifications] in *.
    rewrite Hnot. apply map_id_assign_feedback.
  - destruct (process_notification_feedback_unbound fb now w n Hid Hfind Htaken Hnext)
      as (d' & g & Hrun & [-> | (_ & _ & Hnot & _)]); rewrite Hrun; cbn [snd db];
      [reflexivity |].
    cbn [notifications with_notifications] in Hnot.
    rewrite Hnot. apply map_id_assign_feedback.
Qed.




(* ================================================================ *)
(** ** Effects on the store, compositionally *)

Lemma keeps_ret {A : Type} (a : A) : keeps_db (ret a).
Proof. intros w r w' H. now injection H as _ <-. Qed.

Lemma keeps_raise {A : Type} (e : exn) : keeps_db (@raise A e).
Proof. intros w r w' H. now injection H as _ <-. Qed.

Lemma keeps_query {A : Type} (q : database -> A) : keeps_db (query q).
Proof. intros w r w' H. now injection H as _ <-. Qed.

Lemma keeps_from_option {A : Type} (e : exn) (o : option A) : keeps_db (from_option e o).
Proof. destruct o; [apply keeps_ret | apply keeps_raise]. Qed.

Lemma keeps_random : keeps_db random.
Proof.
  intros w r w'. unfold random. destruct (rng_random (gen w)). now intros [= _ <-].
Qed.

Lemma keeps_random_choice {A : Type} (seq : list A) : keeps_db (random_choice seq).
Proof.
  intros w r w'. unfold random_choice. destruct seq as [| x seq].
  - now intros [= _ <-].
  - destruct (rng_randbelow _ _) as [i g]. destruct (nth_error _ _); now intros [= _ <-].
Qed.

Lemma keeps_bind {A B : Type} (m : M A) (f : A -> M B) :
  keeps_db m -> (forall a, keeps_db (f a)) -> keeps_db (bind m f).
Proof.
  intros Hm Hf w r w' H. apply bind_run in H.
  destruct H as [(e & H & _) | (a & w1 & H1 & H2)].
  - exact (Hm _ _ _ H).
  - rewrite (Hf _ _ _ _ H2). exact (Hm _ _ _ H1).
Qed.

Lemma keeps_grows {A : Type} (m : M A) : keeps_db m -> grows_db m.
Proof. intros H w r w' Hrun. rewrite (H _ _ _ Hrun). apply q_grows_refl. Qed.

Lemma grows_bind {A B : Type} (m : M A) (f : A -> M B) :
  grows_db m -> (forall a, grows_db (f a)) -> grows_db (bind m f).
Proof.
  intros Hm Hf w r w' H. apply bind_run in H.
  destruct H as [(e & H & _) | (a & w1 & H1 & H2)].
  - exact (Hm _ _ _ H).
  - eapply q_grows_trans; [exact (Hm _ _ _ H1) | exact (Hf _ _ _ _ H2)].
Qed.

Lemma grows_get_q_value (self : Agent.t) (s a : string) : grows_db (get_q_value self s a).
Proof.
  intros w r w' H.
  destruct (get_q_value_total self s a w) as (v & w1 & Hrun & Hg & _).
  rewrite Hrun in H. now injection H as _ <-.
Qed.

Lemma grows_for_each {A B : Type} (l : list A) (f : A -> M B) :
  (forall a, grows_db (f a)) -> grows_db (for_each l f).
Proof.
  intro Hf. induction l as [| x l IH]; simpl.
  - apply keeps_grows, keeps_ret.
  - apply grows_bind; [apply Hf |]. intro y.
    apply grows_bind; [exact IH |]. intro ys. apply keeps_grows, keeps_ret.
Qed.


Lemma keeps_loads_dict (state : string) : keeps_db (loads_dict state).
Proof.
  unfold loads_dict. apply keeps_bind; [apply keeps_from_option |].
  intros []; try apply keeps_raise. apply keeps_ret.
Qed.

Lemma keeps_high_pain_menstrual (cycle_phase pain_level : json) :
  keeps_db (high_pain_menstrual cycle_phase pain_level).
Proof.
  unfold high_pain_menstrual. destruct (py_eq_str _ _);
    [apply keeps_from_option | apply keeps_ret].
Qed.

Lemma keeps_phase_get (table : list (string * string)) (default : string) (v : json) :
  keeps_db (phase_get table default v).
Proof. destruct v; simpl; try apply keeps_ret; apply keeps_raise. Qed.

Lemma random_choice_member {A : Type} (seq : list A) (w w' : world) (x : A) :
  random_choice seq w = (inr x, w') -> In x seq.
Proof.
  unfold random_choice. destruct seq as [| y seq]; [discriminate |].
  destruct (rng_randbelow _ _) as [i g].
  destruct (nth_error (y :: seq) i) eqn:E; [| discriminate].
  intros [= <- _]. eapply nth_error_In. exact E.
Qed.

Lemma for_each_run {A B : Type} (f : A -> M B) (l : list A) :
  forall (w w' : world) (ys : list B),
    for_each l f w = (inr ys, w') ->
    Forall2 (fun a y => exists w1 w2, f a w1 = (inr y, w2)) l ys.
Proof.
  induction l as [| x l IH]; simpl; intros w w' ys H.
  - injection H as <- _. constructor.
  - apply bind_run in H. destruct H as [(e & _ & [=]) | (y & w1 & Hy & H)].
    apply bind_run in H. destruct H as [(e & _ & [=]) | (ys' & w2 & Hys & H)].
    injection H as <- _. constructor; [eauto | eapply IH; eauto].
Qed.

Lemma py_max_by_member {A : Type} (key : A -> Q) (l : list A) (b : A) :
  py_max_by key l = Some b -> In b l.
Proof.
  intro H. destruct (py_max_by_first _ _ _ H) as (l1 & l2 & -> & _).
  apply in_elt.
Qed.

(** The arg-max loop of the exploit branch returns one of the actions it
    ranged over. *)
Lemma exploit_member (self : Agent.t) (state : string) (g : string -> Q -> Q)
    (w w' : world) (a : string) :
  bind (for_each (Agent.actions self)
          (fun action => bind (get_q_value self state action)
                           (fun q_value => ret (action, g action q_value))))
       (fun q_values => bind (from_option ValueError (py_max_by snd q_values))
                          (fun best => ret (fst best))) w = (inr a, w') ->
  In a (Agent.actions self).
Proof.
  intro H.
  apply bind_run in H. destruct H as [(e & _ & [=]) | (qs & w1 & Hqs & H)].
  apply bind_run in H. destruct H as [(e & _ & [=]) | (best & w2 & Hbest & H)].
  injection H as <- _.
  destruct (py_max_by snd qs) as [b |] eqn:E; simpl in Hbest; [| discriminate].
  injection Hbest as <- _.
  apply py_max_by_member in E. apply for_each_run in Hqs.
  destruct (Forall2_In_right _ _ _ _ Hqs E) as (x & Hx & w3 & w4 & Hrun).
  apply bind_run in Hrun. destruct Hrun as [(e & _ & [=]) | (q & w5 & _ & Hret)].
  injection Hret as <- _. exact Hx.
Qed.


Lemma keeps_snd {A : Type} (m : M A) (w : world) : keeps_db m -> db (snd (m w)) = db w.
Proof. intro H. destruct (m w) as [r w'] eqn:E. exact (H _ _ _ E). Qed.

Lemma grows_snd {A : Type} (m : M A) (w : world) :
  grows_db m -> q_grows (db w) (db (snd (m w))).
Proof. intro H. destruct (m w) as [r w'] eqn:E. exact (H _ _ _ E). Qed.

Lemma loads_dict_world (state : string) (w : world) : snd (loads_dict state w) = w.
Proof.
  unfold loads_dict, bind, from_option. destruct (json_loads state) as [[] |]; reflexivity.
Qed.

(** The explore branch: only the generator is used. *)
Lemma keeps_explore (self : Agent.t) (cycle_phase pain_level : json) :
  keeps_db
    (bind (high_pain_menstrual cycle_phase pain_level)
       (fun boosted =>
          if boosted
          then bind random
                 (fun r' => if Qlt_bool r' float_0_6
                            then random_choice pain_management_actions
                            else random_choice (Agent.actions self))
          else random_choice (Agent.actions self))).
Proof.
  apply keeps_bind; [apply keeps_high_pain_menstrual |].
  intros []; [| apply keeps_random_choice].
  apply keeps_bind; [apply keeps_random |].
  intro r'. destruct (Qlt_bool r' float_0_6); apply keeps_random_choice.
Qed.

Lemma grows_tagged_reads (self : Agent.t) (state : string) (g : string -> Q -> Q) :
  grows_db
    (bind (for_each (Agent.actions self)
             (fun action => bind (get_q_value self state action)
                              (fun q_value => ret (action, g action q_value))))
       (fun q_values => bind (from_option ValueError (py_max_by snd q_values))
                          (fun best => ret (fst best)))).
Proof.
  apply grows_bind.
  - apply grows_for_each. intro a. apply grows_bind; [apply grows_get_q_value |].
    intro q. apply keeps_grows, keeps_ret.
  - intro qs. apply keeps_grows, keeps_bind; [apply keeps_from_option |].
    intro b. apply keeps_ret.
Qed.

Lemma grows_choose_action (self : Agent.t) (state : string) :
  grows_db (choose_action self state).
Proof.
  unfold choose_action.
  apply grows_bind; [apply keeps_grows, keeps_loads_dict |]. intro d.
  apply grows_bind; [apply keeps_grows, keeps_random |]. intro r.
  destruct (Qlt_bool r (Agent.epsilon self)); [apply keeps_grows, keeps_explore |].
  apply grows_bind; [apply keeps_grows, keeps_high_pain_menstrual |].
  intros []; apply grows_tagged_reads.
Qed.

(** X1. Whatever [choose_action] returns or raises, it has at most added
    Q-value entries (no entry changed, no other table touched); when the
    draw falls below epsilon (explore) the four tables are left as they
    were. *)
Theorem choose_action_store_effect (self : Agent.t) (state : string) (w : world) :
  q_grows (db w) (db (snd (choose_action self state w)))
  /\ (Qlt_bool (fst (rng_random (gen w))) (Agent.epsilon self) = true ->
      db (snd (choose_action self state w)) = db w).
Proof.
  split; [apply grows_snd, grows_choose_action |].
  intro Hexplore. unfold choose_action. unfold bind at 1.
  pose proof (loads_dict_world state w) as Hw.
  destruct (loads_dict state w) as [[e | d] w1]; simpl in Hw; subst w1; [reflexivity |].
  unfold bind at 1. unfold random at 1.
  destruct (rng_random (gen w)) as [r g]. simpl in Hexplore. rewrite Hexplore.
  apply (keeps_snd _ {| db := db w; gen := g |}), keeps_explore.
Qed.

Lemma choose_action_member (u : string) (alpha gamma epsilon : Q)
    (state : string) (w w' : world) (a : string) :
  choose_action (Agent.mk u six_actions alpha gamma epsilon) state w = (inr a, w') ->
  In a six_actions.
Proof.
  unfold choose_action. intro H.
  apply bind_run in H. destruct H as [(e & _ & [=]) | (d & w1 & _ & H)].
  apply bind_run in H. destruct H as [(e & _ & [=]) | (r & w2 & _ & H)].
  cbn [Agent.epsilon Agent.actions] in H.
  destruct (Qlt_bool r epsilon).
  - apply bind_run in H. destruct H as [(e & _ & [=]) | ([] & w3 & _ & H)].
    + apply bind_run in H. destruct H as [(e & _ & [=]) | (r' & w4 & _ & H)].
      destruct (Qlt_bool r' float_0_6); apply random_choice_member in H; [| exact H].
      unfold six_actions. simpl. simpl in H. intuition.
    + now apply random_choice_member in H.
  - apply bind_run in H. destruct H as [(e & _ & [=]) | ([] & w3 & _ & H)].
    + exact (exploit_member (Agent.mk u six_actions alpha gamma epsilon) state
               (fun action q => if is_pain_management action then float_add q (5 # 10) else q)
               _ _ _ H).
    + exact (exploit_member (Agent.mk u six_actions alpha gamma epsilon) state
               (fun _ q => q) _ _ _ H).
Qed.

(** X2. Every action [choose_action] returns, on the explore branch and on
    both exploit branches, is one of the six actions. *)
Theorem choose_action_returns_known_action (u : string) (alpha gamma epsilon : Q)
    (state : string) (w w' : world) (a : string) :
  choose_action (Agent.mk u six_actions alpha gamma epsilon) state w = (inr a, w') ->
  In a six_actions.
Proof. exact (choose_action_member u alpha gamma epsilon state w w' a). Qed.


(** The arg-max loop of the exploit branch, for any decision-time
    adjustment [g] of the values read. *)
Lemma exploit_first_argmax (self : Agent.t) (state : string) (g : string -> Q -> Q)
    (w : world) :
  Agent.actions self <> [] ->
  exists (best : string) (w' : world) (before after : list string),
    bind (for_each (Agent.actions self)
            (fun action => bind (get_q_value self state action)
                             (fun q_value => ret (action, g action q_value))))
         (fun q_values => bind (from_option ValueError (py_max_by snd q_values))
                            (fun best => ret (fst best))) w = (inr best, w')
    /\ q_grows (db w) (db w')
    /\ (forall a, In a (Agent.actions self) ->
          lookup_q (Agent.user_id self) state a (db w') <> None)
    /\ Agent.actions self = before ++ best :: after
    /\ (forall a, In a before ->
          (g a (q_of (Agent.user_id self) state (db w') a)
           < g best (q_of (Agent.user_id self) state (db w') best))%Q)
    /\ (forall a, In a after ->
          (g a (q_of (Agent.user_id self) state (db w') a)
           <= g best (q_of (Agent.user_id self) state (db w') best))%Q).
Proof.
  intro Hne. set (u := Agent.user_id self).
  destruct (for_each_reads
              (fun action => bind (get_q_value self state action)
                               (fun q_value => ret (action, g action q_value)))
              (fun a y dd => exists q, lookup_q u state a dd = Some q /\ y = (a, g a q))
              (fun a w1 =>
                 match get_q_value_total self state a w1 with
                 | ex_intro _ v (ex_intro _ w2 (conj Hr (conj Hg Hl))) =>
                     ex_intro _ (a, g a v)
                       (ex_intro _ w2
                          (conj (eq_trans (bind_inr _ _ _ _ _ Hr) eq_refl)
                             (conj Hg (ex_intro _ v (conj Hl eq_refl)))))
                 end)
              (fun a y dd dd' Hp Hg =>
                 match Hp with
                 | ex_intro _ q (conj Hq Hy) =>
                     ex_intro _ q (conj (proj2 (proj2 (proj2 Hg)) _ _ _ _ Hq) Hy)
                 end)
              (Agent.actions self) w)
    as (qs & w' & Hrun & Hg & Hall).
  destruct (tagged_reads _ _ _ _ Hall) as [Hfst Hvals].
  assert (Hqs : qs <> []).
  { intro E. subst qs. simpl in Hfst. now apply Hne. }
  destruct (py_max_by_nonempty snd qs Hqs) as (best & Hbest).
  destruct (py_max_by_first _ _ _ Hbest) as (l1 & l2 & Hsplit & Hlt & Hle).
  assert (Hscore : forall y, In y qs -> snd y = g (fst y) (q_of u state (db w') (fst y))).
  { intros y Hy. rewrite Forall_forall in Hvals.
    destruct (Hvals y Hy) as (q & Hq & ->). unfold q_of. now rewrite Hq. }
  assert (Hin : forall y, In y l1 \/ y = best \/ In y l2 -> In y qs).
  { intros y Hy. rewrite Hsplit. apply in_or_app. simpl.
    destruct Hy as [Hy | [-> | Hy]]; auto. }
  exists (fst best), w', (map fst l1), (map fst l2).
  split.
  { rewrite (bind_inr _ _ _ _ _ Hrun), Hbest. reflexivity. }
  split; [exact Hg |]. split.
  { intros a Ha. rewrite <- Hfst in Ha. apply in_map_iff in Ha.
    destruct Ha as (y & <- & Hy). rewrite Forall_forall in Hvals.
    destruct (Hvals y Hy) as (q & Hq & _). fold u. congruence. }
  split; [now rewrite <- Hfst, Hsplit, map_app |]. split.
  - intros a Ha. apply in_map_iff in Ha. destruct Ha as (y & <- & Hy).
    rewrite <- (Hscore y), <- (Hscore best) by (apply Hin; auto). now apply Hlt.
  - intros a Ha. apply in_map_iff in Ha. destruct Ha as (y & <- & Hy).
    rewrite <- (Hscore y), <- (Hscore best) by (apply Hin; auto). now apply Hle.
Qed.

Lemma missing_pain_level_is_low (d : list (string * json)) :
  assoc_get "pain_level" d = None ->
  py_ge (dict_get d "pain_level" (JInt 5)) 6 = Some false.
Proof. intro H. unfold dict_get. now rewrite H. Qed.

(** X3. On the exploit branch, in a state that is not high-pain menstrual
    (the phase is not the string "menstrual", or the pain level is a
    number below 6, or the state has no pain level and 5 stands in), the
    action returned is the first arg-max of the unmodified Q-values. *)
Theorem choose_action_exploit_plain (u : string) (alpha gamma epsilon : Q)
    (state : string) (d : list (string * json)) (w : world) :
  json_loads state = Some (JObj d) ->
  py_eq_str (dict_get d "cycle_phase" JNull) "menstrual" = false
  \/ py_ge (dict_get d "pain_level" (JInt 5)) 6 = Some false
  \/ assoc_get "pain_level" d = None ->
  Qlt_bool (fst (rng_random (gen w))) epsilon = false ->
  exists (best : string) (w' : world) (before after : list string),
    choose_action (Agent.mk u six_actions alpha gamma epsilon) state w = (inr best, w')
    /\ q_grows (db w) (db w')
    /\ six_actions = before ++ best :: after
    /\ (forall a, In a before -> (q_of u state (db w') a < q_of u state (db w') best)%Q)
    /\ (forall a, In a after -> (q_of u state (db w') a <= q_of u state (db w') best)%Q).
Proof.
  intros Hloads Hlow Hexploit.
  set (self := Agent.mk u six_actions alpha gamma epsilon).
  set (w0 := {| db := db w; gen := snd (rng_random (gen w)) |}).
  destruct (exploit_first_argmax self state (fun _ q => q) w0)
    as (best & w' & before & after & Hrun & Hg & _ & Hsplit & Hlt & Hle); [discriminate |].
  exists best, w', before, after.
  split; [| split; [exact Hg | split; [exact Hsplit | split; [exact Hlt | exact Hle]]]].
  unfold choose_action.
  rewrite (bind_inr _ _ _ _ _ (loads_dict_object _ _ _ Hloads)).
  assert (Hr : random w = (inr (fst (rng_random (gen w))), w0)).
  { unfold random, w0. now destruct (rng_random (gen w)). }
  rewrite (bind_inr _ _ _ _ _ Hr). cbn [Agent.epsilon self]. rewrite Hexploit.
  assert (Hplain : high_pain_menstrual (dict_get d "cycle_phase" JNull)
                     (dict_get d "pain_level" (JInt 5)) w0 = (inr false, w0)).
  { unfold high_pain_menstrual.
    destruct (py_eq_str (dict_get d "cycle_phase" JNull) "menstrual") eqn:Ep;
      [| reflexivity].
    destruct Hlow as [Hlow | [Hlow | Hlow]]; [discriminate | |].
    - now rewrite Hlow.
    - now rewrite (missing_pain_level_is_low _ Hlow). }
  rewrite (bind_inr _ _ _ _ _ Hplain). exact Hrun.
Qed.

(** X4. A state text the decoder rejects makes [choose_action] raise
    JSONDecodeError, and one that decodes to something other than an
    object AttributeError, before any draw; a menstrual state whose pain
    level is not a number raises TypeError after one draw, on the explore
    and the exploit branch alike. In all three cases no table is touched. *)
Theorem choose_action_ill_formed_state (self : Agent.t) (state : string) (w : world) :
  (json_loads state = None -> choose_action self state w = (inl JSONDecodeError, w))
  /\ (forall v, json_loads state = Some v -> (forall d, v <> JObj d) ->
                choose_action self state w = (inl AttributeError, w))
  /\ (forall d, json_loads state = Some (JObj d) ->
                py_eq_str (dict_get d "cycle_phase" JNull) "menstrual" = true ->
                py_number (dict_get d "pain_level" (JInt 5)) = None ->
                choose_action self state w
                = (inl TypeError, {| db := db w; gen := snd (rng_random (gen w)) |})).
Proof.
  split; [| split].
  - intro H. unfold choose_action, loads_dict, bind, from_option. now rewrite H.
  - intros v H Hv. unfold choose_action, loads_dict, bind, from_option. rewrite H. simpl.
    destruct v; try reflexivity. exfalso. now apply (Hv members).
  - intros d Hloads Hphase Hpain. unfold choose_action.
    rewrite (bind_inr _ _ _ _ _ (loads_dict_object _ _ _ Hloads)).
    assert (Hr : random w = (inr (fst (rng_random (gen w))),
                             {| db := db w; gen := snd (rng_random (gen w)) |})).
    { unfold random. now destruct (rng_random (gen w)). }
    rewrite (bind_inr _ _ _ _ _ Hr).
    assert (Herr : forall w0, high_pain_menstrual (dict_get d "cycle_phase" JNull)
                                (dict_get d "pain_level" (JInt 5)) w0 = (inl TypeError, w0)).
    { intro w0. unfold high_pain_menstrual, py_ge. now rewrite Hphase, Hpain. }
    destruct (Qlt_bool _ _); now rewrite (bind_inl _ _ _ _ _ (Herr _)).
Qed.


(* ================================================================ *)
(** ** More on the Q-value table *)


(** X5. A read never fails and never overwrites: it returns the stored
    value and changes nothing when the triple has an entry, and otherwise
    appends exactly one row holding the value it returns; every entry that
    was there reads back the same and the other tables are untouched. *)
Theorem get_q_value_never_overwrites (self : Agent.t) (s a : string) (w : world) :
  exists (v : Q) (w' : world),
    get_q_value self s a w = (inr v, w')
    /\ lookup_q (Agent.user_id self) s a (db w') = Some v
    /\ q_grows (db w) (db w')
    /\ (forall v0, lookup_q (Agent.user_id self) s a (db w) = Some v0 -> v = v0 /\ w' = w)
    /\ (lookup_q (Agent.user_id self) s a (db w) = None ->
        q_tables (db w') = q_tables (db w) ++ [QTable.mk (Agent.user_id self) s a v]).
Proof.
  destruct (lookup_q (Agent.user_id self) s a (db w)) as [v0 |] eqn:E.
  - exists v0, w. split; [now apply get_q_value_hit |]. split; [exact E |].
    split; [apply q_grows_refl |]. split; [now intros v1 [= <-] | discriminate].
  - exists (fresh_q (gen w)), (after_first_read (Agent.user_id self) s a w).
    split; [now apply get_q_value_miss |]. split; [now apply lookup_q_add_same |].
    split; [apply q_grows_add |]. split; [discriminate | reflexivity].
Qed.







(* ================================================================ *)
(** ** More on the reward *)

(** X9. The reward is read off the feedback and the observations without
    writing anything, and for ratings on the scales of the request body
    (effectiveness 0..10, next-day energy and mood 1..10, observation
    energy and mood 1..10) it lies between -14 and 14. *)
Theorem reward_function_bounded (self : Environment.t) (fb : NotificationFeedback.t)
    (w : world) :
  (0 <= NotificationFeedback.effectiveness fb)%Q ->
  (NotificationFeedback.effectiveness fb <= 10)%Q ->
  (1 <= NotificationFeedback.next_day_energy fb <= 10)%Z ->
  (1 <= NotificationFeedback.next_day_mood fb <= 10)%Z ->
  (forall prev, latest_cycle_data (Environment.user_id self) (db w) = Some prev ->
                (1 <= CycleData.energy_level prev <= 10)%Z
                /\ (1 <= CycleData.mood_score prev <= 10)%Z) ->
  exists reward : Q,
    reward_function self fb w = (inr reward, w)
    /\ (-14 <= reward)%Q /\ (reward <= 14)%Q.
Proof.
  intros He0 He1 Hen Hmo Hprev. unfold reward_function.
  destruct (NotificationFeedback.action_taken fb =? 0)%Z.
  - eexists. split; [reflexivity |]. split; unfold Qle; simpl; lia.
  - unfold bind, query, ret.
    destruct (latest_cycle_data (Environment.user_id self) (db w)) as [p |] eqn:E.
    + destruct (Hprev p eq_refl) as [Hpe Hpm].
      eexists. split; [reflexivity |].
      set (k := (NotificationFeedback.next_day_energy fb - CycleData.energy_level p
                 + (NotificationFeedback.next_day_mood fb - CycleData.mood_score p))%Z).
      assert (Hk : (-18 <= k <= 18)%Z) by (unfold k; lia).
      assert (Hq : (-18 <= inject_Z k)%Q /\ (inject_Z k <= 18)%Q).
      { split; [change (-18)%Q with (inject_Z (-18)) | change 18%Q with (inject_Z 18)];
          rewrite <- Zle_Qle; lia. }
      destruct Hq as [Hq1 Hq2]. unfold Qdiv.
      change (/ inject_Z 2)%Q with (1 # 2)%Q. change (inject_Z 5) with 5%Q.
      split; lra.
    + eexists. split; [reflexivity |]. change (inject_Z 5) with 5%Q.
      change (inject_Z 0) with 0%Q. split; lra.
Qed.


(* ================================================================ *)
(** ** Observations: recording and reading back *)

Lemma latest_some (rows : list CycleData.t) (o : CycleData.t) :
  latest rows = Some o ->
  In o rows
  /\ forall r, In r rows ->
       (dt_instant (CycleData.timestamp r) <= dt_instant (CycleData.timestamp o))%Z.
Proof.
  revert o. induction rows as [| x rows IH]; simpl; [discriminate |].
  intros o. destruct (latest rows) as [o' |] eqn:E.
  - destruct (IH o' eq_refl) as [Hin Hmax].
    destruct (dt_instant (CycleData.timestamp x) <? dt_instant (CycleData.timestamp o'))%Z
      eqn:C; intros [= <-].
    + apply Z.ltb_lt in C. split; [now right |].
      intros r [<- | Hr]; [lia | now apply Hmax].
    + apply Z.ltb_ge in C. split; [now left |].
      intros r [<- | Hr]; [lia |]. specialize (Hmax r Hr). lia.
  - intros [= <-]. split; [now left |].
    destruct rows; [| simpl in E; destruct (latest rows); [destruct (_ <? _)%Z |];
                      discriminate].
    intros r [<- | []]. lia.
Qed.

Lemma latest_none (rows : list CycleData.t) : latest rows = None -> rows = [].
Proof.
  destruct rows as [| x rows]; [reflexivity |]. simpl.
  destruct (latest rows); [destruct (_ <? _)%Z |]; discriminate.
Qed.

Lemma latest_newest_last (rows : list CycleData.t) (x : CycleData.t) :
  (forall r, In r rows ->
     (dt_instant (CycleData.timestamp r) < dt_instant (CycleData.timestamp x))%Z) ->
  latest (rows ++ [x]) = Some x.
Proof.
  induction rows as [| r rows IH]; intro H; simpl; [reflexivity |].
  rewrite IH by (intros r' Hr'; apply H; now right).
  replace (_ <? _)%Z with true; [reflexivity |].
  symmetry. apply Z.ltb_lt. apply H. now left.
Qed.

(** X10. The state is encoded from the user's most recent observation: a
    row of that user whose timestamp no other row of the user exceeds;
    rows of other users play no part, and there is no state exactly when
    the user has no row. *)
Theorem get_current_state_most_recent (self : Environment.t) (now : datetime) (w : world) :
  (exists o,
      In o (cycle_data (db w))
      /\ CycleData.user_id o = Environment.user_id self
      /\ (forall r, In r (cycle_data (db w)) ->
                    CycleData.user_id r = Environment.user_id self ->
                    (dt_instant (CycleData.timestamp r)
                     <= dt_instant (CycleData.timestamp o))%Z)
      /\ get_current_state self now w
         = (inr (Some (state_key (CycleData.cycle_phase o) (CycleData.sleep_score o)
                         (CycleData.mood_score o) (CycleData.stress_level o)
                         (CycleData.pain_level o) (time_of_day (dt_hour now))
                         (CycleData.energy_level o))), w))
  \/ ((forall r, In r (cycle_data (db w)) ->
                 CycleData.user_id r <> Environment.user_id self)
      /\ get_current_state self now w = (inr None, w)).
Proof.
  destruct (latest_cycle_data (Environment.user_id self) (db w)) as [o |] eqn:E.
  - left. exists o. unfold latest_cycle_data in E.
    destruct (latest_some _ _ E) as [Hin Hmax].
    apply filter_In in Hin. destruct Hin as [Hin Hu]. apply String.eqb_eq in Hu.
    split; [exact Hin |]. split; [exact Hu |]. split.
    + intros r Hr Hru. apply Hmax. apply filter_In. split; [exact Hr |].
      now apply String.eqb_eq.
    + now apply get_current_state_found.
  - right. split; [| now apply get_current_state_missing].
    unfold latest_cycle_data in E. apply latest_none in E.
    intros r Hr Hu.
    assert (Hf : In r (filter (fun r0 => String.eqb (CycleData.user_id r0)
                                           (Environment.user_id self))
                         (cycle_data (db w)))).
    { apply filter_In. split; [exact Hr | now apply String.eqb_eq]. }
    rewrite E in Hf. exact Hf.
Qed.

Lemma add_cycle_data_run (data : CycleDataInput.t) (now : datetime) (w : world) :
  forallb sqlite_integer (CycleDataInput.integers data) = true ->
  add_cycle_data data now w
  = (inr (CycleData.mk (CycleDataInput.user_id data) now
            (CycleDataInput.cycle_phase data) (CycleDataInput.sleep_score data)
            (CycleDataInput.mood_score data) (CycleDataInput.stress_level data)
            (CycleDataInput.pain_level data) (CycleDataInput.energy_level data)),
     {| db := with_cycle_data (db w)
                (cycle_data (db w)
                   ++ [CycleData.mk (CycleDataInput.user_id data) now
                         (CycleDataInput.cycle_phase data) (CycleDataInput.sleep_score data)
                         (CycleDataInput.mood_score data) (CycleDataInput.stress_level data)
                         (CycleDataInput.pain_level data)
                         (CycleDataInput.energy_level data)]);
        gen := gen w |}).
Proof. intro H. unfold add_cycle_data, bind_integers. rewrite H. reflexivity. Qed.

Lemma add_cycle_data_overflow (data : CycleDataInput.t) (now : datetime) (w : world) :
  forallb sqlite_integer (CycleDataInput.integers data) = false ->
  add_cycle_data data now w = (inl OverflowError, w).
Proof. intro H. unfold add_cycle_data, bind_integers. rewrite H. reflexivity. Qed.

(** X11. An observation recorded at a clock reading later than every stored
    observation of the user becomes the user's state, provided its five
    scores are integers the store can hold (signed 64-bit): the next query
    returns the key of the submitted phase and scores, in the time-of-day
    bucket of the query.  With a score outside that range the request
    raises OverflowError and stores nothing. *)
Theorem add_cycle_data_then_current_state (data : CycleDataInput.t)
    (now later : datetime) (w : world) :
  (forall r, In r (cycle_data (db w)) ->
             CycleData.user_id r = CycleDataInput.user_id data ->
             (dt_instant (CycleData.timestamp r) < dt_instant now)%Z) ->
  if forallb sqlite_integer (CycleDataInput.integers data)
  then get_current_state (Environment.init (CycleDataInput.user_id data)) later
         (snd (add_cycle_data data now w))
       = (inr (Some (state_key (CycleDataInput.cycle_phase data)
                       (CycleDataInput.sleep_score data) (CycleDataInput.mood_score data)
                       (CycleDataInput.stress_level data) (CycleDataInput.pain_level data)
                       (time_of_day (dt_hour later)) (CycleDataInput.energy_level data))),
          snd (add_cycle_data data now w))
  else add_cycle_data data now w = (inl OverflowError, w).
Proof.
  intro Hnew.
  destruct (forallb sqlite_integer (CycleDataInput.integers data)) eqn:Hints;
    [| exact (add_cycle_data_overflow data now w Hints)].
  rewrite (add_cycle_data_run data now w Hints). cbn [snd].
  set (x := CycleData.mk (CycleDataInput.user_id data) now
              (CycleDataInput.cycle_phase data) (CycleDataInput.sleep_score data)
              (CycleDataInput.mood_score data) (CycleDataInput.stress_level data)
              (CycleDataInput.pain_level data) (CycleDataInput.energy_level data)).
  apply (get_current_state_found (Environment.init (CycleDataInput.user_id data)) later _ x).
  unfold latest_cycle_data. cbn [db cycle_data with_cycle_data Environment.user_id
                                  Environment.init].
  rewrite filter_app. cbn [filter]. unfold x at 1. cbn [CycleData.user_id].
  rewrite String.eqb_refl.
  apply latest_newest_last.
  intros r Hr. apply filter_In in Hr. destruct Hr as [Hr Hu]. apply String.eqb_eq in Hu.
  unfold x. cbn [CycleData.timestamp]. now apply Hnew.
Qed.

(** X12. Recording an observation for one user changes nothing for the
    others: their latest observation, hence their state, is the same, and
    the Q-values, the history and the notifications are untouched. *)
Theorem add_cycle_data_frame (data : CycleDataInput.t) (now : datetime) (w : world)
    (other : string) :
  other <> CycleDataInput.user_id data ->
  latest_cycle_data other (db (snd (add_cycle_data data now w)))
  = latest_cycle_data other (db w)
  /\ (forall later,
        fst (get_current_state (Environment.init other) later
               (snd (add_cycle_data data now w)))
        = fst (get_current_state (Environment.init other) later w))
  /\ q_tables (db (snd (add_cycle_data data now w))) = q_tables (db w)
  /\ q_table_history (db (snd (add_cycle_data data now w))) = q_table_history (db w)
  /\ notifications (db (snd (add_cycle_data data now w))) = notifications (db w).
Proof.
  intro Hother.
  destruct (forallb sqlite_integer (CycleDataInput.integers data)) eqn:Hints.
  2:{ rewrite (add_cycle_data_overflow data now w Hints). cbn [snd].
      repeat split; reflexivity. }
  rewrite (add_cycle_data_run data now w Hints). cbn [snd].
  assert (Hlatest : latest_cycle_data other
                      (with_cycle_data (db w)
                         (cycle_data (db w)
                            ++ [CycleData.mk (CycleDataInput.user_id data) now
                                  (CycleDataInput.cycle_phase data)
                                  (CycleDataInput.sleep_score data)
                                  (CycleDataInput.mood_score data)
                                  (CycleDataInput.stress_level data)
                                  (CycleDataInput.pain_level data)
                                  (CycleDataInput.energy_level data)]))
                    = latest_cycle_data other (db w)).
  { unfold latest_cycle_data. cbn [cycle_data with_cycle_data].
    rewrite filter_app. cbn [filter CycleData.user_id].
    replace (String.eqb (CycleDataInput.user_id data) other) with false.
    - now rewrite app_nil_r.
    - symmetry. apply String.eqb_neq. congruence. }
  split; [exact Hlatest |]. split; [| repeat split].
  intro later. unfold get_current_state, bind, query.
  cbn [db Environment.user_id Environment.init]. rewrite Hlatest.
  now destruct (latest_cycle_data other (db w)).
Qed.


(* ================================================================ *)
(** ** Proposing an action: [generate_user_notification] *)

Lemma next_id_above (rows : list Notification.t) (n : Notification.t) :
  In n rows -> (Notification.id n < next_id rows)%Z.
Proof.
  unfold next_id. induction rows as [| x rows IH]; cbn [fold_right In]; [intros [] |].
  intros [<- | Hn]; [lia |]. specialize (IH Hn). lia.
Qed.

Lemma first_notification_new (d : database) (n : Notification.t) :
  Notification.id n = next_id (notifications d) ->
  first_notification (Notification.id n)
    (with_notifications d (notifications d ++ [n])) = Some n.
Proof.
  intro Hid. unfold first_notification. cbn [notifications with_notifications].
  rewrite find_snoc.
  destruct (find _ (notifications d)) as [y |] eqn:E.
  - apply find_some in E. destruct E as [Hy Heq]. apply Z.eqb_eq in Heq.
    pose proof (next_id_above _ _ Hy). lia.
  - now rewrite Z.eqb_refl.
Qed.

Lemma random_choice_succeeds {A : Type} (seq : list A) (w : world) :
  (forall n g, (fst (rng_randbelow (S n) g) < S n)%nat) ->
  seq <> [] ->
  exists x w', random_choice seq w = (inr x, w') /\ db w' = db w /\ In x seq.
Proof.
  intros Hrange Hne. unfold random_choice. destruct seq as [| y seq]; [congruence |].
  pose proof (Hrange (List.length seq) (gen w)) as Hi.
  change (S (List.length seq)) with (List.length (y :: seq)) in Hi.
  destruct (rng_randbelow (List.length (y :: seq)) (gen w)) as [i g]. simpl fst in Hi.
  destruct (nth_error (y :: seq) i) as [x |] eqn:E.
  - exists x, {| db := db w; gen := g |}. split; [reflexivity |]. split; [reflexivity |].
    eapply nth_error_In. exact E.
  - apply nth_error_None in E. lia.
Qed.

Lemma high_pain_menstrual_typed (phase : string) (pain : Z) (w : world) :
  exists b, high_pain_menstrual (JStr phase) (JInt pain) w = (inr b, w).
Proof.
  unfold high_pain_menstrual, py_ge. simpl.
  destruct (String.eqb phase "menstrual"); eexists; reflexivity.
Qed.

(** On a state that decodes to a string phase and an integer pain level,
    with index draws in range, [choose_action] returns an action. *)
Lemma choose_action_succeeds (self : Agent.t) (state : string)
    (phase : string) (sleep mood stress pain : Z) (bucket : string) (energy : Z)
    (w : world) :
  (forall n g, (fst (rng_randbelow (S n) g) < S n)%nat) ->
  Agent.actions self <> [] ->
  json_loads state = Some (JObj (state_dict phase sleep mood stress pain bucket energy)) ->
  exists a w', choose_action self state w = (inr a, w').
Proof.
  intros Hrange Hne Hloads. unfold choose_action.
  rewrite (bind_inr _ _ _ _ _ (loads_dict_object _ _ _ Hloads)).
  set (w0 := {| db := db w; gen := snd (rng_random (gen w)) |}).
  assert (Hr : random w = (inr (fst (rng_random (gen w))), w0)).
  { unfold random, w0. now destruct (rng_random (gen w)). }
  rewrite (bind_inr _ _ _ _ _ Hr).
  change (dict_get (state_dict phase sleep mood stress pain bucket energy)
            "cycle_phase" JNull) with (JStr phase).
  change (dict_get (state_dict phase sleep mood stress pain bucket energy)
            "pain_level" (JInt 5)) with (JInt pain).
  destruct (high_pain_menstrual_typed phase pain w0) as (b & Hb).
  destruct (Qlt_bool (fst (rng_random (gen w))) (Agent.epsilon self)).
  - rewrite (bind_inr _ _ _ _ _ Hb). destruct b.
    + set (w1 := {| db := db w0; gen := snd (rng_random (gen w0)) |}).
      assert (Hr' : random w0 = (inr (fst (rng_random (gen w0))), w1)).
      { unfold random, w1. now destruct (rng_random (gen w0)). }
      rewrite (bind_inr _ _ _ _ _ Hr').
      destruct (Qlt_bool _ float_0_6).
      * destruct (random_choice_succeeds pain_management_actions w1 Hrange)
          as (x & w' & Hx & _); [discriminate | eauto].
      * destruct (random_choice_succeeds (Agent.actions self) w1 Hrange Hne)
          as (x & w' & Hx & _). eauto.
    + destruct (random_choice_succeeds (Agent.actions self) w0 Hrange Hne)
        as (x & w' & Hx & _). eauto.
  - rewrite (bind_inr _ _ _ _ _ Hb). destruct b.
    + destruct (exploit_first_argmax self state
                  (fun action q => if is_pain_management action
                                   then float_add q (5 # 10) else q) w0 Hne)
        as (best & w' & _ & _ & Hrun & _). eauto.
    + destruct (exploit_first_argmax self state (fun _ q => q) w0 Hne)
        as (best & w' & _ & _ & Hrun & _). eauto.
Qed.

Lemma phase_get_string (table : list (string * string)) (default phase : string)
    (w : world) :
  exists s, phase_get table default (JStr phase) w = (inr s, w).
Proof. simpl. eexists. reflexivity. Qed.

(** On such a state the message generator returns a message and writes
    nothing. *)
Lemma generate_notification_succeeds (action state : string)
    (phase : string) (sleep mood stress pain : Z) (bucket : string) (energy : Z)
    (w : world) :
  (forall n g, (fst (rng_randbelow (S n) g) < S n)%nat) ->
  json_loads state = Some (JObj (state_dict phase sleep mood stress pain bucket energy)) ->
  exists message w', generate_notification action state w = (inr message, w')
                     /\ db w' = db w.
Proof.
  intros Hrange Hloads. unfold generate_notification.
  rewrite (bind_inr _ _ _ _ _ (loads_dict_object _ _ _ Hloads)).
  change (dict_get (state_dict phase sleep mood stress pain bucket energy)
            "cycle_phase" (JStr EmptyString)) with (JStr phase).
  change (dict_get (state_dict phase sleep mood stress pain bucket energy)
            "pain_level" (JInt 5)) with (JInt pain).
  change (dict_get (state_dict phase sleep mood stress pain bucket energy)
            "energy_level" (JInt 5)) with (JInt energy).
  cbv zeta.
  destruct (phase_get_string
              [("menstrual", "hip-opening and gentle yoga");
               ("follicular", "dynamic stretches and flow movements");
               ("ovulation", "energetic and full-range stretches");
               ("luteal", "calming and restorative stretches")]
              "comfortable stretches" phase w) as (s1 & H1).
  change (get_stretch_type (JStr phase) w = (inr s1, w)) in H1.
  rewrite (bind_inr _ _ _ _ _ H1).
  destruct (phase_get_string
              [("menstrual", "iron-rich foods and dark chocolate");
               ("follicular", "light, nutrient-dense foods");
               ("ovulation", "fresh fruits and vegetables");
               ("luteal", "complex carbs and protein-rich foods")]
              "balanced, nutritious foods" phase w) as (s2 & H2).
  change (get_snack_suggestion (JStr phase) w = (inr s2, w)) in H2.
  rewrite (bind_inr _ _ _ _ _ H2).
  destruct (phase_get_string
              [("menstrual", "gentle walking or stretching");
               ("follicular", "moderate cardio or strength training");
               ("ovulation", "high-intensity activities or dance");
               ("luteal", "yoga or light cardio")]
              "movement that feels good" phase w) as (s3 & H3).
  change (get_movement_type (JStr phase) w = (inr s3, w)) in H3.
  rewrite (bind_inr _ _ _ _ _ H3).
  match goal with
  | |- context [random_choice ?l] =>
      destruct (random_choice_succeeds l w Hrange) as (msg & w' & Hmsg & Hdb & _)
  end.
  { destruct (assoc_get action _) as [l |] eqn:E; [| discriminate].
    simpl in E.
    repeat match type of E with
           | (if ?c then _ else _) = _ => destruct c; [injection E as <-; discriminate |]
           end.
    discriminate. }
  rewrite (bind_inr _ _ _ _ _ Hmsg).
  unfold py_ge, py_le. simpl option_map. simpl from_option.
  unfold bind, ret. eexists _, w'. split; [reflexivity | exact Hdb].
Qed.


Lemma state_key_nonempty (phase : string) (sleep mood stress pain : Z) (bucket : string)
    (energy : Z) :
  exists rest, state_key phase sleep mood stress pain bucket energy = String "{"%char rest.
Proof. eexists. reflexivity. Qed.

(** The run of a successful notification request. *)
Lemma generate_user_notification_run (user_id : string) (now : datetime) (w : world)
    (o : CycleData.t) :
  let key := state_key (CycleData.cycle_phase o) (CycleData.sleep_score o)
               (CycleData.mood_score o) (CycleData.stress_level o)
               (CycleData.pain_level o) (time_of_day (dt_hour now))
               (CycleData.energy_level o) in
  (forall n g, (fst (rng_randbelow (S n) g) < S n)%nat) ->
  latest_cycle_data user_id (db w) = Some o ->
  json_loads key
  = Some (JObj (state_dict (CycleData.cycle_phase o) (CycleData.sleep_score o)
                  (CycleData.mood_score o) (CycleData.stress_level o)
                  (CycleData.pain_level o) (time_of_day (dt_hour now))
                  (CycleData.energy_level o))) ->
  exists (action message : string) (d1 : database) (g : rng),
    In action six_actions
    /\ q_grows (db w) d1
    /\ generate_user_notification user_id now w
       = (inr (NotificationResponse.mk (next_id (notifications (db w)))
                 user_id message action),
          {| db := with_notifications d1
                     (notifications d1
                        ++ [Notification.mk (next_id (notifications (db w))) user_id message
                              now action key 0 0]);
             gen := g |}).
Proof.
  intros key Hrange Hlatest Hloads.
  set (env := Environment.init user_id).
  set (agent := Agent.init user_id (Environment.actions env)).
  pose proof (get_current_state_found env now w o Hlatest) as Hstate. fold key in Hstate.
  destruct (choose_action_succeeds agent key _ _ _ _ _ _ _ w Hrange
              ltac:(discriminate) Hloads) as (action & w1 & Hact).
  assert (Hmem : In action six_actions)
    by exact (choose_action_member _ _ _ _ _ _ _ _ Hact).
  pose proof (grows_choose_action agent key w _ _ Hact) as Hgrow.
  destruct (generate_notification_succeeds action key _ _ _ _ _ _ _ w1 Hrange Hloads)
    as (message & w2 & Hmsg & Hdb).
  exists action, message, (db w1), (gen w2).
  split; [exact Hmem |]. split; [exact Hgrow |].
  unfold generate_user_notification. fold env. fold agent.
  rewrite (bind_inr _ _ _ _ _ Hstate).
  destruct (state_key_nonempty (CycleData.cycle_phase o) (CycleData.sleep_score o)
              (CycleData.mood_score o) (CycleData.stress_level o)
              (CycleData.pain_level o) (time_of_day (dt_hour now))
              (CycleData.energy_level o)) as (rest & Hkey).
  fold key in Hkey. rewrite Hkey in *.
  rewrite (bind_inr _ _ _ _ _ Hact), (bind_inr _ _ _ _ _ Hmsg).
  unfold bind, db_add_notification, ret. rewrite Hdb.
  destruct Hgrow as (_ & _ & Hn & _). now rewrite Hn.
Qed.

(** X13. For a user with an observation whose key the decoder reads back,
    and index draws in range, a notification request succeeds: it returns
    one of the six actions and stores exactly one new notification, under
    an id above every stored id, carrying the user, the action, the
    message and the State Key of the request, with no feedback yet; it is
    the notification found under the returned id. Observations and
    history are untouched and no stored Q-value changes. *)
Theorem generate_user_notification_success (user_id : string) (now : datetime) (w : world)
    (o : CycleData.t) :
  (forall n g, (fst (rng_randbelow (S n) g) < S n)%nat) ->
  latest_cycle_data user_id (db w) = Some o ->
  json_loads (state_key (CycleData.cycle_phase o) (CycleData.sleep_score o)
                (CycleData.mood_score o) (CycleData.stress_level o)
                (CycleData.pain_level o) (time_of_day (dt_hour now))
                (CycleData.energy_level o))
  = Some (JObj (state_dict (CycleData.cycle_phase o) (CycleData.sleep_score o)
                  (CycleData.mood_score o) (CycleData.stress_level o)
                  (CycleData.pain_level o) (time_of_day (dt_hour now))
                  (CycleData.energy_level o))) ->
  exists (resp : NotificationResponse.t) (w' : world) (n : Notification.t),
    generate_user_notification user_id now w = (inr resp, w')
    /\ In (NotificationResponse.action resp) six_actions
    /\ NotificationResponse.user_id resp = user_id
    /\ n = Notification.mk (NotificationResponse.notification_id resp) user_id
             (NotificationResponse.message resp) now (NotificationResponse.action resp)
             (state_key (CycleData.cycle_phase o) (CycleData.sleep_score o)
                (CycleData.mood_score o) (CycleData.stress_level o)
                (CycleData.pain_level o) (time_of_day (dt_hour now))
                (CycleData.energy_level o)) 0 0
    /\ notifications (db w') = notifications (db w) ++ [n]
    /\ (forall n0, In n0 (notifications (db w)) ->
                   (Notification.id n0 < NotificationResponse.notification_id resp)%Z)
    /\ first_notification (NotificationResponse.notification_id resp) (db w') = Some n
    /\ cycle_data (db w') = cycle_data (db w)
    /\ q_table_history (db w') = q_table_history (db w)
    /\ (forall u s a v, lookup_q u s a (db w) = Some v -> lookup_q u s a (db w') = Some v).
Proof.
  intros Hrange Hlatest Hloads.
  destruct (generate_user_notification_run user_id now w o Hrange Hlatest Hloads)
    as (action & message & d1 & g & Hmem & (Hcd & Hh & Hn & Hq) & Hrun).
  eexists _, _, _. split; [exact Hrun |].
  cbn [NotificationResponse.action NotificationResponse.user_id
       NotificationResponse.notification_id NotificationResponse.message db
       notifications with_notifications cycle_data q_table_history].
  split; [exact Hmem |]. split; [reflexivity |]. split; [reflexivity |].
  split; [now rewrite Hn |]. split; [intros n0; apply next_id_above |].
  split; [| split; [exact Hcd | split; [exact Hh | exact Hq]]].
  rewrite <- Hn.
  apply (first_notification_new d1
           (Notification.mk (next_id (notifications d1)) user_id message now action _ 0 0)).
  reflexivity.
Qed.


Lemma keeps_generate_notification (action state_str : string) :
  keeps_db (generate_notification action state_str).
Proof.
  unfold generate_notification.
  apply keeps_bind; [apply keeps_loads_dict |]. intro d. cbv zeta.
  apply keeps_bind; [apply keeps_phase_get |]. intro s1.
  apply keeps_bind; [apply keeps_phase_get |]. intro s2.
  apply keeps_bind; [apply keeps_phase_get |]. intro s3.
  apply keeps_bind; [apply keeps_random_choice |]. intro msg.
  apply keeps_bind; [apply keeps_from_option |]. intro b1.
  apply keeps_bind; [apply keeps_from_option |]. intro b2.
  apply keeps_ret.
Qed.

(** X14. Composing a message never writes to the store: whatever the action
    and the state text, and whether a message or an exception comes out,
    the four tables are the same afterwards. *)
Theorem generate_notification_never_writes (action state_str : string) (w : world) :
  db (snd (generate_notification action state_str w)) = db w.
Proof. apply keeps_snd, keeps_generate_notification. Qed.

(** Whatever a notification request returns or raises, the notifications
    are as before or have one more row, under a fresh id. *)
Lemma generate_user_notification_notifications (user_id : string) (now : datetime)
    (w w' : world) (r : exn + NotificationResponse.t) :
  generate_user_notification user_id now w = (r, w') ->
  notifications (db w') = notifications (db w)
  \/ exists n, notifications (db w') = notifications (db w) ++ [n]
               /\ Notification.id n = next_id (notifications (db w)).
Proof.
  unfold generate_user_notification. intro H.
  apply bind_run in H. destruct H as [(e & H & _) | (st & w1 & Hst & H)].
  { left. destruct (get_current_state_total (Environment.init user_id) now w) as (o & Ho).
    rewrite Ho in H. discriminate. }
  destruct (get_current_state_total (Environment.init user_id) now w) as (o & Ho).
  rewrite Ho in Hst. injection Hst as <- <-.
  assert (Hraise : forall e : exn,
             @raise NotificationResponse.t e w = (r, w') ->
             notifications (db w') = notifications (db w))
    by (intros e [= _ <-]; reflexivity).
  destruct o as [[| c key] |]; [left; eapply Hraise; exact H | | left; eapply Hraise; exact H].
  apply bind_run in H. destruct H as [(e & H & _) | (action & w1 & Hact & H)].
  { left. destruct (grows_choose_action _ _ _ _ _ H) as (_ & _ & Hn & _). exact Hn. }
  destruct (grows_choose_action _ _ _ _ _ Hact) as (_ & _ & Hn1 & _).
  apply bind_run in H. destruct H as [(e & H & _) | (message & w2 & Hmsg & H)].
  { left. rewrite (keeps_generate_notification _ _ _ _ _ H). exact Hn1. }
  pose proof (keeps_generate_notification _ _ _ _ _ Hmsg) as Hdb2.
  unfold bind, db_add_notification, ret in H. injection H as _ <-.
  right. cbn [db notifications with_notifications]. rewrite Hdb2, Hn1.
  eexists. split; reflexivity.
Qed.

Lemma find_assign_feedback_other (nid other a : Z) (e : Q) (rows : list Notification.t) :
  other <> nid ->
  find (fun n => Z.eqb (Notification.id n) other) (assign_feedback nid a e rows)
  = find (fun n => Z.eqb (Notification.id n) other) rows.
Proof.
  intro Hne. induction rows as [| x rows IH]; simpl; [reflexivity |].
  destruct (Notification.id x =? nid)%Z eqn:E; simpl.
  - apply Z.eqb_eq in E.
    replace (Notification.id x =? other)%Z with false; [reflexivity |].
    symmetry. apply Z.eqb_neq. lia.
  - destruct (Notification.id x =? other)%Z; [reflexivity | exact IH].
Qed.

(** X15. A feedback submission for a stored notification whose integers
    are signed 64-bit numbers touches one notification and one Q-value:
    the notifications are the stored ones with the two feedback fields of
    the addressed row overwritten, every other id finds the same row as
    before, the observations are the same, and every Q-value stored for
    another (user, state, action) triple reads back unchanged. *)
Theorem process_notification_feedback_frame (fb : NotificationFeedback.t) (now : datetime)
    (w : world) (n : Notification.t) :
  forallb sqlite_integer (NotificationFeedback.integers fb) = true ->
  first_notification (NotificationFeedback.notification_id fb) (db w) = Some n ->
  notifications (db (snd (process_notification_feedback fb now w)))
  = assign_feedback (NotificationFeedback.notification_id fb)
      (NotificationFeedback.action_taken fb) (NotificationFeedback.effectiveness fb)
      (notifications (db w))
  /\ (forall other, other <> NotificationFeedback.notification_id fb ->
        first_notification other (db (snd (process_notification_feedback fb now w)))
        = first_notification other (db w))
  /\ cycle_data (db (snd (process_notification_feedback fb now w))) = cycle_data (db w)
  /\ (forall u s a v,
        (u, s, a) <> (Notification.user_id n, Notification.state n, Notification.action n) ->
        lookup_q u s a (db w) = Some v ->
        lookup_q u s a (db (snd (process_notification_feedback fb now w))) = Some v).
Proof.
  intros Hints Hfind.
  destruct (process_notification_feedback_run fb now w n Hints Hfind)
    as (reward & cur & m & d1 & g & _ & (Hcd & Hh & Hn & Hq) & _ & _ & _ & Hrun).
  rewrite Hrun. cbn [snd db]. unfold updated.
  cbn [notifications cycle_data with_history with_q_tables with_notifications] in *.
  split; [exact Hn |]. split; [| split; [exact Hcd |]].
  - intros other Hother. unfold first_notification.
    cbn [notifications with_history with_q_tables]. rewrite Hn.
    now apply find_assign_feedback_other.
  - intros u s a v Hne Hv. rewrite lookup_q_with_history.
    rewrite lookup_q_assign_other by exact Hne.
    apply Hq. exact Hv.
Qed.

(** X16. Notification ids stay distinct: if no two stored notifications
    share an id, the same holds after a notification request and after a
    feedback submission, whatever either returns or raises. *)
Theorem notification_ids_stay_distinct (user_id : string) (fb : NotificationFeedback.t)
    (now : datetime) (w : world) :
  NoDup (map Notification.id (notifications (db w))) ->
  NoDup (map Notification.id
           (notifications (db (snd (generate_user_notification user_id now w)))))
  /\ NoDup (map Notification.id
              (notifications (db (snd (process_notification_feedback fb now w))))).
Proof.
  intro Hnodup. split.
  - destruct (generate_user_notification user_id now w) as [r w'] eqn:E.
    destruct (generate_user_notification_notifications _ _ _ _ _ E)
      as [Hsame | (n & Happ & Hid)]; cbn [snd].
    + now rewrite Hsame.
    + rewrite Happ, map_app. cbn [map]. apply NoDup_app.
      * exact Hnodup.
      * constructor; [intros [] | constructor].
      * intros i Hi [<- | []]. apply in_map_iff in Hi.
        destruct Hi as (n0 & Hn0 & Hin). pose proof (next_id_above _ _ Hin). lia.
  - now rewrite process_notification_feedback_ids.
Qed.



(* ================================================================ *)
(** ** Analytics *)

Lemma assoc_get_snoc {V : Type} (k k' : string) (v : V) (d : list (string * V)) :
  assoc_get k (d ++ [(k', v)])
  = match assoc_get k d with
    | Some x => Some x
    | None => if String.eqb k' k then Some v else None
    end.
Proof.
  induction d as [| [k0 v0] d IH]; simpl; [reflexivity |].
  destruct (String.eqb k0 k); [reflexivity | exact IH].
Qed.

Lemma assoc_get_update_same {V : Type} (k : string) (f : V -> V) (d : list (string * V)) :
  assoc_get k (assoc_update k f d) = option_map f (assoc_get k d).
Proof.
  induction d as [| [k0 v0] d IH]; simpl; [reflexivity |].
  destruct (String.eqb k0 k) eqn:E; simpl; rewrite E; [reflexivity | exact IH].
Qed.

Lemma assoc_get_update_other {V : Type} (k k' : string) (f : V -> V)
    (d : list (string * V)) :
  String.eqb k k' = false ->
  assoc_get k' (assoc_update k f d) = assoc_get k' d.
Proof.
  intro Hne. induction d as [| [k0 v0] d IH]; simpl; [reflexivity |].
  destruct (String.eqb k0 k) eqn:E; simpl.
  - apply String.eqb_eq in E. subst k0. now rewrite Hne.
  - destruct (String.eqb k0 k'); [reflexivity | exact IH].
Qed.

Lemma map_fst_assoc_update {V : Type} (k : string) (f : V -> V) (d : list (string * V)) :
  map fst (assoc_update k f d) = map fst d.
Proof.
  induction d as [| [k0 v0] d IH]; simpl; [reflexivity |].
  destruct (String.eqb k0 k); simpl; [reflexivity | now rewrite IH].
Qed.

Lemma assoc_get_none {V : Type} (k : string) (d : list (string * V)) :
  assoc_get k d = None <-> ~ In k (map fst d).
Proof.
  induction d as [| [k0 v0] d IH]; simpl.
  - split; [intros _ [] | reflexivity].
  - destruct (String.eqb k0 k) eqn:E.
    + apply String.eqb_eq in E.
      split; [discriminate | intro H; exfalso; apply H; now left].
    + apply String.eqb_neq in E. rewrite IH. split.
      * intros H [H1 | H1]; [now apply E | now apply H].
      * intros H H1. apply H. now right.
Qed.

Lemma assoc_get_in {V : Type} (k : string) (v : V) (d : list (string * V)) :
  NoDup (map fst d) -> In (k, v) d -> assoc_get k d = Some v.
Proof.
  induction d as [| [k0 v0] d IH]; simpl; [intros _ [] |].
  intros Hnd [[= -> ->] | Hin].
  - now rewrite String.eqb_refl.
  - inversion Hnd as [| ? ? Hnotin Hnd']; subst.
    destruct (String.eqb k0 k) eqn:E; [| now apply IH].
    apply String.eqb_eq in E. subst k0. exfalso. apply Hnotin.
    apply in_map_iff. now exists (k, v).
Qed.

Lemma assoc_get_some_in {V : Type} (k : string) (v : V) (d : list (string * V)) :
  assoc_get k d = Some v -> In (k, v) d.
Proof.
  induction d as [| [k0 v0] d IH]; simpl; [discriminate |].
  destruct (String.eqb k0 k) eqn:E.
  - apply String.eqb_eq in E. intros [= ->]. left. now subst.
  - intro H. right. now apply IH.
Qed.

Lemma tally_step_get (d : list (string * (Q * Z))) (e : QTableHistory.t) (a : string) :
  assoc_get a (tally_step d e)
  = if String.eqb (QTableHistory.action e) a
    then Some (add_if a (match assoc_get a d with Some tc => tc | None => (0%Q, 0%Z) end) e)
    else assoc_get a d.
Proof.
  unfold tally_step, add_if. destruct (String.eqb (QTableHistory.action e) a) eqn:E.
  - apply String.eqb_eq in E. subst a. rewrite assoc_get_update_same.
    destruct (assoc_get (QTableHistory.action e) d) as [tc |] eqn:G.
    + now rewrite G.
    + rewrite assoc_get_snoc, G, String.eqb_refl. reflexivity.
  - rewrite assoc_get_update_other by exact E.
    destruct (assoc_get (QTableHistory.action e) d); [reflexivity |].
    rewrite assoc_get_snoc. rewrite E. now destruct (assoc_get a d).
Qed.

Lemma tally_get (h : list QTableHistory.t) :
  forall (d : list (string * (Q * Z))) (a : string),
    assoc_get a (fold_left tally_step h d)
    = match assoc_get a d with
      | Some tc => Some (fold_left (add_if a) h tc)
      | None =>
          if existsb (fun e => String.eqb (QTableHistory.action e) a) h
          then Some (fold_left (add_if a) h (0%Q, 0%Z))
          else None
      end.
Proof.
  induction h as [| e h IH]; intros d a; cbn [fold_left existsb].
  - now destruct (assoc_get a d).
  - rewrite IH, tally_step_get.
    destruct (String.eqb (QTableHistory.action e) a) eqn:E; cbn [orb].
    + now destruct (assoc_get a d).
    + assert (Hsame : forall tc, add_if a tc e = tc)
        by (intro tc; unfold add_if; now rewrite E).
      destruct (assoc_get a d); now rewrite Hsame.
Qed.

Lemma fold_add_if_count (a : string) (h : list QTableHistory.t) :
  forall tc, snd (fold_left (add_if a) h tc)
             = (snd tc + Z.of_nat (List.length (rewards_of a h)))%Z.
Proof.
  unfold rewards_of. induction h as [| e h IH]; intro tc; simpl; [lia |].
  rewrite IH. unfold add_if.
  destruct (String.eqb (QTableHistory.action e) a); simpl; lia.
Qed.

Lemma fold_add_if_total (a : string) (h : list QTableHistory.t) :
  forall tc, (fst (fold_left (add_if a) h tc) == fst tc + Qsum (rewards_of a h))%Q.
Proof.
  unfold rewards_of. induction h as [| e h IH]; intro tc; simpl; [ring |].
  rewrite IH. unfold add_if.
  destruct (String.eqb (QTableHistory.action e) a); simpl; ring.
Qed.

Lemma existsb_rewards (a : string) (h : list QTableHistory.t) :
  existsb (fun e => String.eqb (QTableHistory.action e) a) h = false ->
  rewards_of a h = [].
Proof.
  unfold rewards_of. induction h as [| e h IH]; simpl; [reflexivity |].
  destruct (String.eqb (QTableHistory.action e) a); simpl; [discriminate | exact IH].
Qed.

Lemma rewards_existsb (a : string) (h : list QTableHistory.t) :
  existsb (fun e => String.eqb (QTableHistory.action e) a) h = true ->
  rewards_of a h <> [].
Proof.
  unfold rewards_of. induction h as [| e h IH]; simpl; [discriminate |].
  destruct (String.eqb (QTableHistory.action e) a); simpl; [discriminate | exact IH].
Qed.

Lemma assoc_get_map {V W : Type} (f : V -> W) (k : string) (d : list (string * V)) :
  assoc_get k (map (fun kv => (fst kv, f (snd kv))) d) = option_map f (assoc_get k d).
Proof.
  induction d as [| [k0 v0] d IH]; simpl; [reflexivity |].
  destruct (String.eqb k0 k); [reflexivity | exact IH].
Qed.

(** X18. The statistics of the analytics endpoint are those of the user's
    History Records: an action has an entry exactly when the user has a
    record for it, and then its count is the number of those records, its
    total the sum of their rewards and its average the total divided by
    the count. *)
Theorem user_analytics_statistics (user_id : string) (d : database) (a : string) :
  match assoc_get a (Analytics.action_effectiveness (user_analytics user_id d)) with
  | Some st =>
      rewards_of a (history_of user_id d) <> []
      /\ ActionStats.count st
         = Z.of_nat (List.length (rewards_of a (history_of user_id d)))
      /\ (ActionStats.total_reward st == Qsum (rewards_of a (history_of user_id d)))%Q
      /\ (ActionStats.average st
          == Qsum (rewards_of a (history_of user_id d))
             / inject_Z (Z.of_nat (List.length (rewards_of a (history_of user_id d)))))%Q
  | None => rewards_of a (history_of user_id d) = []
  end.
Proof.
  unfold user_analytics. cbn [Analytics.action_effectiveness].
  rewrite assoc_get_map. unfold tally. rewrite tally_get. cbn [assoc_get].
  set (h := history_of user_id d).
  destruct (existsb (fun e => String.eqb (QTableHistory.action e) a) h) eqn:E;
    cbn [option_map]; [| now apply existsb_rewards].
  pose proof (rewards_existsb _ _ E) as Hne.
  pose proof (fold_add_if_count a h (0%Q, 0%Z)) as Hc.
  pose proof (fold_add_if_total a h (0%Q, 0%Z)) as Ht.
  cbn [fst snd] in Hc, Ht. rewrite Z.add_0_l in Hc.
  unfold with_average. cbn [ActionStats.count ActionStats.total_reward ActionStats.average].
  split; [exact Hne |]. split; [exact Hc |]. split; [rewrite Ht; ring |].
  rewrite Hc.
  replace (0 <? Z.of_nat (List.length (rewards_of a h)))%Z with true.
  - rewrite Ht. now rewrite Qplus_0_l.
  - symmetry. apply Z.ltb_lt. destruct (rewards_of a h); [congruence | simpl; lia].
Qed.


Lemma tally_step_keys (d : list (string * (Q * Z))) (e : QTableHistory.t) :
  NoDup (map fst d) -> NoDup (map fst (tally_step d e)).
Proof.
  intro Hnd. unfold tally_step. rewrite map_fst_assoc_update.
  destruct (assoc_get (QTableHistory.action e) d) eqn:E; [exact Hnd |].
  rewrite map_app. cbn [map fst]. apply NoDup_app; [exact Hnd | | ].
  - constructor; [intros [] | constructor].
  - intros k Hk [<- | []]. now apply (proj1 (assoc_get_none _ _) E).
Qed.

Lemma tally_keys (h : list QTableHistory.t) :
  forall d, NoDup (map fst d) -> NoDup (map fst (fold_left tally_step h d)).
Proof.
  induction h as [| e h IH]; intros d Hnd; cbn [fold_left]; [exact Hnd |].
  apply IH. now apply tally_step_keys.
Qed.

Lemma insert_desc_perm {A : Type} (key : A -> Q) (x : A) (l : list A) :
  Permutation (x :: l) (insert_desc key x l).
Proof.
  induction l as [| y l IH]; cbn [insert_desc]; [apply Permutation_refl |].
  destruct (Qlt_bool (key x) (key y)); [| apply Permutation_refl].
  apply perm_trans with (y :: x :: l); [apply perm_swap | now apply perm_skip].
Qed.

Lemma py_sorted_desc_perm {A : Type} (key : A -> Q) (l : list A) :
  Permutation l (py_sorted_desc key l).
Proof.
  unfold py_sorted_desc. induction l as [| x l IH]; cbn [fold_right];
    [apply perm_nil |].
  apply perm_trans with (x :: fold_right (insert_desc key) [] l);
    [now apply perm_skip | apply insert_desc_perm].
Qed.

Lemma insert_desc_sorted {A : Type} (key : A -> Q) (x : A) (l : list A) :
  StronglySorted (fun a b => (key b <= key a)%Q) l ->
  StronglySorted (fun a b => (key b <= key a)%Q) (insert_desc key x l).
Proof.
  induction 1 as [| y l Hs IH Hy]; cbn [insert_desc].
  - constructor; constructor.
  - destruct (Qlt_bool (key x) (key y)) eqn:E.
    + apply Qlt_bool_iff in E. constructor; [exact IH |].
      apply (Permutation_Forall (insert_desc_perm key x l)).
      constructor; [now apply Qlt_le_weak | exact Hy].
    + apply Qlt_bool_false in E. constructor; [now constructor |].
      constructor; [exact E |].
      rewrite Forall_forall in Hy |- *. intros z Hz.
      apply Qle_trans with (key y); [now apply Hy | exact E].
Qed.

Lemma py_sorted_desc_sorted {A : Type} (key : A -> Q) (l : list A) :
  StronglySorted (fun a b => (key b <= key a)%Q) (py_sorted_desc key l).
Proof.
  unfold py_sorted_desc. induction l as [| x l IH]; cbn [fold_right]; [constructor |].
  now apply insert_desc_sorted.
Qed.

(** The sort is stable: items of equal key keep their order. *)
Lemma insert_desc_stable {A : Type} (key : A -> Q) (k : Q) (x : A) (l : list A) :
  filter (fun y => Qeq_bool (key y) k) (insert_desc key x l)
  = filter (fun y => Qeq_bool (key y) k) (x :: l).
Proof.
  induction l as [| y l IH]; cbn [insert_desc]; [reflexivity |].
  destruct (Qlt_bool (key x) (key y)) eqn:E; [| reflexivity].
  apply Qlt_bool_iff in E. cbn [filter] in IH |- *. rewrite IH.
  destruct (Qeq_bool (key x) k) eqn:Ex; [| reflexivity].
  destruct (Qeq_bool (key y) k) eqn:Ey; [| reflexivity].
  apply Qeq_bool_iff in Ex, Ey. exfalso. rewrite Ex, Ey in E.
  exact (Qlt_irrefl _ E).
Qed.

Lemma py_sorted_desc_stable {A : Type} (key : A -> Q) (k : Q) (l : list A) :
  filter (fun y => Qeq_bool (key y) k) (py_sorted_desc key l)
  = filter (fun y => Qeq_bool (key y) k) l.
Proof.
  unfold py_sorted_desc. induction l as [| x l IH]; cbn [fold_right]; [reflexivity |].
  rewrite insert_desc_stable. cbn [filter]. now rewrite IH.
Qed.

Lemma StronglySorted_app {A : Type} (R : A -> A -> Prop) (l1 l2 : list A) :
  StronglySorted R (l1 ++ l2) ->
  StronglySorted R l1 /\ forall x y, In x l1 -> In y l2 -> R x y.
Proof.
  induction l1 as [| a l1 IH]; cbn [app]; intro H.
  - split; [constructor | intros x y []].
  - inversion H as [| ? ? Hs Hall]; subst. destruct (IH Hs) as [Hs1 Hcross].
    rewrite Forall_forall in Hall. split.
    + constructor; [exact Hs1 |]. rewrite Forall_forall. intros z Hz.
      apply Hall. apply in_or_app. now left.
    + intros x y [<- | Hx] Hy; [| now apply Hcross].
      apply Hall. apply in_or_app. now right.
Qed.

Lemma StronglySorted_map_fst {V : Type} (key : string * V -> Q) (avg : string -> Q)
    (l : list (string * V)) :
  (forall x, In x l -> avg (fst x) = key x) ->
  StronglySorted (fun a b => (key b <= key a)%Q) l ->
  StronglySorted (fun a b => (avg b <= avg a)%Q) (map fst l).
Proof.
  intros Hkey Hs. induction Hs as [| x l Hs IH Hall]; cbn [map]; [constructor |].
  constructor.
  - apply IH. intros y Hy. apply Hkey. now right.
  - rewrite Forall_forall in Hall |- *. intros b Hb. apply in_map_iff in Hb.
    destruct Hb as (y & <- & Hy).
    rewrite (Hkey x (or_introl eq_refl)), (Hkey y (or_intror Hy)). now apply Hall.
Qed.


(** X19. The top actions of the analytics endpoint are the (at most) three
    actions of greatest average reward among those the user has History
    Records for: they are distinct, listed by descending average, and no
    action left out has a greater average than one listed. The endpoint
    reads the history and writes nothing. *)
Theorem user_analytics_top_actions (user_id : string) (w : world) :
  let r := user_analytics user_id (db w) in
  let avg := fun a => match assoc_get a (Analytics.action_effectiveness r) with
                      | Some st => ActionStats.average st
                      | None => 0%Q
                      end in
  get_user_analytics user_id w = (inr r, w)
  /\ NoDup (map fst (Analytics.action_effectiveness r))
  /\ List.length (Analytics.top_actions r)
     = Nat.min 3 (List.length (Analytics.action_effectiveness r))
  /\ NoDup (Analytics.top_actions r)
  /\ (forall a, In a (Analytics.top_actions r) ->
                In a (map fst (Analytics.action_effectiveness r)))
  /\ StronglySorted (fun a b => (avg b <= avg a)%Q) (Analytics.top_actions r)
  /\ (forall a b, In a (map fst (Analytics.action_effectiveness r)) ->
                  ~ In a (Analytics.top_actions r) ->
                  In b (Analytics.top_actions r) -> (avg a <= avg b)%Q).
Proof.
  intros r avg. split; [reflexivity |].
  unfold r, user_analytics in avg |- *.
  cbn [Analytics.action_effectiveness Analytics.top_actions] in avg |- *.
  set (ae := map (fun kv => (fst kv, with_average (snd kv)))
               (tally (history_of user_id (db w)))) in *.
  set (key := fun x : string * ActionStats.t => ActionStats.average (snd x)).
  set (sorted := py_sorted_desc key ae).
  assert (Hnd : NoDup (map fst ae)).
  { unfold ae. rewrite map_map. cbn [fst]. unfold tally. apply tally_keys. constructor. }
  pose proof (py_sorted_desc_perm key ae) as Hperm. fold sorted in Hperm.
  pose proof (py_sorted_desc_sorted key ae) as Hsorted. fold sorted in Hsorted.
  assert (Hkey : forall x, In x ae -> avg (fst x) = key x).
  { intros [k v] Hx. unfold avg, key. cbn [fst snd]. now rewrite (assoc_get_in _ _ _ Hnd Hx). }
  assert (HndS : NoDup (map fst sorted)).
  { eapply Permutation_NoDup; [apply Permutation_map; exact Hperm | exact Hnd]. }
  rewrite <- (firstn_skipn 3 sorted) in Hsorted, HndS.
  destruct (StronglySorted_app _ _ _ Hsorted) as [Htop Hcross].
  rewrite map_app in HndS.
  assert (Hback : forall x, In x sorted -> In x ae)
    by (intros x Hx; eapply Permutation_in; [apply Permutation_sym; exact Hperm | exact Hx]).
  assert (Hfirst : forall x, In x (firstn 3 sorted) -> In x ae).
  { intros x Hx. apply Hback. rewrite <- (firstn_skipn 3 sorted).
    apply in_or_app. now left. }
  assert (Hrest : forall x, In x (skipn 3 sorted) -> In x ae).
  { intros x Hx. apply Hback. rewrite <- (firstn_skipn 3 sorted).
    apply in_or_app. now right. }
  split; [exact Hnd |]. split.
  { rewrite length_map, length_firstn. unfold sorted.
    now rewrite <- (Permutation_length (py_sorted_desc_perm key ae)). }
  split; [exact (NoDup_app_remove_r _ _ HndS) |]. split.
  { intros a Ha. apply in_map_iff in Ha. destruct Ha as (x & <- & Hx).
    apply in_map. now apply Hfirst. }
  split.
  { apply (StronglySorted_map_fst key avg); [| exact Htop].
    intros x Hx. apply Hkey. now apply Hfirst. }
  intros a b Ha Hnot Hb.
  assert (Ha' : In a (map fst (firstn 3 sorted) ++ map fst (skipn 3 sorted))).
  { rewrite <- map_app, firstn_skipn.
    eapply Permutation_in; [apply Permutation_map; exact Hperm | exact Ha]. }
  apply in_app_or in Ha'. destruct Ha' as [Ha' | Ha']; [contradiction |].
  apply in_map_iff in Ha'. destruct Ha' as (x & <- & Hx).
  apply in_map_iff in Hb. destruct Hb as (y & <- & Hy).
  rewrite (Hkey x (Hrest x Hx)), (Hkey y (Hfirst y Hy)). now apply Hcross.
Qed.


(** X20. On the explore branch (the draw is below epsilon), with index
    draws in range and a state whose phase and pain level compare without
    a type error, [choose_action] returns one of the six actions and
    leaves the four tables as they were; in a high-pain menstrual state,
    when the second draw is below 0.6, the action is one of the two
    pain-management actions. *)
Theorem choose_action_explore (u : string) (alpha gamma epsilon : Q)
    (state : string) (d : list (string * json)) (w : world) (high_pain : bool) :
  (forall n g, (fst (rng_randbelow (S n) g) < S n)%nat) ->
  json_loads state = Some (JObj d) ->
  (if py_eq_str (dict_get d "cycle_phase" JNull) "menstrual"
   then py_ge (dict_get d "pain_level" (JInt 5)) 6
   else Some false) = Some high_pain ->
  Qlt_bool (fst (rng_random (gen w))) epsilon = true ->
  exists (a : string) (w' : world),
    choose_action (Agent.mk u six_actions alpha gamma epsilon) state w = (inr a, w')
    /\ db w' = db w
    /\ In a six_actions
    /\ (high_pain = true ->
        Qlt_bool (fst (rng_random (snd (rng_random (gen w))))) float_0_6 = true ->
        In a pain_management_actions).
Proof.
  intros Hrange Hloads Hhigh Hexplore.
  set (self := Agent.mk u six_actions alpha gamma epsilon).
  set (w0 := {| db := db w; gen := snd (rng_random (gen w)) |}).
  assert (Hr : random w = (inr (fst (rng_random (gen w))), w0)).
  { unfold random, w0. now destruct (rng_random (gen w)). }
  assert (Hb : high_pain_menstrual (dict_get d "cycle_phase" JNull)
                 (dict_get d "pain_level" (JInt 5)) w0 = (inr high_pain, w0)).
  { unfold high_pain_menstrual.
    destruct (py_eq_str (dict_get d "cycle_phase" JNull) "menstrual").
    - now rewrite Hhigh.
    - now injection Hhigh as <-. }
  assert (Hsix : six_actions <> []) by discriminate.
  destruct high_pain.
  - set (w1 := {| db := db w0; gen := snd (rng_random (gen w0)) |}).
    assert (Hr' : random w0 = (inr (fst (rng_random (gen w0))), w1)).
    { unfold random, w1. now destruct (rng_random (gen w0)). }
    destruct (Qlt_bool (fst (rng_random (gen w0))) float_0_6) eqn:E6.
    + destruct (random_choice_succeeds pain_management_actions w1 Hrange)
        as (x & w' & Hx & Hdb & Hin); [discriminate |].
      exists x, w'. split; [| split; [exact Hdb | split]].
      * unfold choose_action.
        rewrite (bind_inr _ _ _ _ _ (loads_dict_object _ _ _ Hloads)).
        rewrite (bind_inr _ _ _ _ _ Hr). cbn [Agent.epsilon self]. rewrite Hexplore.
        rewrite (bind_inr _ _ _ _ _ Hb), (bind_inr _ _ _ _ _ Hr'), E6. exact Hx.
      * unfold six_actions. simpl. simpl in Hin. intuition.
      * intros _ _. exact Hin.
    + destruct (random_choice_succeeds six_actions w1 Hrange Hsix)
        as (x & w' & Hx & Hdb & Hin).
      exists x, w'. split; [| split; [exact Hdb | split; [exact Hin |]]].
      * unfold choose_action.
        rewrite (bind_inr _ _ _ _ _ (loads_dict_object _ _ _ Hloads)).
        rewrite (bind_inr _ _ _ _ _ Hr). cbn [Agent.epsilon self]. rewrite Hexplore.
        rewrite (bind_inr _ _ _ _ _ Hb), (bind_inr _ _ _ _ _ Hr'), E6. exact Hx.
      * intros _ H6. unfold w0 in E6. cbn [gen] in E6. congruence.
  - destruct (random_choice_succeeds six_actions w0 Hrange Hsix)
      as (x & w' & Hx & Hdb & Hin).
    exists x, w'. split; [| split; [exact Hdb | split; [exact Hin | discriminate]]].
    unfold choose_action.
    rewrite (bind_inr _ _ _ _ _ (loads_dict_object _ _ _ Hloads)).
    rewrite (bind_inr _ _ _ _ _ Hr). cbn [Agent.epsilon self]. rewrite Hexplore.
    rewrite (bind_inr _ _ _ _ _ Hb). exact Hx.
Qed.


(* ================================================================ *)
(** ** The State Key is read back: keys are injective *)

Lemma append_assoc (a b c : string) : ((a ++ b) ++ c = a ++ (b ++ c))%string.
Proof. induction a as [| x a IH]; simpl; [reflexivity | now rewrite IH]. Qed.

Lemma append_nil_r (a : string) : (a ++ EmptyString = a)%string.
Proof. induction a as [| x a IH]; simpl; [reflexivity | now rewrite IH]. Qed.

Lemma snoc_char_append (acc : string) (c : ascii) (s : string) :
  (snoc_char acc c ++ s = acc ++ String c s)%string.
Proof. unfold snoc_char. now rewrite append_assoc. Qed.

(** The lexer reads an escaped character back. *)
Lemma lex_escape_char (c : ascii) (acc rest : string) :
  lex (InString acc) (escape_char c ++ rest) = lex (InString (snoc_char acc c)) rest.
Proof.
  destruct c as [[] [] [] [] [] [] [] []]; reflexivity.
Qed.

Lemma lex_escape_string (s : string) :
  forall acc rest,
    lex (InString acc) (escape_string s ++ rest) = lex (InString (acc ++ s)) rest.
Proof.
  induction s as [| c s IH]; intros acc rest; cbn [escape_string].
  - now rewrite append_nil_r.
  - rewrite append_assoc, lex_escape_char, IH. now rewrite snoc_char_append.
Qed.

Lemma lex_json_of_str (s rest : string) (ts : list token) :
  lex Idle rest = Some ts ->
  lex Idle (json_of_str s ++ rest) = Some (TString s :: ts).
Proof.
  intro H. unfold json_of_str. rewrite !append_assoc.
  change (option_map (app [])
            (lex (InString EmptyString) (escape_string s ++ dquote ++ rest))
          = Some (TString s :: ts)).
  rewrite lex_escape_string.
  change (option_map (app []) (option_map (cons (TString s)) (lex Idle rest))
          = Some (TString s :: ts)).
  now rewrite H.
Qed.


Lemma uint_value_pos (d : Decimal.uint) :
  forall p : positive, uint_value d (Zpos p) = Zpos (Pos.of_uint_acc d p).
Proof.
  induction d as [| d IH | d IH | d IH | d IH | d IH | d IH | d IH | d IH | d IH | d IH];
    intro p; cbn [uint_value Pos.of_uint_acc]; [reflexivity | ..];
    rewrite <- IH; f_equal; lia.
Qed.

Lemma uint_value_zero (d : Decimal.uint) : uint_value d 0 = Z.of_N (Pos.of_uint d).
Proof.
  induction d as [| d IH | d IH | d IH | d IH | d IH | d IH | d IH | d IH | d IH | d IH];
    cbn [uint_value Pos.of_uint]; [reflexivity | exact IH | ..];
    cbn [Z.mul Z.add Z.of_N]; apply uint_value_pos.
Qed.

Lemma option_map_app_nil {A : Type} (x : option (list A)) : option_map (app []) x = x.
Proof. now destruct x. Qed.

Lemma lex_digits (d : Decimal.uint) :
  forall neg acc rest,
    lex (InNumber neg acc) (NilEmpty.string_of_uint d ++ rest)
    = lex (InNumber neg (uint_value d acc)) rest.
Proof.
  induction d as [| d IH | d IH | d IH | d IH | d IH | d IH | d IH | d IH | d IH | d IH];
    intros neg acc rest; [reflexivity | ..];
    cbn [NilEmpty.string_of_uint append uint_value]; rewrite <- IH; reflexivity.
Qed.

Lemma lex_number_end (neg : bool) (v : Z) (c : ascii) (rest : string)
    (ts0 : list token) (m : lexer_mode) :
  digit_value c = None ->
  idle_step c = Some (ts0, m) ->
  lex (InNumber neg v) (String c rest)
  = option_map (app (number_token neg v :: ts0)) (lex m rest).
Proof. intros Hd Hi. cbn [lex]. now rewrite Hd, Hi. Qed.

Lemma lex_uint_idle (d : Decimal.uint) (rest : string) :
  d <> Decimal.Nil ->
  lex Idle (NilEmpty.string_of_uint d ++ rest)
  = lex (InNumber false (uint_value d 0)) rest.
Proof.
  destruct d; intro Hd; [congruence | ..];
    cbn [NilEmpty.string_of_uint append uint_value];
    match goal with
    | |- lex Idle (String ?c ?s) = _ =>
        change (lex Idle (String c s))
          with (option_map (app []) (lex (InNumber false (Z.of_nat (nat_of_ascii c - 48))) s))
    end;
    rewrite option_map_app_nil, lex_digits; reflexivity.
Qed.

Lemma string_of_uint_nonnil (d : Decimal.uint) :
  d <> Decimal.Nil -> NilZero.string_of_uint d = NilEmpty.string_of_uint d.
Proof. destruct d; [congruence | reflexivity ..]. Qed.

(** The lexer reads a printed integer back, up to the separator after it. *)
Lemma lex_json_of_int (z : Z) (c : ascii) (rest : string) (ts0 ts : list token)
    (m : lexer_mode) :
  digit_value c = None ->
  idle_step c = Some (ts0, m) ->
  lex m rest = Some ts ->
  lex Idle (json_of_int z ++ String c rest) = Some (TNumber z :: ts0 ++ ts).
Proof.
  intros Hd Hi Hrest. unfold json_of_int. destruct z as [| p | p]; cbn [Z.to_int].
  - change (option_map (app []) (lex (InNumber false 0) (String c rest))
            = Some (TNumber 0 :: ts0 ++ ts)).
    rewrite option_map_app_nil, (lex_number_end _ _ _ _ _ _ Hd Hi), Hrest. reflexivity.
  - cbn [NilZero.string_of_int].
    rewrite (string_of_uint_nonnil _ (DecimalPos.Unsigned.to_uint_nonnil p)).
    rewrite (lex_uint_idle _ _ (DecimalPos.Unsigned.to_uint_nonnil p)).
    rewrite (lex_number_end _ _ _ _ _ _ Hd Hi), Hrest.
    rewrite uint_value_zero, DecimalPos.Unsigned.of_to. reflexivity.
  - cbn [NilZero.string_of_int].
    rewrite (string_of_uint_nonnil _ (DecimalPos.Unsigned.to_uint_nonnil p)).
    change (option_map (app [])
              (lex (InNumber true 0)
                 (NilEmpty.string_of_uint (Pos.to_uint p) ++ String c rest))
            = Some (TNumber (Z.neg p) :: ts0 ++ ts)).
    rewrite option_map_app_nil, lex_digits.
    rewrite (lex_number_end _ _ _ _ _ _ Hd Hi), Hrest.
    rewrite uint_value_zero, DecimalPos.Unsigned.of_to. reflexivity.
Qed.


Lemma lex_comma_space (rest : string) (ts : list token) :
  lex Idle rest = Some ts -> lex Idle (", " ++ rest) = Some (TComma :: ts).
Proof.
  intro H.
  change (option_map (app [TComma]) (option_map (app []) (lex Idle rest))
          = Some (TComma :: ts)).
  now rewrite H.
Qed.

Lemma lex_colon_space (rest : string) (ts : list token) :
  lex Idle rest = Some ts -> lex Idle (": " ++ rest) = Some (TColon :: ts).
Proof.
  intro H.
  change (option_map (app [TColon]) (option_map (app []) (lex Idle rest))
          = Some (TColon :: ts)).
  now rewrite H.
Qed.

Lemma lex_member_str (k v rest : string) (ts : list token) :
  lex Idle rest = Some ts ->
  lex Idle (json_of_str k ++ ": " ++ json_of_str v ++ ", " ++ rest)
  = Some (TString k :: TColon :: TString v :: TComma :: ts).
Proof.
  intro H. apply lex_json_of_str, lex_colon_space, lex_json_of_str.
  now apply lex_comma_space.
Qed.

Lemma lex_member_int (k : string) (z : Z) (rest : string) (ts : list token) :
  lex Idle rest = Some ts ->
  lex Idle (json_of_str k ++ ": " ++ json_of_int z ++ ", " ++ rest)
  = Some (TString k :: TColon :: TNumber z :: TComma :: ts).
Proof.
  intro H. apply lex_json_of_str, lex_colon_space.
  change (", " ++ rest)%string with (String ","%char (String " "%char rest)).
  apply (lex_json_of_int z ","%char (String " "%char rest) [TComma] ts Idle);
    [reflexivity | reflexivity |].
  change (option_map (app []) (lex Idle rest) = Some ts). now rewrite H.
Qed.

Lemma lex_last_int (k : string) (z : Z) :
  lex Idle (json_of_str k ++ ": " ++ json_of_int z ++ "}")
  = Some [TString k; TColon; TNumber z; TRBrace].
Proof.
  apply lex_json_of_str, lex_colon_space.
  apply (lex_json_of_int z "}"%char EmptyString [TRBrace] [] Idle); reflexivity.
Qed.

Lemma lex_lbrace (rest : string) (ts : list token) :
  lex Idle rest = Some ts -> lex Idle ("{" ++ rest) = Some (TLBrace :: ts).
Proof.
  intro H. change (option_map (app [TLBrace]) (lex Idle rest) = Some (TLBrace :: ts)).
  now rewrite H.
Qed.

(** The reference decoder inverts the encoder on every State Key. *)
Lemma flat_loads_state_key (phase : string) (sleep mood stress pain : Z) (bucket : string)
    (energy : Z) :
  flat_loads (state_key phase sleep mood stress pain bucket energy)
  = Some (JObj (state_dict phase sleep mood stress pain bucket energy)).
Proof.
  unfold flat_loads, state_key, json_dumps.
  cbn [json_members json_of_field]. rewrite !append_assoc.
  assert (Hlex :
    lex Idle
      ("{" ++ json_of_str "cycle_phase" ++ ": " ++ json_of_str phase ++ ", " ++
       json_of_str "sleep_score" ++ ": " ++ json_of_int sleep ++ ", " ++
       json_of_str "mood_score" ++ ": " ++ json_of_int mood ++ ", " ++
       json_of_str "stress_level" ++ ": " ++ json_of_int stress ++ ", " ++
       json_of_str "pain_level" ++ ": " ++ json_of_int pain ++ ", " ++
       json_of_str "time_of_day" ++ ": " ++ json_of_str bucket ++ ", " ++
       json_of_str "energy_level" ++ ": " ++ json_of_int energy ++ "}")%string
    = Some [TLBrace;
            TString "cycle_phase"; TColon; TString phase; TComma;
            TString "sleep_score"; TColon; TNumber sleep; TComma;
            TString "mood_score"; TColon; TNumber mood; TComma;
            TString "stress_level"; TColon; TNumber stress; TComma;
            TString "pain_level"; TColon; TNumber pain; TComma;
            TString "time_of_day"; TColon; TString bucket; TComma;
            TString "energy_level"; TColon; TNumber energy; TRBrace]).
  { apply lex_lbrace.
    apply lex_member_str, lex_member_int, lex_member_int, lex_member_int,
      lex_member_int, lex_member_str, lex_last_int. }
  rewrite Hlex. reflexivity.
Qed.

(** X21. The State Key determines the observation fields: two keys are the
    same text only when the phase, the five scores and the time-of-day
    bucket are the same, so no two distinct states share a row of the
    Q-Value Table. *)
Theorem state_key_injective (self1 self2 : Environment.t) (now1 now2 : datetime)
    (w1 w2 : world) (o1 o2 : CycleData.t) :
  latest_cycle_data (Environment.user_id self1) (db w1) = Some o1 ->
  latest_cycle_data (Environment.user_id self2) (db w2) = Some o2 ->
  fst (get_current_state self1 now1 w1) = fst (get_current_state self2 now2 w2) ->
  CycleData.cycle_phase o1 = CycleData.cycle_phase o2
  /\ CycleData.sleep_score o1 = CycleData.sleep_score o2
  /\ CycleData.mood_score o1 = CycleData.mood_score o2
  /\ CycleData.stress_level o1 = CycleData.stress_level o2
  /\ CycleData.pain_level o1 = CycleData.pain_level o2
  /\ CycleData.energy_level o1 = CycleData.energy_level o2
  /\ time_of_day (dt_hour now1) = time_of_day (dt_hour now2).
Proof.
  intros H1 H2 Hsame.
  rewrite (get_current_state_found _ _ _ _ H1), (get_current_state_found _ _ _ _ H2) in Hsame.
  cbn [fst] in Hsame.
  set (k1 := state_key _ _ _ _ _ _ _) in Hsame at 1.
  set (k2 := state_key _ _ _ _ _ _ _) in Hsame.
  assert (Hkey : flat_loads k1 = flat_loads k2) by congruence.
  unfold k1, k2 in Hkey. rewrite !flat_loads_state_key in Hkey.
  unfold state_dict in Hkey. injection Hkey as -> -> -> -> -> -> ->.
  repeat split; reflexivity.
Qed.


(* ================================================================ *)
(** ** Notification content *)

Lemma Qle_bool_inject_Z (a b : Z) : Qle_bool (inject_Z a) (inject_Z b) = (a <=? b)%Z.
Proof. unfold Qle_bool, inject_Z. cbn [Qnum Qden]. now rewrite !Z.mul_1_r. Qed.

(** X22. On a state that decodes to a string phase and integer scores, with
    index draws in range, the message is a template followed by the
    caveats that apply: the gentleness reminder when the pain level is at
    least 7 in the menstrual phase, then the rest reminder when the energy
    level is at most 3. For an action outside the six the template is the
    default sentence. Nothing is written to the store. *)
Theorem generate_notification_caveats (action state : string)
    (phase : string) (sleep mood stress pain : Z) (bucket : string) (energy : Z)
    (w : world) :
  (forall n g, (fst (rng_randbelow (S n) g) < S n)%nat) ->
  json_loads state = Some (JObj (state_dict phase sleep mood stress pain bucket energy)) ->
  exists (base : string) (w' : world),
    generate_notification action state w
    = (inr ((base
             ++ (if ((7 <=? pain)%Z && String.eqb phase "menstrual")%bool
                 then newline
                      ++ "Remember to be gentle with yourself and listen to your body's needs."
                 else EmptyString))
            ++ (if (energy <=? 3)%Z
                then newline ++ "Keep it gentle and rest if needed."
                else EmptyString))%string, w')
    /\ db w' = db w
    /\ (~ In action six_actions -> base = "Time to take care of yourself!").
Proof.
  intros Hrange Hloads. unfold generate_notification.
  rewrite (bind_inr _ _ _ _ _ (loads_dict_object _ _ _ Hloads)).
  change (dict_get (state_dict phase sleep mood stress pain bucket energy)
            "cycle_phase" (JStr EmptyString)) with (JStr phase).
  change (dict_get (state_dict phase sleep mood stress pain bucket energy)
            "pain_level" (JInt 5)) with (JInt pain).
  change (dict_get (state_dict phase sleep mood stress pain bucket energy)
            "energy_level" (JInt 5)) with (JInt energy).
  cbv zeta.
  destruct (phase_get_string
              [("menstrual", "hip-opening and gentle yoga");
               ("follicular", "dynamic stretches and flow movements");
               ("ovulation", "energetic and full-range stretches");
               ("luteal", "calming and restorative stretches")]
              "comfortable stretches" phase w) as (s1 & H1).
  change (get_stretch_type (JStr phase) w = (inr s1, w)) in H1.
  rewrite (bind_inr _ _ _ _ _ H1).
  destruct (phase_get_string
              [("menstrual", "iron-rich foods and dark chocolate");
               ("follicular", "light, nutrient-dense foods");
               ("ovulation", "fresh fruits and vegetables");
               ("luteal", "complex carbs and protein-rich foods")]
              "balanced, nutritious foods" phase w) as (s2 & H2).
  change (get_snack_suggestion (JStr phase) w = (inr s2, w)) in H2.
  rewrite (bind_inr _ _ _ _ _ H2).
  destruct (phase_get_string
              [("menstrual", "gentle walking or stretching");
               ("follicular", "moderate cardio or strength training");
               ("ovulation", "high-intensity activities or dance");
               ("luteal", "yoga or light cardio")]
              "movement that feels good" phase w) as (s3 & H3).
  change (get_movement_type (JStr phase) w = (inr s3, w)) in H3.
  rewrite (bind_inr _ _ _ _ _ H3).
  match goal with
  | |- context [random_choice ?l] =>
      assert (Hl : l <> [] /\ (~ In action six_actions ->
                               l = ["Time to take care of yourself!"]));
      [| destruct Hl as [Hne Hdefault];
         destruct (random_choice_succeeds l w Hrange Hne) as (msg & w' & Hmsg & Hdb & Hin)]
  end.
  { destruct (assoc_get action _) as [l |] eqn:E; [| split; [discriminate | reflexivity]].
    apply assoc_get_some_in in E. split.
    - cbn [In] in E.
      repeat match type of E with
             | _ \/ _ => destruct E as [E | E]
             end;
        try (injection E as _ <-; discriminate); destruct E.
    - intro Hnot. exfalso. apply Hnot. cbn [In] in E. unfold six_actions. cbn.
      repeat match type of E with
             | _ \/ _ => destruct E as [E | E]
             end;
        try (injection E as <- _; auto 8); destruct E. }
  rewrite (bind_inr _ _ _ _ _ Hmsg).
  unfold py_ge, py_le. cbn [py_number option_map from_option].
  rewrite !Qle_bool_inject_Z. unfold bind, ret. cbn [py_eq_str].
  exists msg, w'. split; [| split; [exact Hdb |]].
  - destruct ((7 <=? pain)%Z && String.eqb phase "menstrual")%bool;
      destruct (energy <=? 3)%Z; now rewrite ?append_nil_r.
  - intro Hnot. rewrite (Hdefault Hnot) in Hin. now destruct Hin as [<- | []].
Qed.


(* ================================================================ *)
(** ** Users *)

Lemma next_user_id_above (users : list User.t) (u : User.t) :
  In u users -> (User.id u < next_user_id users)%Z.
Proof.
  unfold next_user_id. induction users as [| x users IH]; cbn [fold_right In]; [intros [] |].
  intros [<- | Hu]; [lia |]. specialize (IH Hu). lia.
Qed.

(** X23. Registering a user is idempotent and keeps user ids unique: the row
    returned carries the requested user id and is in the table; a second
    registration under the same user id, at any later time, returns that
    same row and leaves the table as it is; rows already there are kept,
    and if user ids (and row ids) were pairwise distinct they still are. *)
Theorem create_user_idempotent (user : UserCreate.t) (now later : datetime)
    (users : list User.t) :
  User.user_id (fst (create_user user now users)) = UserCreate.user_id user
  /\ first_user (UserCreate.user_id user) (snd (create_user user now users))
     = Some (fst (create_user user now users))
  /\ create_user user later (snd (create_user user now users))
     = create_user user now users
  /\ (exists added, snd (create_user user now users) = users ++ added
                    /\ (List.length added <= 1)%nat)
  /\ (NoDup (map User.user_id users) ->
      NoDup (map User.user_id (snd (create_user user now users))))
  /\ (NoDup (map User.id users) ->
      NoDup (map User.id (snd (create_user user now users)))).
Proof.
  unfold create_user.
  destruct (first_user (UserCreate.user_id user) users) as [existing |] eqn:E;
    cbn [fst snd].
  - pose proof E as Hfound. unfold first_user in Hfound. apply find_some in Hfound.
    destruct Hfound as [Hin Heq]. apply String.eqb_eq in Heq.
    split; [exact Heq |]. split; [exact E |]. split; [now rewrite E |].
    split; [exists []; split; [now rewrite app_nil_r | cbn; lia] |].
    split; intro H; exact H.
  - set (db_user := User.mk (next_user_id users) (UserCreate.user_id user) now).
    assert (Hfirst : first_user (UserCreate.user_id user) (users ++ [db_user])
                     = Some db_user).
    { unfold first_user in E |- *. rewrite find_snoc, E. unfold db_user.
      cbn [User.user_id]. now rewrite String.eqb_refl. }
    split; [reflexivity |]. split; [exact Hfirst |]. split; [now rewrite Hfirst |].
    split; [exists [db_user]; split; [reflexivity | cbn; lia] |].
    split; intro Hnd; rewrite map_app; cbn [map]; apply NoDup_app; try exact Hnd;
      try (constructor; [intros [] | constructor]).
    + intros k Hk [<- | []]. apply in_map_iff in Hk. destruct Hk as (u & Hu & Hin).
      unfold first_user in E. apply (find_none _ _ E) in Hin.
      cbn [db_user User.user_id] in Hu. rewrite Hu, String.eqb_refl in Hin. discriminate.
    + intros k Hk [<- | []]. apply in_map_iff in Hk. destruct Hk as (u & Hu & Hin).
      pose proof (next_user_id_above _ _ Hin). cbn [db_user User.id] in Hu. lia.
Qed.


(* ================================================================ *)
(** ** [populate_db.py] *)

Lemma transaction_run {A : Type} (body : M A) (w w' : world) (r : exn + A) :
  transaction body w = (r, w') ->
  exists w1, body w = (r, w1)
             /\ match r with
                | inl _ => w' = {| db := db w; gen := gen w1 |}
                | inr _ => w' = w1
                end.
Proof.
  unfold transaction. destruct (body w) as [[e | a] w1]; intros [= <- <-];
    exists w1; split; reflexivity.
Qed.

Lemma random_randint_run (a b : Z) (w : world) :
  (a <= b)%Z ->
  random_randint a b w
  = (inr (a + Z.of_nat (fst (rng_randbelow (Z.to_nat (b - a + 1)) (gen w))))%Z,
     {| db := db w; gen := snd (rng_randbelow (Z.to_nat (b - a + 1)) (gen w)) |}).
Proof.
  intro Hab. unfold random_randint.
  destruct (Z.leb_spec a b) as [_ | Hlt]; [| lia].
  destruct (rng_randbelow (Z.to_nat (b - a + 1)) (gen w)) as [i g]. reflexivity.
Qed.

Lemma sample_score_run (scores : list (string * Z)) (key : string) (base : Z) (w : world) :
  assoc_get key scores = Some base ->
  exists v w', sample_score scores key w = (inr v, w')
               /\ db w' = db w /\ (1 <= v <= 10)%Z.
Proof.
  intro Hbase. unfold sample_score, subscript. rewrite Hbase. cbn [from_option].
  unfold bind at 1. cbn [ret].
  rewrite (bind_inr _ _ _ _ _ (random_randint_run (-2) 2 w ltac:(lia))).
  eexists _, _. split; [reflexivity |]. split; [reflexivity |].
  unfold clamp_score. lia.
Qed.

Lemma py_index_cycle_phases (i : Z) :
  (0 <= i < 4)%Z ->
  exists phase, py_index cycle_phases i = Some phase /\ In phase cycle_phases.
Proof.
  intro Hi.
  assert (H : i = 0%Z \/ i = 1%Z \/ i = 2%Z \/ i = 3%Z) by lia.
  destruct H as [-> | [-> | [-> | ->]]]; eexists; (split; [reflexivity |]);
    cbn; auto.
Qed.

Lemma py_index_out_of_range (i : Z) :
  (4 <= i)%Z -> py_index cycle_phases i = None.
Proof.
  intro Hi. unfold py_index.
  destruct (Z.ltb_spec i 0) as [Hneg | _]; [lia |].
  apply nth_error_None. cbn [List.length cycle_phases]. lia.
Qed.

(** Neither table of [create_cycle_data] misses a phase, nor a score. *)
Lemma phase_tables_total (phase : string) :
  In phase cycle_phases ->
  exists scores duration b1 b2 b3 b4 b5,
    assoc_get phase base_scores = Some scores
    /\ assoc_get phase phase_durations = Some duration
    /\ assoc_get "sleep" scores = Some b1
    /\ assoc_get "mood" scores = Some b2
    /\ assoc_get "stress" scores = Some b3
    /\ assoc_get "pain" scores = Some b4
    /\ assoc_get "energy" scores = Some b5.
Proof.
  intros [<- | [<- | [<- | [<- | []]]]];
    do 7 eexists; repeat split; reflexivity.
Qed.

Lemma datetime_add_days_add (t : datetime) (a b : Z) :
  datetime_add_days (datetime_add_days t a) b = datetime_add_days t (a + b).
Proof.
  unfold datetime_add_days, timedelta_days. cbn [dt_instant dt_hour]. f_equal. lia.
Qed.

Lemma consecutive_days_succ (start : datetime) (days : nat) :
  consecutive_days start (S days)
  = datetime_add_days start 0 :: consecutive_days (datetime_add_days start 1) days.
Proof.
  unfold consecutive_days. cbn [seq map]. f_equal.
  rewrite <- seq_shift, map_map. apply map_ext. intro i.
  rewrite datetime_add_days_add. f_equal. lia.
Qed.

Lemma datetime_add_days_0 (t : datetime) : datetime_add_days t 0 = t.
Proof.
  unfold datetime_add_days, timedelta_days. destruct t as [i h].
  cbn [dt_instant dt_hour]. f_equal. lia.
Qed.

(** From a valid phase index the loop over the days never raises: it adds
    one row a day, dated on consecutive days, and nothing else. *)
Lemma create_cycle_days_run (days : nat) (user_id : string) :
  forall (current_date : datetime) (idx dip : Z) (w : world),
    (0 <= idx < 4)%Z ->
    exists rows w',
      create_cycle_days days user_id current_date idx dip w = (inr tt, w')
      /\ cycle_data (db w') = cycle_data (db w) ++ rows
      /\ q_tables (db w') = q_tables (db w)
      /\ q_table_history (db w') = q_table_history (db w)
      /\ notifications (db w') = notifications (db w)
      /\ Forall (sample_cycle_row user_id) rows
      /\ map CycleData.timestamp rows = consecutive_days current_date days.
Proof.
  induction days as [| days IH]; intros current_date idx dip w Hidx.
  - exists [], w. cbn [create_cycle_days ret]. rewrite app_nil_r.
    repeat split; constructor.
  - destruct (py_index_cycle_phases idx Hidx) as (phase & Hphase & Hin).
    destruct (phase_tables_total phase Hin)
      as (scores & duration & b1 & b2 & b3 & b4 & b5 & Hs & Hd & H1 & H2 & H3 & H4 & H5).
    destruct (sample_score_run scores "sleep" b1 w H1) as (sleep & w1 & R1 & D1 & B1).
    destruct (sample_score_run scores "mood" b2 w1 H2) as (mood & w2 & R2 & D2 & B2).
    destruct (sample_score_run scores "stress" b3 w2 H3) as (stress & w3 & R3 & D3 & B3).
    destruct (sample_score_run scores "pain" b4 w3 H4) as (pain & w4 & R4 & D4 & B4).
    destruct (sample_score_run scores "energy" b5 w4 H5) as (energy & w5 & R5 & D5 & B5).
    set (row := CycleData.mk user_id current_date phase sleep mood stress pain energy).
    set (w6 := {| db := with_cycle_data (db w5) (cycle_data (db w5) ++ [row]);
                  gen := gen w5 |}).
    assert (Hidx' : (0 <= (idx + 1) mod 4 < 4)%Z) by (apply Z.mod_pos_bound; lia).
    assert (Hrest : exists rows w',
               (if (duration <=? dip + 1)%Z
                then create_cycle_days days user_id (datetime_add_days current_date 1)
                       ((idx + 1) mod 4)%Z 0%Z
                else create_cycle_days days user_id (datetime_add_days current_date 1)
                       idx (dip + 1)%Z) w6 = (inr tt, w')
               /\ cycle_data (db w') = cycle_data (db w6) ++ rows
               /\ q_tables (db w') = q_tables (db w6)
               /\ q_table_history (db w') = q_table_history (db w6)
               /\ notifications (db w') = notifications (db w6)
               /\ Forall (sample_cycle_row user_id) rows
               /\ map CycleData.timestamp rows
                  = consecutive_days (datetime_add_days current_date 1) days).
    { destruct (duration <=? dip + 1)%Z; apply IH; assumption. }
    destruct Hrest as (rows & w' & Rrest & Hcd & Hq & Hh & Hn & Hrows & Hts).
    exists (row :: rows), w'.
    split.
    { cbn [create_cycle_days]. rewrite Hphase. cbn [from_option].
      unfold bind at 1. cbn [ret].
      unfold subscript at 1. rewrite Hs. cbn [from_option]. unfold bind at 1. cbn [ret].
      rewrite (bind_inr _ _ _ _ _ R1), (bind_inr _ _ _ _ _ R2), (bind_inr _ _ _ _ _ R3),
        (bind_inr _ _ _ _ _ R4), (bind_inr _ _ _ _ _ R5).
      unfold bind at 1, db_add_cycle_data, modify. fold row. fold w6.
      unfold subscript. rewrite Hd. cbn [from_option]. unfold bind at 1. cbn [ret].
      exact Rrest. }
    unfold w6 in Hcd, Hq, Hh, Hn.
    cbn [db cycle_data q_tables q_table_history notifications with_cycle_data]
      in Hcd, Hq, Hh, Hn.
    rewrite D5, D4, D3, D2, D1 in Hcd, Hq, Hh, Hn.
    split; [rewrite Hcd, <- app_assoc; reflexivity |].
    split; [exact Hq |]. split; [exact Hh |]. split; [exact Hn |].
    split.
    { constructor; [| exact Hrows].
      unfold sample_cycle_row, row.
      cbn [CycleData.user_id CycleData.cycle_phase CycleData.sleep_score
             CycleData.mood_score CycleData.stress_level CycleData.pain_level
             CycleData.energy_level].
      repeat split; try assumption; lia. }
    rewrite consecutive_days_succ, datetime_add_days_0. cbn [map].
    f_equal; exact Hts.
Qed.

(** From an index outside the four phases the first day raises. *)
Lemma create_cycle_days_bad_index (days : nat) (user_id : string)
    (current_date : datetime) (idx dip : Z) (w : world) :
  (4 <= idx)%Z ->
  create_cycle_days (S days) user_id current_date idx dip w = (inl IndexError, w).
Proof.
  intro Hidx. cbn [create_cycle_days]. rewrite (py_index_out_of_range idx Hidx).
  reflexivity.
Qed.


Lemma relates_keeps (R : database -> database -> Prop) {A : Type} (m : M A) :
  (forall d, R d d) -> keeps_db m -> relates_db R m.
Proof.
  intros Hrefl Hm w r w' Hrun. rewrite (Hm w r w' Hrun). apply Hrefl.
Qed.

Lemma relates_bind (R : database -> database -> Prop) {A B : Type} (m : M A)
    (f : A -> M B) :
  (forall d1 d2 d3, R d1 d2 -> R d2 d3 -> R d1 d3) ->
  relates_db R m -> (forall a, relates_db R (f a)) -> relates_db R (bind m f).
Proof.
  intros Htrans Hm Hf w r w' Hrun.
  destruct (bind_run m f w w' r Hrun) as [(e & Hm1 & _) | (a & w1 & Hm1 & Hf1)].
  - exact (Hm w _ w' Hm1).
  - exact (Htrans _ _ _ (Hm w _ w1 Hm1) (Hf a w1 r w' Hf1)).
Qed.

Lemma relates_for_each (R : database -> database -> Prop) {A B : Type} (l : list A)
    (f : A -> M B) :
  (forall d, R d d) ->
  (forall d1 d2 d3, R d1 d2 -> R d2 d3 -> R d1 d3) ->
  (forall a, relates_db R (f a)) -> relates_db R (for_each l f).
Proof.
  intros Hrefl Htrans Hf. induction l as [| a l IH]; cbn [for_each].
  - apply relates_keeps; [exact Hrefl | apply keeps_ret].
  - apply relates_bind; [exact Htrans | apply Hf |]. intro y.
    apply relates_bind; [exact Htrans | exact IH |]. intro ys.
    apply relates_keeps; [exact Hrefl | apply keeps_ret].
Qed.

Lemma relates_transaction (R : database -> database -> Prop) {A : Type} (body : M A) :
  (forall d, R d d) -> relates_db R body -> relates_db R (transaction body).
Proof.
  intros Hrefl Hbody w r w' Hrun.
  destruct (transaction_run body w w' r Hrun) as (w1 & Hrun1 & Hw').
  destruct r as [e | a]; subst w'.
  - cbn [db]. apply Hrefl.
  - exact (Hbody w _ w1 Hrun1).
Qed.

Lemma keeps_table_keeps {X A : Type} (g : database -> X) (m : M A) :
  keeps_db m -> keeps_table g m.
Proof. intro Hm. apply relates_keeps; [reflexivity | exact Hm]. Qed.

Lemma keeps_table_bind {X A B : Type} (g : database -> X) (m : M A) (f : A -> M B) :
  keeps_table g m -> (forall a, keeps_table g (f a)) -> keeps_table g (bind m f).
Proof.
  apply relates_bind. intros d1 d2 d3 H12 H23. now rewrite H23.
Qed.

Lemma keeps_table_for_each {X A B : Type} (g : database -> X) (l : list A)
    (f : A -> M B) :
  (forall a, keeps_table g (f a)) -> keeps_table g (for_each l f).
Proof.
  apply relates_for_each; [reflexivity |]. intros d1 d2 d3 H12 H23. now rewrite H23.
Qed.

Lemma keeps_table_transaction {X A : Type} (g : database -> X) (body : M A) :
  keeps_table g body -> keeps_table g (transaction body).
Proof. apply relates_transaction. reflexivity. Qed.

Lemma keeps_table_snd {X A : Type} (g : database -> X) (m : M A) (w : world) :
  keeps_table g m -> g (db (snd (m w))) = g (db w).
Proof.
  intro Hm. destruct (m w) as [r w'] eqn:Hrun. exact (Hm w r w' Hrun).
Qed.

Lemma keeps_random_randint (a b : Z) : keeps_db (random_randint a b).
Proof.
  intros w r w'. unfold random_randint.
  destruct (a <=? b)%Z.
  - destruct (rng_randbelow (Z.to_nat (b - a + 1)) (gen w)) as [i g].
    now intros [= <- <-].
  - now intros [= <- <-].
Qed.

Lemma keeps_subscript {A : Type} (d : list (string * A)) (key : string) :
  keeps_db (subscript d key).
Proof. apply keeps_from_option. Qed.

Lemma keeps_sample_score (scores : list (string * Z)) (key : string) :
  keeps_db (sample_score scores key).
Proof.
  unfold sample_score. apply keeps_bind; [apply keeps_subscript |]. intro base.
  apply keeps_bind; [apply keeps_random_randint |]. intro v. apply keeps_ret.
Qed.

(** The loop over the days writes to the observations only. *)
Lemma keeps_table_create_cycle_days {X : Type} (g : database -> X) :
  (forall d rows, g (with_cycle_data d rows) = g d) ->
  forall (days : nat) (user_id : string) (current_date : datetime) (idx dip : Z),
    keeps_table g (create_cycle_days days user_id current_date idx dip).
Proof.
  intros Hg days user_id. induction days as [| days IH]; intros current_date idx dip;
    cbn [create_cycle_days].
  - apply keeps_table_keeps, keeps_ret.
  - apply keeps_table_bind; [apply keeps_table_keeps, keeps_from_option |]. intro phase.
    apply keeps_table_bind; [apply keeps_table_keeps, keeps_subscript |]. intro scores.
    do 5 (apply keeps_table_bind; [apply keeps_table_keeps, keeps_sample_score |]; intro).
    apply keeps_table_bind.
    { intros w r w'. unfold db_add_cycle_data, modify. intros [= <- <-].
      cbn [db]. apply Hg. }
    intros _.
    apply keeps_table_bind; [apply keeps_table_keeps, keeps_subscript |]. intro duration.
    destruct (duration <=? dip + 1)%Z; apply IH.
Qed.

Lemma keeps_table_create_cycle_data {X : Type} (g : database -> X)
    (users : list User.t) (days_of_data : Z) (now : nat -> datetime) :
  (forall d rows, g (with_cycle_data d rows) = g d) ->
  keeps_table g (create_cycle_data users days_of_data now).
Proof.
  intro Hg. unfold create_cycle_data. apply keeps_table_transaction.
  apply keeps_table_bind; [| intro; apply keeps_table_keeps, keeps_ret].
  apply keeps_table_for_each. intro item.
  apply keeps_table_bind; [apply keeps_table_keeps, keeps_random_randint |]. intro idx.
  apply keeps_table_create_cycle_days. exact Hg.
Qed.

(** The rows a loop adds to a table are those its turns add, in turn. *)
Lemma for_each_blocks {X A B : Type} (tbl : database -> list X) (f : A -> M B)
    (R : A -> list X -> Prop) :
  (forall a w r w', f a w = (r, w') ->
     exists rows, tbl (db w') = tbl (db w) ++ rows
                  /\ (forall y, r = inr y -> R a rows)) ->
  forall (l : list A) (w w' : world) (r : exn + list B),
    for_each l f w = (r, w') ->
    exists blocks, tbl (db w') = tbl (db w) ++ List.concat blocks
                   /\ (forall ys, r = inr ys -> Forall2 R l blocks).
Proof.
  intros Hf. induction l as [| a l IH]; intros w w' r; cbn [for_each].
  - intros [= <- <-]. exists []. cbn [List.concat]. rewrite app_nil_r.
    split; [reflexivity | constructor].
  - intro Hrun.
    destruct (bind_run _ _ w w' r Hrun) as [(e & Hfa & ->) | (y & w1 & Hfa & Hrest)].
    + destruct (Hf a w _ w' Hfa) as (rows & Htbl & _).
      exists [rows]. cbn [List.concat]. rewrite app_nil_r.
      split; [exact Htbl | discriminate].
    + destruct (Hf a w _ w1 Hfa) as (rows & Htbl & Hrows).
      destruct (bind_run _ _ w1 w' r Hrest) as [(e & Hl & ->) | (ys & w2 & Hl & Hret)].
      * destruct (IH w1 w' _ Hl) as (blocks & Htbl' & _).
        exists (rows :: blocks). cbn [List.concat].
        split; [rewrite Htbl', Htbl, <- app_assoc; reflexivity | discriminate].
      * destruct (IH w1 w2 _ Hl) as (blocks & Htbl' & Hblocks).
        injection Hret as <- <-.
        exists (rows :: blocks). cbn [List.concat].
        split; [rewrite Htbl', Htbl, <- app_assoc; reflexivity |].
        intros ? _. constructor; [apply (Hrows y); reflexivity |].
        apply (Hblocks ys); reflexivity.
Qed.

Lemma for_each_succeeds {A B : Type} (f : A -> M B) :
  (forall a w, exists y w', f a w = (inr y, w')) ->
  forall (l : list A) (w : world), exists ys w', for_each l f w = (inr ys, w').
Proof.
  intros Hf. induction l as [| a l IH]; intro w; cbn [for_each].
  - exists [], w. reflexivity.
  - destruct (Hf a w) as (y & w1 & Hfa). destruct (IH w1) as (ys & w2 & Hl).
    exists (y :: ys), w2.
    rewrite (bind_inr _ _ _ _ _ Hfa), (bind_inr _ _ _ _ _ Hl). reflexivity.
Qed.

Lemma transaction_inr {A : Type} (body : M A) (w w' : world) (a : A) :
  body w = (inr a, w') -> transaction body w = (inr a, w').
Proof. intro Hrun. unfold transaction. now rewrite Hrun. Qed.

(** The rows of one user: a block of [days_of_data] sample rows dated on the
    consecutive days that end the day before the clock reading. *)
Lemma create_cycle_data_user_block (days_of_data : Z) (now : nat -> datetime)
    (item : nat * User.t) (w w' : world) (r : exn + unit) :
  (current_phase_idx <- random_randint 0 3 ;;
   create_cycle_days (Z.to_nat days_of_data) (User.user_id (snd item))
     (datetime_add_days (now (fst item)) (- days_of_data)) current_phase_idx 0%Z) w
  = (r, w') ->
  exists rows,
    cycle_data (db w') = cycle_data (db w) ++ rows
    /\ (forall y, r = inr y ->
          Forall (sample_cycle_row (User.user_id (snd item))) rows
          /\ map CycleData.timestamp rows
             = consecutive_days (datetime_add_days (now (fst item)) (- days_of_data))
                 (Z.to_nat days_of_data)).
Proof.
  rewrite (bind_inr _ _ _ _ _ (random_randint_run 0 3 w ltac:(lia))).
  set (i := fst (rng_randbelow (Z.to_nat (3 - 0 + 1)) (gen w))).
  set (w1 := {| db := db w; gen := snd (rng_randbelow (Z.to_nat (3 - 0 + 1)) (gen w)) |}).
  destruct (Z.lt_ge_cases (0 + Z.of_nat i) 4) as [Hlt | Hge].
  - destruct (create_cycle_days_run (Z.to_nat days_of_data) (User.user_id (snd item))
                (datetime_add_days (now (fst item)) (- days_of_data))
                (0 + Z.of_nat i)%Z 0%Z w1 ltac:(lia))
      as (rows & w2 & Hrun & Hcd & _ & _ & _ & Hrows & Hts).
    rewrite Hrun. intros [= <- <-]. exists rows.
    split; [exact Hcd |]. intros _ _. split; assumption.
  - destruct (Z.to_nat days_of_data) as [| days].
    + cbn [create_cycle_days ret]. intros [= <- <-]. exists [].
      rewrite app_nil_r. split; [reflexivity |]. intros _ _. split; constructor.
    + rewrite (create_cycle_days_bad_index _ _ _ _ _ _ Hge). intros [= <- <-].
      exists []. rewrite app_nil_r. split; [reflexivity | discriminate].
Qed.

Lemma create_cycle_data_blocks (users : list User.t) (days_of_data : Z)
    (now : nat -> datetime) (w w' : world) :
  create_cycle_data users days_of_data now w = (inr tt, w') ->
  exists blocks,
    cycle_data (db w') = cycle_data (db w) ++ List.concat blocks
    /\ Forall2
         (fun item rows =>
            Forall (sample_cycle_row (User.user_id (snd item))) rows
            /\ map CycleData.timestamp rows
               = consecutive_days (datetime_add_days (now (fst item)) (- days_of_data))
                   (Z.to_nat days_of_data))
         (numbered users) blocks.
Proof.
  intro Hrun. unfold create_cycle_data in Hrun.
  destruct (transaction_run _ w w' _ Hrun) as (w1 & Hbody & ->).
  destruct (bind_run _ _ w w1 _ Hbody) as [(e & _ & He) | (ys & w2 & Hloop & Hret)];
    [discriminate He |].
  injection Hret as <-.
  destruct (for_each_blocks cycle_data _ _
              (fun a v r v' => create_cycle_data_user_block days_of_data now a v v' r)
              (numbered users) w w2 _ Hloop) as (blocks & Hcd & Hblocks).
  exists blocks. split; [exact Hcd |]. apply (Hblocks ys). reflexivity.
Qed.

(** X24. Whatever the random generator returns, [create_cycle_data] writes
    to the observations only, and all or nothing: when it raises, no row
    is added; when it returns, it has appended one block of rows per user
    of the list, in the order of the list, each row carrying that user's
    id, one of the four phases and five scores between 1 and 10, the rows
    of a block being dated on the consecutive days that end the day before
    the clock reading. *)
Theorem create_cycle_data_rows (users : list User.t) (days_of_data : Z)
    (now : nat -> datetime) (w : world) :
  let w' := snd (create_cycle_data users days_of_data now w) in
  q_tables (db w') = q_tables (db w)
  /\ q_table_history (db w') = q_table_history (db w)
  /\ notifications (db w') = notifications (db w)
  /\ match fst (create_cycle_data users days_of_data now w) with
     | inl _ => cycle_data (db w') = cycle_data (db w)
     | inr _ =>
         exists blocks,
           cycle_data (db w') = cycle_data (db w) ++ List.concat blocks
           /\ Forall2
                (fun item rows =>
                   Forall (sample_cycle_row (User.user_id (snd item))) rows
                   /\ map CycleData.timestamp rows
                      = consecutive_days
                          (datetime_add_days (now (fst item)) (- days_of_data))
                          (Z.to_nat days_of_data))
                (numbered users) blocks
     end.
Proof.
  cbv zeta.
  split; [apply keeps_table_snd, keeps_table_create_cycle_data; reflexivity |].
  split; [apply keeps_table_snd, keeps_table_create_cycle_data; reflexivity |].
  split; [apply keeps_table_snd, keeps_table_create_cycle_data; reflexivity |].
  destruct (create_cycle_data users days_of_data now w) as [[e | []] w'] eqn:Hrun;
    cbn [fst snd].
  - unfold create_cycle_data in Hrun.
    destruct (transaction_run _ w w' _ Hrun) as (w1 & _ & ->). reflexivity.
  - exact (create_cycle_data_blocks users days_of_data now w w' Hrun).
Qed.


Lemma numbered_from_in {A : Type} (l : list A) (x : A) :
  forall start, In x l -> exists k, In (k, x) (combine (seq start (List.length l)) l).
Proof.
  induction l as [| y l IH]; intros start; cbn [In List.length seq combine];
    [intros [] |].
  intros [-> | Hx]; [exists start; now left |].
  destruct (IH (S start) Hx) as (k & Hk). exists k. now right.
Qed.

Lemma length_numbered {A : Type} (l : list A) : List.length (numbered l) = List.length l.
Proof. unfold numbered. rewrite length_combine, length_seq. apply Nat.min_id. Qed.

Lemma length_concat_blocks {A X : Type} (R : A -> list X -> Prop) (n : nat)
    (l : list A) (blocks : list (list X)) :
  (forall a rows, R a rows -> List.length rows = n) ->
  Forall2 R l blocks ->
  List.length (List.concat blocks) = (List.length l * n)%nat.
Proof.
  intros Hlen. induction 1 as [| a rows l blocks Hrows _ IH]; [reflexivity |].
  cbn [List.concat List.length]. rewrite length_app, IH, (Hlen a rows Hrows).
  reflexivity.
Qed.

Lemma length_consecutive_days (start : datetime) (days : nat) :
  List.length (consecutive_days start days) = days.
Proof. unfold consecutive_days. now rewrite length_map, length_seq. Qed.

Lemma create_cycle_data_succeeds (users : list User.t) (days_of_data : Z)
    (now : nat -> datetime) (w : world) :
  (forall n g, (fst (rng_randbelow (S n) g) < S n)%nat) ->
  exists w', create_cycle_data users days_of_data now w = (inr tt, w').
Proof.
  intro Hrange. unfold create_cycle_data.
  destruct (for_each_succeeds
              (fun item : nat * User.t =>
                 current_phase_idx <- random_randint 0 3 ;;
                 create_cycle_days (Z.to_nat days_of_data) (User.user_id (snd item))
                   (datetime_add_days (now (fst item)) (- days_of_data))
                   current_phase_idx 0%Z)) with (l := numbered users) (w := w)
    as (ys & w' & Hloop).
  - intros item v.
    rewrite (bind_inr _ _ _ _ _ (random_randint_run 0 3 v ltac:(lia))).
    change (Z.to_nat (3 - 0 + 1)) with 4%nat.
    pose proof (Hrange 3%nat (gen v)) as Hi.
    destruct (create_cycle_days_run (Z.to_nat days_of_data) (User.user_id (snd item))
                (datetime_add_days (now (fst item)) (- days_of_data))
                (0 + Z.of_nat (fst (rng_randbelow 4 (gen v))))%Z 0%Z
                {| db := db v; gen := snd (rng_randbelow 4 (gen v)) |} ltac:(lia))
      as (rows & v' & Hrun & _).
    exists tt, v'. exact Hrun.
  - exists w'. apply transaction_inr. rewrite (bind_inr _ _ _ _ _ Hloop). reflexivity.
Qed.

(** After a run over a positive number of days every user of the list has
    a latest observation, an earlier one or a sample row. *)
Lemma create_cycle_data_latest (users : list User.t) (days_of_data : Z)
    (now : nat -> datetime) (w w' : world) (user : User.t) :
  create_cycle_data users days_of_data now w = (inr tt, w') ->
  (0 < days_of_data)%Z ->
  In user users ->
  exists o,
    latest_cycle_data (User.user_id user) (db w') = Some o
    /\ In o (cycle_data (db w'))
    /\ (In o (cycle_data (db w)) \/ sample_cycle_row (User.user_id user) o).
Proof.
  intros Hrun Hdays Huser.
  destruct (create_cycle_data_blocks users days_of_data now w w' Hrun)
    as (blocks & Hcd & Hblocks).
  destruct (numbered_from_in users user 0%nat Huser) as (k & Hk).
  destruct (Forall2_In_left _ _ _ _ Hblocks Hk) as (rows & Hrows & Hsample & Hts).
  cbn [fst snd] in Hsample, Hts.
  assert (Hlen : List.length rows = Z.to_nat days_of_data).
  { rewrite <- (length_map CycleData.timestamp), Hts. apply length_consecutive_days. }
  destruct rows as [| r rows']; [cbn in Hlen; lia |].
  assert (Hr : In r (cycle_data (db w'))).
  { rewrite Hcd. apply in_or_app. right. apply in_concat. exists (r :: rows').
    split; [exact Hrows | now left]. }
  pose proof (Forall_inv Hsample) as Hrow.
  destruct (latest_cycle_data (User.user_id user) (db w')) as [o |] eqn:Hlatest.
  - exists o. split; [reflexivity |]. unfold latest_cycle_data in Hlatest.
    destruct (latest_some _ _ Hlatest) as (Ho & _).
    apply filter_In in Ho. destruct Ho as (Ho & Huid).
    apply String.eqb_eq in Huid.
    split; [exact Ho |].
    rewrite Hcd in Ho. apply in_app_or in Ho. destruct Ho as [Ho | Ho]; [now left |].
    right. apply in_concat in Ho. destruct Ho as (block & Hblock & Ho).
    destruct (Forall2_In_right _ _ _ _ Hblocks Hblock) as (item & _ & Hitem & _).
    rewrite Forall_forall in Hitem. destruct (Hitem o Ho) as (_ & Hrest).
    split; [exact Huid | exact Hrest].
  - exfalso. unfold latest_cycle_data in Hlatest. apply latest_none in Hlatest.
    assert (Hin : In r (filter (fun x => String.eqb (CycleData.user_id x)
                                           (User.user_id user)) (cycle_data (db w')))).
    { apply filter_In. split; [exact Hr |]. apply String.eqb_eq. apply Hrow. }
    rewrite Hlatest in Hin. exact Hin.
Qed.

Lemma create_cycle_data_length (users : list User.t) (days_of_data : Z)
    (now : nat -> datetime) (w w' : world) :
  create_cycle_data users days_of_data now w = (inr tt, w') ->
  List.length (cycle_data (db w'))
  = (List.length (cycle_data (db w)) + List.length users * Z.to_nat days_of_data)%nat.
Proof.
  intro Hrun.
  destruct (create_cycle_data_blocks users days_of_data now w w' Hrun)
    as (blocks & Hcd & Hblocks).
  rewrite Hcd, length_app. f_equal.
  rewrite <- (length_numbered users).
  apply (length_concat_blocks _ (Z.to_nat days_of_data) _ _) with (2 := Hblocks).
  intros item rows [_ Hts].
  rewrite <- (length_map CycleData.timestamp), Hts. apply length_consecutive_days.
Qed.

(** X25. With index draws in range and a positive number of days,
    [create_cycle_data] returns, having added exactly [days_of_data] rows
    per user of the list; afterwards every user of the list has a state:
    [get_current_state] returns the key of one of the user's observations,
    an earlier one or a sample row with its scores between 1 and 10. *)
Theorem create_cycle_data_seeds_state (users : list User.t) (days_of_data : Z)
    (now : nat -> datetime) (w : world) :
  (forall n g, (fst (rng_randbelow (S n) g) < S n)%nat) ->
  (0 < days_of_data)%Z ->
  exists w',
    create_cycle_data users days_of_data now w = (inr tt, w')
    /\ List.length (cycle_data (db w'))
       = (List.length (cycle_data (db w))
          + List.length users * Z.to_nat days_of_data)%nat
    /\ forall user later, In user users ->
         exists o,
           In o (cycle_data (db w'))
           /\ (In o (cycle_data (db w)) \/ sample_cycle_row (User.user_id user) o)
           /\ get_current_state (Environment.init (User.user_id user)) later w'
              = (inr (Some (state_key (CycleData.cycle_phase o) (CycleData.sleep_score o)
                              (CycleData.mood_score o) (CycleData.stress_level o)
                              (CycleData.pain_level o) (time_of_day (dt_hour later))
                              (CycleData.energy_level o))), w').
Proof.
  intros Hrange Hdays.
  destruct (create_cycle_data_succeeds users days_of_data now w Hrange) as (w' & Hrun).
  exists w'. split; [exact Hrun |].
  split; [exact (create_cycle_data_length users days_of_data now w w' Hrun) |].
  intros user later Huser.
  destruct (create_cycle_data_latest users days_of_data now w w' user Hrun Hdays Huser)
    as (o & Hlatest & Ho & Horigin).
  exists o. split; [exact Ho |]. split; [exact Horigin |].
  apply (get_current_state_found (Environment.init (User.user_id user)) later w' o).
  exact Hlatest.
Qed.


Lemma for_each_succeeds_in {A B : Type} (f : A -> M B) (l : list A) :
  (forall a w, In a l -> exists y w', f a w = (inr y, w')) ->
  forall w : world, exists ys w', for_each l f w = (inr ys, w').
Proof.
  induction l as [| a l IH]; intros Hf w; cbn [for_each].
  - exists [], w. reflexivity.
  - destruct (Hf a w (or_introl eq_refl)) as (y & w1 & Hfa).
    destruct (IH (fun a' v Ha' => Hf a' v (or_intror Ha')) w1) as (ys & w2 & Hl).
    exists (y :: ys), w2.
    rewrite (bind_inr _ _ _ _ _ Hfa), (bind_inr _ _ _ _ _ Hl). reflexivity.
Qed.

Lemma blocks_map_forall {A X K : Type} (key : X -> K) (P : X -> Prop)
    (F : A -> list K) (l : list A) (blocks : list (list X)) :
  Forall2 (fun a rows => map key rows = F a /\ Forall P rows) l blocks ->
  map key (List.concat blocks) = flat_map F l /\ Forall P (List.concat blocks).
Proof.
  induction 1 as [| a rows l blocks [Hkey HP] _ [IHkey IHP]];
    cbn [List.concat flat_map map]; [split; [reflexivity | constructor] |].
  split; [rewrite map_app, Hkey, IHkey; reflexivity |].
  apply Forall_app. split; assumption.
Qed.

Lemma flat_map_singleton {A K : Type} (t : A -> K) (l : list A) :
  flat_map (fun a => [t a]) l = map t l.
Proof. induction l as [| a l IH]; cbn [flat_map map app]; [| rewrite IH]; reflexivity. Qed.

(** Neither level of [base_q_values] misses a phase or an action, and the
    base values lie between 0.2 and 0.6. *)
Lemma base_q_values_total (phase action : string) :
  In phase cycle_phases -> In action sample_actions ->
  exists by_action base,
    assoc_get phase base_q_values = Some by_action
    /\ assoc_get action by_action = Some base
    /\ (2 # 10 <= base)%Q /\ (base <= 6 # 10)%Q.
Proof.
  intros [<- | [<- | [<- | [<- | []]]]]
         [<- | [<- | [<- | [<- | [<- | [<- | []]]]]]];
    do 2 eexists; (split; [reflexivity |]); (split; [reflexivity |]);
    split; unfold Qle; cbn; lia.
Qed.

Lemma base_q_values_range (phase action : string) (by_action : list (string * Q))
    (base : Q) :
  assoc_get phase base_q_values = Some by_action ->
  assoc_get action by_action = Some base ->
  (2 # 10 <= base)%Q /\ (base <= 6 # 10)%Q.
Proof.
  intros Hphase Haction.
  apply assoc_get_some_in in Hphase. apply assoc_get_some_in in Haction.
  cbn [base_q_values In] in Hphase.
  destruct Hphase as [[= <- <-] | [[= <- <-] | [[= <- <-] | [[= <- <-] | []]]]];
    cbn [In] in Haction;
    destruct Haction as [[= <- <-] | [[= <- <-] | [[= <- <-] | [[= <- <-]
                          | [[= <- <-] | [[= <- <-] | []]]]]]];
    split; unfold Qle; cbn; lia.
Qed.

(** One turn of the innermost loop of [initialize_q_tables]. *)
Lemma initialize_q_tables_action (user_id phase action : string) (w w' : world)
    (r : exn + unit) :
  (by_action <- subscript base_q_values phase ;;
   base <- subscript by_action action ;;
   variation <- random_uniform (- (1 # 10)) (1 # 10) ;;
   db_add_q (QTable.mk user_id (sample_state phase) action (base + variation)%Q)) w
  = (r, w') ->
  exists rows,
    q_tables (db w') = q_tables (db w) ++ rows
    /\ (forall y, r = inr y ->
          map q_triple rows = [(user_id, sample_state phase, action)]
          /\ Forall seeded_row rows).
Proof.
  unfold subscript.
  destruct (assoc_get phase base_q_values) as [by_action |] eqn:Hphase; cbn [from_option].
  2:{ intros [= <- <-]. exists []. rewrite app_nil_r. split; [reflexivity | discriminate]. }
  unfold bind at 1. cbn [ret].
  destruct (assoc_get action by_action) as [base |] eqn:Haction; cbn [from_option].
  2:{ intros [= <- <-]. exists []. rewrite app_nil_r. split; [reflexivity | discriminate]. }
  unfold bind at 1. cbn [ret].
  unfold bind, random_uniform, random, db_add_q, modify, bind, ret.
  destruct (rng_random (gen w)) as [x g] eqn:Hdraw. cbn [db gen].
  intros [= <- <-]. cbn [db q_tables with_q_tables].
  eexists. split; [reflexivity |]. intros _ _.
  split; [reflexivity |]. constructor; [| constructor].
  exists phase, by_action, base, (gen w).
  cbn [QTable.action QTable.state QTable.q_value]. unfold fresh_q. rewrite Hdraw.
  cbn [fst]. repeat split; assumption.
Qed.

Lemma initialize_q_tables_action_succeeds (user_id phase action : string) (w : world) :
  In phase cycle_phases -> In action sample_actions ->
  exists y w',
    (by_action <- subscript base_q_values phase ;;
     base <- subscript by_action action ;;
     variation <- random_uniform (- (1 # 10)) (1 # 10) ;;
     db_add_q (QTable.mk user_id (sample_state phase) action (base + variation)%Q)) w
    = (inr y, w').
Proof.
  intros Hphase Haction.
  destruct (base_q_values_total phase action Hphase Haction)
    as (by_action & base & Hby & Hbase & _).
  unfold subscript. rewrite Hby. cbn [from_option]. unfold bind at 1. cbn [ret].
  rewrite Hbase. cbn [from_option]. unfold bind at 1. cbn [ret].
  unfold bind, random_uniform, random, db_add_q, modify, bind, ret.
  destruct (rng_random (gen w)) as [x g]. eexists _, _. reflexivity.
Qed.

(** The rows of one user. *)
Lemma initialize_q_tables_user (user : User.t) (w w' : world)
    (r : exn + list (list unit)) :
  for_each cycle_phases
    (fun phase =>
       let state := sample_state phase in
       for_each sample_actions
         (fun action =>
            by_action <- subscript base_q_values phase ;;
            base <- subscript by_action action ;;
            variation <- random_uniform (- (1 # 10)) (1 # 10) ;;
            db_add_q (QTable.mk (User.user_id user) state action
                        (base + variation)%Q))) w
  = (r, w') ->
  exists rows,
    q_tables (db w') = q_tables (db w) ++ rows
    /\ (forall y, r = inr y ->
          map q_triple rows
          = flat_map
              (fun phase =>
                 map (fun action => (User.user_id user, sample_state phase, action))
                   sample_actions)
              cycle_phases
          /\ Forall seeded_row rows).
Proof.
  intro Hrun.
  apply (for_each_blocks q_tables) with
    (R := fun phase rows =>
            map q_triple rows
            = map (fun action => (User.user_id user, sample_state phase, action))
                sample_actions
            /\ Forall seeded_row rows) in Hrun.
  2:{ intros phase v r1 v' Hphase. cbv zeta in Hphase.
    destruct (for_each_blocks q_tables _
                (fun action rows =>
                   map q_triple rows = [(User.user_id user, sample_state phase, action)]
                   /\ Forall seeded_row rows)
                (fun a v1 r2 v2 =>
                   initialize_q_tables_action (User.user_id user) phase a v1 v2 r2)
                sample_actions v v' r1 Hphase)
      as (blocks & Hq & Hblocks).
    exists (List.concat blocks). split; [exact Hq |]. intros y ->.
    destruct (blocks_map_forall _ _ _ _ _ (Hblocks y eq_refl)) as (Hkey & Hseeded).
    split; [rewrite Hkey; apply flat_map_singleton | exact Hseeded]. }
  destruct Hrun as (blocks & Hq & Hblocks).
  exists (List.concat blocks). split; [exact Hq |]. intros y ->.
  exact (blocks_map_forall _ _ _ _ _ (Hblocks y eq_refl)).
Qed.

Lemma initialize_q_tables_user_succeeds (user : User.t) (w : world) :
  exists y w',
    for_each cycle_phases
      (fun phase =>
         let state := sample_state phase in
         for_each sample_actions
           (fun action =>
              by_action <- subscript base_q_values phase ;;
              base <- subscript by_action action ;;
              variation <- random_uniform (- (1 # 10)) (1 # 10) ;;
              db_add_q (QTable.mk (User.user_id user) state action
                          (base + variation)%Q))) w
    = (inr y, w').
Proof.
  apply for_each_succeeds_in. intros phase v Hphase. cbv zeta.
  apply for_each_succeeds_in. intros action v1 Haction.
  now apply initialize_q_tables_action_succeeds.
Qed.

Lemma initialize_q_tables_run (users : list User.t) (w : world) :
  exists w' added,
    initialize_q_tables users w = (inr tt, w')
    /\ q_tables (db w') = q_tables (db w) ++ added
    /\ map q_triple added = sample_triples users
    /\ Forall seeded_row added.
Proof.
  unfold initialize_q_tables.
  destruct (for_each_succeeds_in _ users
              (fun user v _ => initialize_q_tables_user_succeeds user v) w)
    as (ys & w' & Hloop).
  destruct (for_each_blocks q_tables _ _
              (fun user v r v' => initialize_q_tables_user user v v' r)
              users w w' _ Hloop) as (blocks & Hq & Hblocks).
  destruct (blocks_map_forall _ _ _ _ _ (Hblocks ys eq_refl)) as (Hkey & Hseeded).
  exists w', (List.concat blocks).
  split; [apply transaction_inr; rewrite (bind_inr _ _ _ _ _ Hloop); reflexivity |].
  split; [exact Hq |]. split; assumption.
Qed.

Lemma q_grows_app (d : database) (rows : list QTable.t) :
  q_grows d (with_q_tables d (q_tables d ++ rows)).
Proof.
  revert d. induction rows as [| row rows IH]; intro d.
  - rewrite app_nil_r. destruct d. apply q_grows_refl.
  - apply (q_grows_trans _ _ _ (q_grows_add d row)).
    replace (q_tables d ++ row :: rows) with ((q_tables d ++ [row]) ++ rows)
      by (rewrite <- app_assoc; reflexivity).
    exact (IH (with_q_tables d (q_tables d ++ [row]))).
Qed.

Lemma keeps_table_initialize_q_tables {X : Type} (g : database -> X)
    (users : list User.t) :
  (forall d rows, g (with_q_tables d rows) = g d) ->
  keeps_table g (initialize_q_tables users).
Proof.
  intro Hg. unfold initialize_q_tables. apply keeps_table_transaction.
  apply keeps_table_bind; [| intro; apply keeps_table_keeps, keeps_ret].
  apply keeps_table_for_each. intro user.
  apply keeps_table_for_each. intro phase. cbv zeta.
  apply keeps_table_for_each. intro action.
  apply keeps_table_bind; [apply keeps_table_keeps, keeps_subscript |]. intro by_action.
  apply keeps_table_bind; [apply keeps_table_keeps, keeps_subscript |]. intro base.
  apply keeps_table_bind.
  { apply keeps_table_keeps. unfold random_uniform.
    apply keeps_bind; [apply keeps_random | intro; apply keeps_ret]. }
  intro variation. intros w r w'. unfold db_add_q, modify. intros [= <- <-].
  cbn [db]. apply Hg.
Qed.

Lemma length_sample_triples (users : list User.t) :
  List.length (sample_triples users) = (24 * List.length users)%nat.
Proof.
  unfold sample_triples. induction users as [| user users IH]; [reflexivity |].
  cbn [flat_map]. rewrite length_app, IH. cbn [List.length cycle_phases flat_map].
  rewrite !length_app, !length_map. cbn [List.length sample_actions]. lia.
Qed.

(** X26. [initialize_q_tables] never raises and never overwrites: it
    appends 24 rows per user of the list, one per phase and action in the
    order of its loops, each in the sample state of its phase; every
    Q-value stored before reads back unchanged (a second run only adds
    rows that the first ones shadow) and no other table is touched. *)
Theorem initialize_q_tables_appends (users : list User.t) (w : world) :
  exists w' added,
    initialize_q_tables users w = (inr tt, w')
    /\ q_tables (db w') = q_tables (db w) ++ added
    /\ map q_triple added = sample_triples users
    /\ List.length added = (24 * List.length users)%nat
    /\ q_grows (db w) (db w').
Proof.
  destruct (initialize_q_tables_run users w) as (w' & added & Hrun & Hq & Hkey & _).
  exists w', added. split; [exact Hrun |]. split; [exact Hq |]. split; [exact Hkey |].
  split; [rewrite <- (length_map q_triple), Hkey; apply length_sample_triples |].
  assert (Hdb : db w' = with_q_tables (db w) (q_tables (db w) ++ added)).
  { pose proof (keeps_table_snd cycle_data _ w
                  (keeps_table_initialize_q_tables cycle_data users
                     (fun _ _ => eq_refl))) as Hcd.
    pose proof (keeps_table_snd q_table_history _ w
                  (keeps_table_initialize_q_tables q_table_history users
                     (fun _ _ => eq_refl))) as Hh.
    pose proof (keeps_table_snd notifications _ w
                  (keeps_table_initialize_q_tables notifications users
                     (fun _ _ => eq_refl))) as Hn.
    rewrite Hrun in Hcd, Hh, Hn. cbn [snd] in Hcd, Hh, Hn.
    destruct (db w') as [cd q h n]. cbn in Hcd, Hh, Hn, Hq. subst.
    unfold with_q_tables. reflexivity. }
  rewrite Hdb. apply q_grows_app.
Qed.


Lemma sample_state_injective (p1 p2 : string) :
  sample_state p1 = sample_state p2 -> p1 = p2.
Proof.
  unfold sample_state. intro Hkey. apply (f_equal flat_loads) in Hkey.
  rewrite !flat_loads_state_key in Hkey. unfold state_dict in Hkey.
  now injection Hkey.
Qed.

Lemma find_app_none {A : Type} (p : A -> bool) (l l' : list A) :
  find p l = None -> find p (l ++ l') = find p l'.
Proof.
  induction l as [| x l IH]; cbn [find app]; [reflexivity |].
  destruct (p x); [discriminate | exact IH].
Qed.

Lemma in_sample_triples (users : list User.t) (user : User.t) (phase action : string) :
  In user users -> In phase cycle_phases -> In action sample_actions ->
  In (User.user_id user, sample_state phase, action) (sample_triples users).
Proof.
  intros Huser Hphase Haction. unfold sample_triples.
  apply in_flat_map. exists user. split; [exact Huser |].
  apply in_flat_map. exists phase. split; [exact Hphase |].
  apply in_map_iff. exists action. split; [reflexivity | exact Haction].
Qed.

Lemma fresh_q_range (g : rng) :
  (0 <= fst (rng_random g))%Q -> (fst (rng_random g) < 1)%Q ->
  (- (1 # 10) <= fresh_q g)%Q /\ (fresh_q g <= 1 # 10)%Q.
Proof. unfold fresh_q. intros Hlo Hhi. split; lra. Qed.

(** X27. With draws of [random()] in [0, 1), a (user, sample state,
    action) triple that had no row before [initialize_q_tables] reads
    back afterwards as the base value of the phase and action plus or
    minus at most 0.1, hence between 0.1 and 0.7; the agent's next read of
    the triple returns that value without drawing or writing anything. *)
Theorem initialize_q_tables_seed_range (users : list User.t) (w : world)
    (user : User.t) (phase action : string) (alpha gamma epsilon : Q) :
  (forall g, (0 <= fst (rng_random g))%Q /\ (fst (rng_random g) < 1)%Q) ->
  In user users -> In phase cycle_phases -> In action sample_actions ->
  lookup_q (User.user_id user) (sample_state phase) action (db w) = None ->
  exists (by_action : list (string * Q)) (base v : Q) (w' : world),
    initialize_q_tables users w = (inr tt, w')
    /\ assoc_get phase base_q_values = Some by_action
    /\ assoc_get action by_action = Some base
    /\ lookup_q (User.user_id user) (sample_state phase) action (db w') = Some v
    /\ (base - (1 # 10) <= v)%Q /\ (v <= base + (1 # 10))%Q
    /\ (1 # 10 <= v)%Q /\ (v <= 7 # 10)%Q
    /\ get_q_value (Agent.mk (User.user_id user) six_actions alpha gamma epsilon)
         (sample_state phase) action w' = (inr v, w').
Proof.
  intros Hdraw Huser Hphase Haction Hnone.
  destruct (initialize_q_tables_run users w) as (w' & added & Hrun & Hq & Hkey & Hseeded).
  set (u := User.user_id user) in *. set (s := sample_state phase) in *.
  assert (Hfind : exists r, find (q_matches u s action) (q_tables (db w')) = Some r
                            /\ In r added /\ q_matches u s action r = true).
  { rewrite Hq, find_app_none.
    - destruct (find (q_matches u s action) added) as [r |] eqn:Hfound.
      + exists r. split; [reflexivity |]. exact (find_some _ _ Hfound).
      + exfalso.
        pose proof (in_sample_triples users user phase action Huser Hphase Haction) as Hin.
        rewrite <- Hkey in Hin. apply in_map_iff in Hin.
        destruct Hin as (r & Hr & Hrin).
        pose proof (find_none _ _ Hfound r Hrin) as Hno.
        destruct r as [ru rs ra rv]. unfold q_triple in Hr. cbn in Hr.
        injection Hr as -> -> ->. fold u s in Hno.
        rewrite q_matches_mk in Hno. discriminate Hno.
    - unfold lookup_q, first_q in Hnone.
      destruct (find (q_matches u s action) (q_tables (db w))); [discriminate | reflexivity]. }
  destruct Hfind as (r & Hfound & Hrin & Hmatch).
  apply q_matches_true in Hmatch. destruct Hmatch as (_ & Hstate & Hact).
  rewrite Forall_forall in Hseeded.
  destruct (Hseeded r Hrin) as (phase' & by_action & base & g & Hby & Hbase & Hs' & Hv).
  rewrite Hstate in Hs'. unfold s in Hs'. apply sample_state_injective in Hs'. subst phase'.
  rewrite Hact in Hbase.
  destruct (base_q_values_range phase action by_action base Hby Hbase) as (Hlo & Hhi).
  destruct (fresh_q_range g (proj1 (Hdraw g)) (proj2 (Hdraw g))) as (Hflo & Hfhi).
  assert (Hlookup : lookup_q u s action (db w') = Some (QTable.q_value r)).
  { unfold lookup_q, first_q. now rewrite Hfound. }
  exists by_action, base, (QTable.q_value r), w'.
  split; [exact Hrun |]. split; [exact Hby |]. split; [exact Hbase |].
  split; [exact Hlookup |].
  rewrite Hv.
  split; [lra |]. split; [lra |]. split; [lra |]. split; [lra |].
  rewrite <- Hv. apply get_q_value_hit. exact Hlookup.
Qed.


Lemma for_each_blocks_inv {X A B : Type} (tbl : database -> list X)
    (I : database -> Prop) (f : A -> M B) (R : A -> list X -> Prop) :
  (forall a w r w', I (db w) -> f a w = (r, w') ->
     I (db w')
     /\ exists rows, tbl (db w') = tbl (db w) ++ rows
                     /\ (forall y, r = inr y -> R a rows)) ->
  forall (l : list A) (w w' : world) (r : exn + list B),
    I (db w) ->
    for_each l f w = (r, w') ->
    exists blocks, tbl (db w') = tbl (db w) ++ List.concat blocks
                   /\ (forall ys, r = inr ys -> Forall2 R l blocks).
Proof.
  intros Hf. induction l as [| a l IH]; intros w w' r Hinv; cbn [for_each].
  - intros [= <- <-]. exists []. cbn [List.concat]. rewrite app_nil_r.
    split; [reflexivity | constructor].
  - intro Hrun.
    destruct (bind_run _ _ w w' r Hrun) as [(e & Hfa & ->) | (y & w1 & Hfa & Hrest)].
    + destruct (Hf a w _ w' Hinv Hfa) as (_ & rows & Htbl & _).
      exists [rows]. cbn [List.concat]. rewrite app_nil_r.
      split; [exact Htbl | discriminate].
    + destruct (Hf a w _ w1 Hinv Hfa) as (Hinv1 & rows & Htbl & Hrows).
      destruct (bind_run _ _ w1 w' r Hrest) as [(e & Hl & ->) | (ys & w2 & Hl & Hret)].
      * destruct (IH w1 w' _ Hinv1 Hl) as (blocks & Htbl' & _).
        exists (rows :: blocks). cbn [List.concat].
        split; [rewrite Htbl', Htbl, <- app_assoc; reflexivity | discriminate].
      * destruct (IH w1 w2 _ Hinv1 Hl) as (blocks & Htbl' & Hblocks).
        injection Hret as <- <-.
        exists (rows :: blocks). cbn [List.concat].
        split; [rewrite Htbl', Htbl, <- app_assoc; reflexivity |].
        intros ? _. constructor; [apply (Hrows y); reflexivity |].
        apply (Hblocks ys); reflexivity.
Qed.

Lemma keeps_random_uniform (a b : Q) : keeps_db (random_uniform a b).
Proof.
  unfold random_uniform. apply keeps_bind; [apply keeps_random | intro; apply keeps_ret].
Qed.

(** One turn of [for _ in range(3)]. *)
Lemma relates_sample_notification_turn (R : database -> database -> Prop)
    (user_id state : string) (now : Z -> datetime) :
  (forall d, R d d) ->
  (forall d n, Notification.id n = next_id (notifications d) ->
               R d (with_notifications d (notifications d ++ [n]))) ->
  relates_db R
    (action <- random_choice sample_actions ;;
     action_taken <- random_choice [0; 1]%Z ;;
     effectiveness <- random_uniform 5 9 ;;
     db_add_sample_notification user_id ("Sample notification for " ++ action)%string
       action state action_taken effectiveness now).
Proof.
  intros Hrefl Hadd w r w' Hrun.
  destruct (bind_run _ _ _ _ _ Hrun) as [(e & H1 & _) | (action & w1 & H1 & Hrun1)].
  { rewrite (keeps_random_choice _ _ _ _ H1). apply Hrefl. }
  destruct (bind_run _ _ _ _ _ Hrun1) as [(e & H2 & _) | (taken & w2 & H2 & Hrun2)].
  { rewrite (keeps_random_choice _ _ _ _ H2), (keeps_random_choice _ _ _ _ H1).
    apply Hrefl. }
  destruct (bind_run _ _ _ _ _ Hrun2) as [(e & H3 & _) | (eff & w3 & H3 & Hrun3)].
  { rewrite (keeps_random_uniform _ _ _ _ _ H3), (keeps_random_choice _ _ _ _ H2),
      (keeps_random_choice _ _ _ _ H1). apply Hrefl. }
  unfold db_add_sample_notification, modify in Hrun3. injection Hrun3 as <- <-.
  cbn [db].
  rewrite (keeps_random_uniform _ _ _ _ _ H3), (keeps_random_choice _ _ _ _ H2),
    (keeps_random_choice _ _ _ _ H1).
  apply Hadd. reflexivity.
Qed.

Lemma relates_create_sample_notifications (R : database -> database -> Prop)
    (users : list User.t) (now : Z -> datetime) :
  (forall d, R d d) ->
  (forall d1 d2 d3, R d1 d2 -> R d2 d3 -> R d1 d3) ->
  (forall d n, Notification.id n = next_id (notifications d) ->
               R d (with_notifications d (notifications d ++ [n]))) ->
  relates_db R (create_sample_notifications users now).
Proof.
  intros Hrefl Htrans Hadd. unfold create_sample_notifications.
  apply relates_transaction; [exact Hrefl |].
  apply relates_bind; [exact Htrans | | intro; apply relates_keeps;
                                        [exact Hrefl | apply keeps_ret]].
  apply relates_for_each; [exact Hrefl | exact Htrans |]. intro user.
  apply relates_bind; [exact Htrans | apply relates_keeps;
                                      [exact Hrefl | apply keeps_query] |].
  intros [o |]; [| apply relates_keeps; [exact Hrefl | apply keeps_ret]].
  cbv zeta.
  apply relates_bind; [exact Htrans | | intro; apply relates_keeps;
                                        [exact Hrefl | apply keeps_ret]].
  apply relates_for_each; [exact Hrefl | exact Htrans |]. intros _.
  apply relates_sample_notification_turn; assumption.
Qed.

Lemma NoDup_ids_add (d : database) (n : Notification.t) :
  Notification.id n = next_id (notifications d) ->
  NoDup (map Notification.id (notifications d)) ->
  NoDup (map Notification.id
           (notifications (with_notifications d (notifications d ++ [n])))).
Proof.
  intros Hid Hnodup. cbn [notifications with_notifications].
  rewrite map_app. cbn [map]. apply NoDup_app.
  - exact Hnodup.
  - constructor; [intros [] | constructor].
  - intros i Hi [<- | []]. apply in_map_iff in Hi.
    destruct Hi as (n0 & Hn0 & Hin). pose proof (next_id_above _ _ Hin). lia.
Qed.

Lemma sample_notification_turn (user_id : string) (o : CycleData.t)
    (now : Z -> datetime) (w w' : world) (r : exn + unit) :
  (forall g, (0 <= fst (rng_random g))%Q /\ (fst (rng_random g) < 1)%Q) ->
  (action <- random_choice sample_actions ;;
   action_taken <- random_choice [0; 1]%Z ;;
   effectiveness <- random_uniform 5 9 ;;
   db_add_sample_notification user_id ("Sample notification for " ++ action)%string
     action
     (state_key (CycleData.cycle_phase o) (CycleData.sleep_score o)
        (CycleData.mood_score o) (CycleData.stress_level o) (CycleData.pain_level o)
        "morning" (CycleData.energy_level o))
     action_taken effectiveness now) w = (r, w') ->
  exists rows,
    notifications (db w') = notifications (db w) ++ rows
    /\ (forall y, r = inr y ->
          map (fun _ : Notification.t => tt) rows = [tt]
          /\ Forall (sample_notification user_id o) rows).
Proof.
  intros Hdraw Hrun.
  destruct (bind_run _ _ _ _ _ Hrun) as [(e & H1 & ->) | (action & w1 & H1 & Hrun1)].
  { rewrite (keeps_random_choice _ _ _ _ H1). exists []. rewrite app_nil_r.
    split; [reflexivity | discriminate]. }
  destruct (bind_run _ _ _ _ _ Hrun1) as [(e & H2 & ->) | (taken & w2 & H2 & Hrun2)].
  { rewrite (keeps_random_choice _ _ _ _ H2), (keeps_random_choice _ _ _ _ H1).
    exists []. rewrite app_nil_r. split; [reflexivity | discriminate]. }
  pose proof (random_choice_member _ _ _ _ H1) as Haction.
  pose proof (random_choice_member _ _ _ _ H2) as Htaken.
  unfold random_uniform, random, bind, ret in Hrun2.
  pose proof (Hdraw (gen w2)) as [Hlo Hhi].
  destruct (rng_random (gen w2)) as [x g]. cbn [fst] in Hlo, Hhi.
  unfold db_add_sample_notification, modify in Hrun2. injection Hrun2 as <- <-.
  cbn [db notifications with_notifications].
  rewrite (keeps_random_choice _ _ _ _ H2), (keeps_random_choice _ _ _ _ H1).
  eexists. split; [reflexivity |]. intros _ _. split; [reflexivity |].
  constructor; [| constructor].
  unfold sample_notification.
  cbn [Notification.user_id Notification.action Notification.message Notification.state
         Notification.action_taken Notification.effectiveness].
  split; [reflexivity |]. split; [exact Haction |]. split; [reflexivity |].
  split; [reflexivity |].
  split; [cbn [In] in Htaken; destruct Htaken as [<- | [<- | []]]; auto |].
  split; lra.
Qed.

Lemma sample_notification_turn_succeeds (user_id state : string) (now : Z -> datetime)
    (w : world) :
  (forall n g, (fst (rng_randbelow (S n) g) < S n)%nat) ->
  exists y w',
    (action <- random_choice sample_actions ;;
     action_taken <- random_choice [0; 1]%Z ;;
     effectiveness <- random_uniform 5 9 ;;
     db_add_sample_notification user_id ("Sample notification for " ++ action)%string
       action state action_taken effectiveness now) w = (inr y, w').
Proof.
  intro Hrange.
  destruct (random_choice_succeeds sample_actions w Hrange ltac:(discriminate))
    as (action & w1 & H1 & _).
  destruct (random_choice_succeeds [0; 1]%Z w1 Hrange ltac:(discriminate))
    as (taken & w2 & H2 & _).
  rewrite (bind_inr _ _ _ _ _ H1), (bind_inr _ _ _ _ _ H2).
  unfold random_uniform, random, bind, ret, db_add_sample_notification, modify.
  destruct (rng_random (gen w2)) as [x g]. eexists _, _. reflexivity.
Qed.

(** The notifications of one user. *)
Lemma create_sample_notifications_user (user : User.t) (now : Z -> datetime)
    (cd0 : list CycleData.t) (w w' : world) (r : exn + unit) :
  (forall g, (0 <= fst (rng_random g))%Q /\ (fst (rng_random g) < 1)%Q) ->
  cycle_data (db w) = cd0 ->
  (cycle_data <- query (latest_cycle_data (User.user_id user)) ;;
   match cycle_data with
   | Some cycle_data =>
       let state :=
         state_key (CycleData.cycle_phase cycle_data)
           (CycleData.sleep_score cycle_data) (CycleData.mood_score cycle_data)
           (CycleData.stress_level cycle_data) (CycleData.pain_level cycle_data)
           "morning" (CycleData.energy_level cycle_data) in
       for_each (seq 0 3)
         (fun _ =>
            action <- random_choice sample_actions ;;
            action_taken <- random_choice [0; 1]%Z ;;
            effectiveness <- random_uniform 5 9 ;;
            db_add_sample_notification (User.user_id user)
              ("Sample notification for " ++ action)%string action state
              action_taken effectiveness now) ;;
       ret tt
   | None => ret tt
   end) w = (r, w') ->
  cycle_data (db w') = cd0
  /\ exists rows,
       notifications (db w') = notifications (db w) ++ rows
       /\ (forall y, r = inr y ->
             match latest (filter (fun x => String.eqb (CycleData.user_id x)
                                              (User.user_id user)) cd0) with
             | Some o => List.length rows = 3%nat
                         /\ Forall (sample_notification (User.user_id user) o) rows
             | None => rows = []
             end).
Proof.
  intros Hdraw Hcd Hrun.
  split.
  { rewrite <- Hcd. revert Hrun.
    apply (relates_bind (fun d d' => cycle_data d' = cycle_data d));
      [intros d1 d2 d3 H12 H23; now rewrite H23
      | apply relates_keeps; [reflexivity | apply keeps_query] |].
    intros [o |]; [| apply relates_keeps; [reflexivity | apply keeps_ret]].
    cbv zeta.
    apply relates_bind; [intros d1 d2 d3 H12 H23; now rewrite H23 |
                        | intro; apply relates_keeps; [reflexivity | apply keeps_ret]].
    apply relates_for_each; [reflexivity | intros d1 d2 d3 H12 H23; now rewrite H23 |].
    intros _. apply relates_sample_notification_turn; reflexivity. }
  unfold bind at 1, query in Hrun. unfold latest_cycle_data in Hrun at 1.
  rewrite Hcd in Hrun.
  destruct (latest (filter (fun x => String.eqb (CycleData.user_id x) (User.user_id user))
                      cd0)) as [o |].
  2:{ injection Hrun as <- <-. exists []. rewrite app_nil_r. split; reflexivity. }
  cbv zeta in Hrun.
  destruct (bind_run _ _ _ _ _ Hrun) as [(e & Hloop & ->) | (ys & w1 & Hloop & Hret)].
  - apply (for_each_blocks notifications) with
      (R := fun (_ : nat) rows =>
              map (fun _ : Notification.t => tt) rows = [tt]
              /\ Forall (sample_notification (User.user_id user) o) rows) in Hloop.
    2:{ intros _ v r1 v' Hturn.
        exact (sample_notification_turn (User.user_id user) o now v v' r1 Hdraw Hturn). }
    destruct Hloop as (blocks & Hn & _). exists (List.concat blocks).
    split; [exact Hn | discriminate].
  - injection Hret as <- <-.
    apply (for_each_blocks notifications) with
      (R := fun (_ : nat) rows =>
              map (fun _ : Notification.t => tt) rows = [tt]
              /\ Forall (sample_notification (User.user_id user) o) rows) in Hloop.
    2:{ intros _ v r1 v' Hturn.
        exact (sample_notification_turn (User.user_id user) o now v v' r1 Hdraw Hturn). }
    destruct Hloop as (blocks & Hn & Hblocks). exists (List.concat blocks).
    split; [exact Hn |]. intros _ _.
    destruct (blocks_map_forall _ _ _ _ _ (Hblocks ys eq_refl)) as (Hlen & Hrows).
    split; [| exact Hrows].
    apply (f_equal (@List.length unit)) in Hlen. rewrite length_map in Hlen.
    exact Hlen.
Qed.

Lemma create_sample_notifications_user_succeeds (user : User.t) (now : Z -> datetime)
    (w : world) :
  (forall n g, (fst (rng_randbelow (S n) g) < S n)%nat) ->
  exists y w',
    (cycle_data <- query (latest_cycle_data (User.user_id user)) ;;
     match cycle_data with
     | Some cycle_data =>
         let state :=
           state_key (CycleData.cycle_phase cycle_data)
             (CycleData.sleep_score cycle_data) (CycleData.mood_score cycle_data)
             (CycleData.stress_level cycle_data) (CycleData.pain_level cycle_data)
             "morning" (CycleData.energy_level cycle_data) in
         for_each (seq 0 3)
           (fun _ =>
              action <- random_choice sample_actions ;;
              action_taken <- random_choice [0; 1]%Z ;;
              effectiveness <- random_uniform 5 9 ;;
              db_add_sample_notification (User.user_id user)
                ("Sample notification for " ++ action)%string action state
                action_taken effectiveness now) ;;
         ret tt
     | None => ret tt
     end) w = (inr y, w').
Proof.
  intro Hrange. unfold bind at 1, query.
  destruct (latest_cycle_data (User.user_id user) (db w)) as [o |].
  2:{ exists tt, w. reflexivity. }
  cbv zeta.
  destruct (for_each_succeeds_in
              (fun _ : nat =>
                 action <- random_choice sample_actions ;;
                 action_taken <- random_choice [0; 1]%Z ;;
                 effectiveness <- random_uniform 5 9 ;;
                 db_add_sample_notification (User.user_id user)
                   ("Sample notification for " ++ action)%string action
                   (state_key (CycleData.cycle_phase o) (CycleData.sleep_score o)
                      (CycleData.mood_score o) (CycleData.stress_level o)
                      (CycleData.pain_level o) "morning" (CycleData.energy_level o))
                   action_taken effectiveness now)
              (seq 0 3)
              (fun _ v _ => sample_notification_turn_succeeds _ _ now v Hrange) w)
    as (ys & w' & Hloop).
  exists tt, w'. rewrite (bind_inr _ _ _ _ _ Hloop). reflexivity.
Qed.

Lemma create_sample_notifications_blocks (users : list User.t) (now : Z -> datetime)
    (w : world) :
  (forall n g, (fst (rng_randbelow (S n) g) < S n)%nat) ->
  (forall g, (0 <= fst (rng_random g))%Q /\ (fst (rng_random g) < 1)%Q) ->
  exists (w' : world) (blocks : list (list Notification.t)),
    create_sample_notifications users now w = (inr tt, w')
    /\ notifications (db w') = notifications (db w) ++ List.concat blocks
    /\ Forall2
         (fun user rows =>
            match latest_cycle_data (User.user_id user) (db w) with
            | Some o => List.length rows = 3%nat
                        /\ Forall (sample_notification (User.user_id user) o) rows
            | None => rows = []
            end)
         users blocks.
Proof.
  intros Hrange Hdraw.
  destruct (for_each_succeeds_in _ users
              (fun user v _ => create_sample_notifications_user_succeeds user now v Hrange)
              w) as (ys & w' & Hloop).
  destruct (for_each_blocks_inv notifications
              (fun d => cycle_data d = cycle_data (db w)) _ _
              (fun user v r v' Hinv Hbody =>
                 create_sample_notifications_user user now (cycle_data (db w)) v v' r
                   Hdraw Hinv Hbody)
              users w w' _ eq_refl Hloop) as (blocks & Hn & Hblocks).
  exists w', blocks. split; [| split; [exact Hn | exact (Hblocks ys eq_refl)]].
  unfold create_sample_notifications. apply transaction_inr.
  rewrite (bind_inr _ _ _ _ _ Hloop). reflexivity.
Qed.

(** X28. With index draws in range and draws of [random()] in [0, 1),
    [create_sample_notifications] returns, having appended, in the order
    of the list, three notifications for every user who has an
    observation and none for the others; each carries the user, one of
    the six actions and the message naming it, the key of the user's
    latest observation in the morning bucket, an [action_taken] of 0 or 1
    and an effectiveness between 5 and 9.  Notification ids stay distinct
    and no other table is touched. *)
Theorem create_sample_notifications_rows (users : list User.t) (now : Z -> datetime)
    (w : world) :
  (forall n g, (fst (rng_randbelow (S n) g) < S n)%nat) ->
  (forall g, (0 <= fst (rng_random g))%Q /\ (fst (rng_random g) < 1)%Q) ->
  exists (w' : world) (blocks : list (list Notification.t)),
    create_sample_notifications users now w = (inr tt, w')
    /\ notifications (db w') = notifications (db w) ++ List.concat blocks
    /\ Forall2
         (fun user rows =>
            match latest_cycle_data (User.user_id user) (db w) with
            | Some o => List.length rows = 3%nat
                        /\ Forall (sample_notification (User.user_id user) o) rows
            | None => rows = []
            end)
         users blocks
    /\ (NoDup (map Notification.id (notifications (db w))) ->
        NoDup (map Notification.id (notifications (db w'))))
    /\ cycle_data (db w') = cycle_data (db w)
    /\ q_tables (db w') = q_tables (db w)
    /\ q_table_history (db w') = q_table_history (db w).
Proof.
  intros Hrange Hdraw.
  destruct (create_sample_notifications_blocks users now w Hrange Hdraw)
    as (w' & blocks & Hrun & Hn & Hblocks).
  exists w', blocks. split; [exact Hrun |]. split; [exact Hn |].
  split; [exact Hblocks |].
  split.
  { apply (relates_create_sample_notifications
             (fun d d' => NoDup (map Notification.id (notifications d)) ->
                          NoDup (map Notification.id (notifications d')))
             users now) with (r := inr tt); [auto | auto | | exact Hrun].
    intros d n Hid. now apply NoDup_ids_add. }
  split.
  { apply (relates_create_sample_notifications
             (fun d d' => cycle_data d' = cycle_data d) users now) with (r := inr tt);
      [reflexivity | intros d1 d2 d3 H12 H23; now rewrite H23 | reflexivity | exact Hrun]. }
  split.
  { apply (relates_create_sample_notifications
             (fun d d' => q_tables d' = q_tables d) users now) with (r := inr tt);
      [reflexivity | intros d1 d2 d3 H12 H23; now rewrite H23 | reflexivity | exact Hrun]. }
  apply (relates_create_sample_notifications
           (fun d d' => q_table_history d' = q_table_history d) users now)
    with (r := inr tt);
    [reflexivity | intros d1 d2 d3 H12 H23; now rewrite H23 | reflexivity | exact Hrun].
Qed.


(* ---------------------------------------------------------------- *)
(** *** [create_sample_users] *)

Lemma json_of_int_injective (z1 z2 : Z) : json_of_int z1 = json_of_int z2 -> z1 = z2.
Proof.
  unfold json_of_int. intro Hs. apply DecimalZ.to_int_inj.
  assert (Hnz : forall z, Z.to_int z <> Decimal.Pos Decimal.Nil
                          /\ Z.to_int z <> Decimal.Neg Decimal.Nil).
  { intros [| p | p]; cbn [Z.to_int]; split; try discriminate;
      intros [= Hp]; exact (DecimalPos.Unsigned.to_uint_nonnil p Hp). }
  apply (f_equal NilZero.int_of_string) in Hs.
  rewrite !NilZero.isi in Hs by apply Hnz.
  now injection Hs.
Qed.

Lemma sample_user_id_injective (i j : nat) : sample_user_id i = sample_user_id j -> i = j.
Proof.
  unfold sample_user_id. cbn [append]. intros [= Hs].
  apply json_of_int_injective in Hs. lia.
Qed.

Lemma find_app_some {A : Type} (p : A -> bool) (l l' : list A) (x : A) :
  find p l = Some x -> find p (l ++ l') = Some x.
Proof.
  induction l as [| y l IH]; cbn [find app]; [discriminate |].
  destruct (p y); [trivial | exact IH].
Qed.

Lemma first_user_none (user_id : string) (users : list User.t) :
  first_user user_id users = None -> ~ In user_id (map User.user_id users).
Proof.
  unfold first_user. intros Hnone Hin. apply in_map_iff in Hin.
  destruct Hin as (u & Hu & Hin). pose proof (find_none _ _ Hnone u Hin) as Hno.
  cbn in Hno. rewrite Hu, String.eqb_refl in Hno. discriminate Hno.
Qed.

Lemma first_user_not_in (user_id : string) (users : list User.t) :
  ~ In user_id (map User.user_id users) -> first_user user_id users = None.
Proof.
  unfold first_user. intro Hnot.
  destruct (find (fun u => String.eqb (User.user_id u) user_id) users) as [u |] eqn:Hfind;
    [| reflexivity].
  exfalso. apply Hnot. destruct (find_some _ _ Hfind) as (Hin & Heq).
  apply String.eqb_eq in Heq. rewrite <- Heq. now apply in_map.
Qed.

(** What the loop of [create_sample_users] has built after the indices
    [done]: the users listed so far are found under their user id once the
    waiting rows are committed, and the waiting rows are new to the table,
    with user ids and row ids of their own. *)
Lemma create_sample_users_loop (table : list User.t) (now : Z -> datetime)
    (done : list nat) :
  NoDup done ->
  forall users pending,
    fold_left (create_sample_users_step table now) done ([], []) = (users, pending) ->
    map User.user_id users = map sample_user_id done
    /\ Forall (fun u => first_user (User.user_id u) (table ++ pending) = Some u) users
    /\ Forall (fun p => first_user (User.user_id p) table = None
                        /\ In (User.user_id p) (map sample_user_id done)) pending
    /\ NoDup (map User.user_id pending)
    /\ (List.length pending <= List.length done)%nat
    /\ (NoDup (map User.id table) -> NoDup (map User.id (table ++ pending))).
Proof.
  induction done as [| i done IH] using rev_ind; intros Hnodup users pending.
  - cbn [fold_left]. intros [= <- <-]. rewrite app_nil_r.
    repeat split; try constructor; auto.
  - rewrite fold_left_app. cbn [fold_left].
    destruct (fold_left (create_sample_users_step table now) done ([], []))
      as [users0 pending0] eqn:Hloop.
    apply NoDup_remove in Hnodup. rewrite app_nil_r in Hnodup.
    destruct Hnodup as (Hnodup & Hfresh).
    destruct (IH Hnodup users0 pending0 eq_refl)
      as (Hnames & Hfound & Hpending & Hpnames & Hlen & Hids).
    assert (Hnew : first_user (sample_user_id i) pending0 = None).
    { apply first_user_not_in. intro Hin. apply in_map_iff in Hin.
      destruct Hin as (p & Hp & Hpin). rewrite Forall_forall in Hpending.
      destruct (Hpending p Hpin) as (_ & Hdone). rewrite Hp in Hdone.
      apply in_map_iff in Hdone. destruct Hdone as (j & Hj & Hjin).
      apply sample_user_id_injective in Hj. subst j. exact (Hfresh Hjin). }
    unfold create_sample_users_step.
    destruct (first_user (sample_user_id i) table) as [existing_user |] eqn:Hfirst.
    + intros [= <- <-].
      assert (Hid : User.user_id existing_user = sample_user_id i).
      { unfold first_user in Hfirst. destruct (find_some _ _ Hfirst) as (_ & Heq).
        now apply String.eqb_eq in Heq. }
      split; [rewrite !map_app, Hnames; cbn [map]; now rewrite Hid |].
      split.
      { apply Forall_app. split; [exact Hfound |]. constructor; [| constructor].
        rewrite Hid. unfold first_user. apply find_app_some. exact Hfirst. }
      split.
      { eapply Forall_impl; [| exact Hpending]. intros p [Hp Hin].
        split; [exact Hp |]. rewrite map_app. apply in_or_app. now left. }
      split; [exact Hpnames |].
      split; [rewrite length_app; cbn [List.length]; lia | exact Hids].
    + set (id := next_user_id (table ++ pending0)).
      set (user := User.mk id (sample_user_id i) (now id)).
      intros [= <- <-].
      split; [rewrite !map_app, Hnames; reflexivity |].
      split.
      { apply Forall_app. split.
        - eapply Forall_impl; [| exact Hfound]. intros u Hu.
          rewrite app_assoc. unfold first_user. apply find_app_some. exact Hu.
        - constructor; [| constructor]. cbn [User.user_id user].
          unfold first_user. rewrite !find_app_none; [| exact Hnew | exact Hfirst].
          cbn [find User.user_id user]. now rewrite String.eqb_refl. }
      split.
      { apply Forall_app. split.
        - eapply Forall_impl; [| exact Hpending]. intros p [Hp Hin].
          split; [exact Hp |]. rewrite map_app. apply in_or_app. now left.
        - constructor; [| constructor]. cbn [User.user_id user].
          split; [exact Hfirst |]. rewrite map_app. apply in_or_app. right. now left. }
      split.
      { rewrite map_app. cbn [map User.user_id user]. apply NoDup_app.
        - exact Hpnames.
        - constructor; [intros [] | constructor].
        - intros s Hs [<- | []]. exact (first_user_none _ _ Hnew Hs). }
      split; [rewrite !length_app; cbn [List.length]; lia |].
      intro Htable. rewrite app_assoc, map_app. cbn [map User.id user].
      apply NoDup_app.
      * exact (Hids Htable).
      * constructor; [intros [] | constructor].
      * intros k Hk [<- | []]. apply in_map_iff in Hk.
        destruct Hk as (u & Hu & Hin). pose proof (next_user_id_above _ _ Hin).
        unfold id in Hu. lia.
Qed.

(** On a table that holds every sample user, the loop finds them all and
    queues nothing. *)
Lemma create_sample_users_found (table : list User.t) (now : Z -> datetime) :
  forall (done : list nat) (found : list User.t),
    Forall2 (fun i u => first_user (sample_user_id i) table = Some u) done found ->
    forall users pending,
      fold_left (create_sample_users_step table now) done (users, pending)
      = (users ++ found, pending).
Proof.
  induction 1 as [| i u done found Hi _ IH]; intros users pending; cbn [fold_left].
  - now rewrite app_nil_r.
  - unfold create_sample_users_step at 2. rewrite Hi, IH, <- app_assoc. reflexivity.
Qed.

Lemma Forall2_of_map {A B K : Type} (f : A -> K) (g : B -> K) (P : A -> B -> Prop)
    (l : list A) (l' : list B) :
  map g l' = map f l ->
  (forall a b, In b l' -> g b = f a -> P a b) ->
  Forall2 P l l'.
Proof.
  revert l'. induction l as [| a l IH]; intros [| b l']; cbn [map];
    try discriminate; [constructor |].
  intros [= Hb Hrest] HP. constructor.
  - apply HP; [now left | exact Hb].
  - apply IH; [exact Hrest |]. intros a' b' Hin. apply HP. now right.
Qed.

(** X29. [create_sample_users] returns the users [user_1] ... [user_n] in
    order, each the row found under its user id in the table it leaves;
    the table keeps its rows and gains at most [n]; a second run, at any
    later time, returns the same rows and leaves the table as it is; and
    pairwise-distinct user ids (and row ids) stay pairwise distinct. *)
Theorem create_sample_users_idempotent (num_users : nat) (now later : Z -> datetime)
    (table : list User.t) :
  let users := fst (create_sample_users num_users now table) in
  let table' := snd (create_sample_users num_users now table) in
  map User.user_id users = map sample_user_id (seq 0 num_users)
  /\ Forall (fun u => first_user (User.user_id u) table' = Some u) users
  /\ (exists added, table' = table ++ added /\ (List.length added <= num_users)%nat)
  /\ create_sample_users num_users later table' = (users, table')
  /\ (NoDup (map User.user_id table) -> NoDup (map User.user_id table'))
  /\ (NoDup (map User.id table) -> NoDup (map User.id table')).
Proof.
  cbv zeta.
  destruct (fold_left (create_sample_users_step table now) (seq 0 num_users) ([], []))
    as [users pending] eqn:Hloop.
  assert (Hrun : create_sample_users num_users now table = (users, table ++ pending))
    by (unfold create_sample_users; now rewrite Hloop).
  rewrite Hrun. cbn [fst snd].
  destruct (create_sample_users_loop table now (seq 0 num_users) (seq_NoDup _ _)
              users pending Hloop)
    as (Hnames & Hfound & Hpending & Hpnames & Hlen & Hids).
  split; [exact Hnames |]. split; [exact Hfound |].
  split; [exists pending; split; [reflexivity | now rewrite length_seq in Hlen] |].
  split.
  { unfold create_sample_users.
    rewrite (create_sample_users_found (table ++ pending) later (seq 0 num_users) users).
    - cbn [app]. now rewrite app_nil_r.
    - apply (Forall2_of_map sample_user_id User.user_id); [exact Hnames |].
      intros i u Hin Hid. rewrite Forall_forall in Hfound. rewrite <- Hid.
      exact (Hfound u Hin). }
  split; [| exact Hids].
  intro Htable. rewrite map_app. apply NoDup_app.
  - exact Htable.
  - exact Hpnames.
  - intros s Hs Hp. apply in_map_iff in Hp. destruct Hp as (p & Hp & Hpin).
    rewrite Forall_forall in Hpending. destruct (Hpending p Hpin) as (Hnone & _).
    rewrite Hp in Hnone. exact (first_user_none _ _ Hnone Hs).
Qed.


(* ---------------------------------------------------------------- *)
(** *** [main] *)

Lemma length_concat_blocks_in {A X : Type} (R : A -> list X -> Prop) (n : nat)
    (l : list A) (blocks : list (list X)) :
  Forall2 R l blocks ->
  (forall a rows, In a l -> R a rows -> List.length rows = n) ->
  List.length (List.concat blocks) = (List.length l * n)%nat.
Proof.
  induction 1 as [| a rows l blocks Hrows _ IH]; intro Hlen; [reflexivity |].
  cbn [List.concat List.length].
  rewrite length_app, IH, (Hlen a rows (or_introl eq_refl) Hrows); [reflexivity |].
  intros a' rows' Hin. apply Hlen. now right.
Qed.

Lemma lookup_q_app (d d' : database) (rows : list QTable.t) (u s a : string) (v : Q) :
  q_tables d' = q_tables d ++ rows ->
  lookup_q u s a d = Some v -> lookup_q u s a d' = Some v.
Proof.
  unfold lookup_q, first_q. intros -> Hv.
  destruct (find (q_matches u s a) (q_tables d)) as [r |] eqn:Hfind; [| discriminate].
  now rewrite (find_app_some _ _ rows _ Hfind).
Qed.

Lemma latest_cycle_data_same (user_id : string) (d d' : database) :
  cycle_data d' = cycle_data d -> latest_cycle_data user_id d' = latest_cycle_data user_id d.
Proof. unfold latest_cycle_data. now intros ->. Qed.

(** X30. With index draws in range and draws of [random()] in [0, 1),
    [main] runs to the end on any store: it leaves the [users] table of
    [create_sample_users], adds 30 observations, 24 Q-value rows and 3
    notifications for each of the five sample users, changes no stored
    Q-value and no history row, and afterwards each of [user_1] ...
    [user_5] has a state. *)
Theorem main_populates (now_user : Z -> datetime) (now_cycle : nat -> datetime)
    (now_notification : Z -> datetime) (table : list User.t) (w : world) :
  (forall n g, (fst (rng_randbelow (S n) g) < S n)%nat) ->
  (forall g, (0 <= fst (rng_random g))%Q /\ (fst (rng_random g) < 1)%Q) ->
  exists w' : world,
    main now_user now_cycle now_notification table w
    = (inr (snd (create_sample_users 5 now_user table)), w')
    /\ List.length (cycle_data (db w')) = (List.length (cycle_data (db w)) + 150)%nat
    /\ List.length (q_tables (db w')) = (List.length (q_tables (db w)) + 120)%nat
    /\ List.length (notifications (db w'))
       = (List.length (notifications (db w)) + 15)%nat
    /\ q_table_history (db w') = q_table_history (db w)
    /\ (forall u s a v, lookup_q u s a (db w) = Some v -> lookup_q u s a (db w') = Some v)
    /\ (forall i later, (i < 5)%nat ->
          exists key,
            get_current_state (Environment.init (sample_user_id i)) later w'
            = (inr (Some key), w')).
Proof.
  intros Hrange Hdraw. unfold main.
  assert (Husers : exists users pending,
             create_sample_users 5 now_user table = (users, table ++ pending)
             /\ map User.user_id users = map sample_user_id (seq 0 5)).
  { unfold create_sample_users.
    destruct (fold_left (create_sample_users_step table now_user) (seq 0 5) ([], []))
      as [users pending] eqn:Hloop.
    exists users, pending. split; [reflexivity |].
    exact (proj1 (create_sample_users_loop table now_user (seq 0 5) (seq_NoDup _ _)
                    users pending Hloop)). }
  destruct Husers as (users & pending & Husers & Hnames). rewrite Husers. cbn [snd].
  assert (Hcount : List.length users = 5%nat).
  { rewrite <- (length_map User.user_id), Hnames, length_map. apply length_seq. }
  (* the observations *)
  destruct (create_cycle_data_succeeds users 30 now_cycle w Hrange) as (w1 & Hrun1).
  pose proof (create_cycle_data_length users 30 now_cycle w w1 Hrun1) as Hcd1.
  pose proof (keeps_table_create_cycle_data q_tables users 30 now_cycle
                (fun _ _ => eq_refl) w _ w1 Hrun1) as Hq1.
  pose proof (keeps_table_create_cycle_data q_table_history users 30 now_cycle
                (fun _ _ => eq_refl) w _ w1 Hrun1) as Hh1.
  pose proof (keeps_table_create_cycle_data notifications users 30 now_cycle
                (fun _ _ => eq_refl) w _ w1 Hrun1) as Hn1.
  cbv beta in Hq1, Hh1, Hn1.
  (* the Q-values *)
  destruct (initialize_q_tables_run users w1) as (w2 & added & Hrun2 & Hq2 & Hkey & _).
  pose proof (keeps_table_initialize_q_tables cycle_data users
                (fun _ _ => eq_refl) w1 _ w2 Hrun2) as Hcd2.
  pose proof (keeps_table_initialize_q_tables q_table_history users
                (fun _ _ => eq_refl) w1 _ w2 Hrun2) as Hh2.
  pose proof (keeps_table_initialize_q_tables notifications users
                (fun _ _ => eq_refl) w1 _ w2 Hrun2) as Hn2.
  cbv beta in Hcd2, Hh2, Hn2.
  (* the notifications *)
  destruct (create_sample_notifications_blocks users now_notification w2 Hrange Hdraw)
    as (w3 & blocks & Hrun3 & Hn3 & Hblocks).
  assert (Hcd3 : cycle_data (db w3) = cycle_data (db w2)).
  { apply (relates_create_sample_notifications
             (fun d d' => cycle_data d' = cycle_data d) users now_notification)
      with (r := inr tt);
      [reflexivity | intros d1 d2 d3 H12 H23; now rewrite H23 | reflexivity | exact Hrun3]. }
  assert (Hq3 : q_tables (db w3) = q_tables (db w2)).
  { apply (relates_create_sample_notifications
             (fun d d' => q_tables d' = q_tables d) users now_notification)
      with (r := inr tt);
      [reflexivity | intros d1 d2 d3 H12 H23; now rewrite H23 | reflexivity | exact Hrun3]. }
  assert (Hh3 : q_table_history (db w3) = q_table_history (db w2)).
  { apply (relates_create_sample_notifications
             (fun d d' => q_table_history d' = q_table_history d) users now_notification)
      with (r := inr tt);
      [reflexivity | intros d1 d2 d3 H12 H23; now rewrite H23 | reflexivity | exact Hrun3]. }
  assert (Hlatest : forall user, In user users ->
             exists o, latest_cycle_data (User.user_id user) (db w1) = Some o).
  { intros user Huser.
    destruct (create_cycle_data_latest users 30 now_cycle w w1 user Hrun1 ltac:(lia) Huser)
      as (o & Ho & _).
    now exists o. }
  exists w3.
  split.
  { rewrite (bind_inr _ _ _ _ _ Hrun1), (bind_inr _ _ _ _ _ Hrun2),
      (bind_inr _ _ _ _ _ Hrun3). reflexivity. }
  split; [rewrite Hcd3, Hcd2, Hcd1, Hcount; reflexivity |].
  split.
  { rewrite Hq3, Hq2, Hq1, length_app. f_equal.
    rewrite <- (length_map q_triple), Hkey, length_sample_triples, Hcount. reflexivity. }
  split.
  { rewrite Hn3, Hn2, Hn1, length_app. f_equal.
    rewrite (length_concat_blocks_in _ 3 _ _ Hblocks); [now rewrite Hcount |].
    intros user rows Huser Hrows. destruct (Hlatest user Huser) as (o & Ho).
    rewrite (latest_cycle_data_same _ _ _ Hcd2), Ho in Hrows. apply Hrows. }
  split; [rewrite Hh3, Hh2, Hh1; reflexivity |].
  split.
  { intros u s a v Hv. apply (lookup_q_app (db w) (db w3) added); [| exact Hv].
    rewrite Hq3, Hq2, Hq1. reflexivity. }
  intros i later Hi.
  assert (Hin : In (sample_user_id i) (map User.user_id users)).
  { rewrite Hnames. apply in_map. apply in_seq. lia. }
  apply in_map_iff in Hin. destruct Hin as (user & Hid & Huser).
  destruct (Hlatest user Huser) as (o & Ho). rewrite Hid in Ho.
  eexists.
  apply (get_current_state_found (Environment.init (sample_user_id i)) later w3 o).
  cbn [Environment.user_id Environment.init].
  rewrite (latest_cycle_data_same _ _ _ Hcd3), (latest_cycle_data_same _ _ _ Hcd2).
  exact Ho.
Qed.


End Core.

Arguments db {rng} _.
Arguments gen {rng} _.

(* ================================================================== *)
(** ** The scenario, run with the reference decoder and generator *)

Lemma get_q_value_first_read_scenario :
  exists (v : Q) (w1 : world Z),
    get_q_value Z lcg_random (Agent.init "user_1" six_actions) scenario_key "stretch_prompt"
      {| db := fresh_db; gen := 42%Z |} = (inr v, w1)
    /\ (- (1 # 10) <= v)%Q /\ (v <= 1 # 10)%Q
    /\ lookup_q "user_1" scenario_key "stretch_prompt" (db w1) = Some v
    /\ get_q_value Z lcg_random (Agent.init "user_1" six_actions) scenario_key "stretch_prompt" w1
       = (inr v, w1).
Proof.
  apply (get_q_value_lazy_init_stable Z lcg_random (Agent.init "user_1" six_actions)
           scenario_key "stretch_prompt" {| db := fresh_db; gen := 42%Z |}).
  - vm_compute. discriminate.
  - vm_compute. reflexivity.
  - reflexivity.
Defined.

Lemma reward_scenario_taken :
  exists reward : Q,
    reward_function Z (Environment.init "user_1") feedback_taken
      {| db := scenario_db; gen := 42%Z |}
    = (inr reward, {| db := scenario_db; gen := 42%Z |})
    /\ (reward == 5.5)%Q.
Proof.
  destruct (reward_function_action_taken Z (Environment.init "user_1") feedback_taken
              {| db := scenario_db; gen := 42%Z |} eq_refl)
    as (reward & Hrun & _ & _ & Hvalue).
  exists reward. split; [exact Hrun |].
  apply (Hvalue scenario_observation); reflexivity.
Defined.

Lemma reward_scenario_ignored :
  reward_function Z (Environment.init "user_1") feedback_ignored
    {| db := scenario_db; gen := 42%Z |}
  = (inr (-1)%Q, {| db := scenario_db; gen := 42%Z |}).
Proof.
  apply (reward_function_action_not_taken Z (Environment.init "user_1") feedback_ignored
           {| db := scenario_db; gen := 42%Z |}).
  reflexivity.
Defined.

Lemma choose_action_scenario :
  exists w' : world Z,
    choose_action Z lcg_random lcg_randbelow flat_loads
      (Agent.mk "user_1" six_actions (1 # 10) (9 # 10) 0) scenario_key
      {| db := float_db; gen := 42%Z |}
    = (inr "magnesium_suggestion", w').
Proof.
  destruct (choose_action_exploit_high_pain Z lcg_random lcg_randbelow flat_loads
              "user_1" (1 # 10) (9 # 10) 0 scenario_key
              [("cycle_phase", JStr "menstrual"); ("sleep_score", JInt 6);
               ("mood_score", JInt 5); ("stress_level", JInt 7); ("pain_level", JInt 8);
               ("time_of_day", JStr "morning"); ("energy_level", JInt 4)]
              {| db := float_db; gen := 42%Z |}
              eq_refl eq_refl eq_refl eq_refl)
    as (best & w' & before & after & Hrun & _ & _ & _ & _ & _ & Hscenario).
  exists w'. rewrite <- Hscenario; [exact Hrun | | |].
  - exists (binary64_round (9 # 10)). split; reflexivity.
  - exists (binary64_round (85 # 100)). split; reflexivity.
  - intros a [<- | [<- | [<- | [<- | []]]]]; exists (binary64_round (1 # 10));
      split; reflexivity.
Defined.

(** Where the rounding of the boost decides: with the tables below the
    exact sums would pick magnesium_suggestion, resp. nap_suggestion; the
    floating-point sums tie with an earlier action, resp. come out on
    top. *)
Example choose_action_rounding_decides :
  fst (choose_action Z lcg_random lcg_randbelow flat_loads
         (Agent.mk "user_1" six_actions (1 # 10) (9 # 10) 0) scenario_key
         {| db := with_q_tables fresh_db
                    [QTable.mk "user_1" scenario_key "stretch_prompt" (- 1);
                     QTable.mk "user_1" scenario_key "mindfulness" (1 # 2);
                     QTable.mk "user_1" scenario_key "magnesium_suggestion"
                       (1 # 1152921504606846976);
                     QTable.mk "user_1" scenario_key "nap_suggestion" (- 1);
                     QTable.mk "user_1" scenario_key "healthy_snack" (- 1);
                     QTable.mk "user_1" scenario_key "movement_break" (- 1)];
            gen := 42%Z |})
  = inr "mindfulness"
  /\ fst (choose_action Z lcg_random lcg_randbelow flat_loads
            (Agent.mk "user_1" six_actions (1 # 10) (9 # 10) 0) scenario_key
            {| db := with_q_tables fresh_db
                       [QTable.mk "user_1" scenario_key "stretch_prompt" (- 1);
                        QTable.mk "user_1" scenario_key "mindfulness" (- 1);
                        QTable.mk "user_1" scenario_key "magnesium_suggestion"
                          (1261007895663739 # 18014398509481984);
                        QTable.mk "user_1" scenario_key "nap_suggestion"
                          (2567051787601183 # 4503599627370496);
                        QTable.mk "user_1" scenario_key "healthy_snack" (- 1);
                        QTable.mk "user_1" scenario_key "movement_break" (- 1)];
               gen := 42%Z |})
     = inr "magnesium_suggestion".
Proof. split; vm_compute; reflexivity. Qed.

Lemma state_key_scenario_shared :
  exists key : string,
    get_current_state Z (Environment.init "user_1") scenario_now
      {| db := other_db; gen := 42%Z |}
    = (inr (Some key), {| db := other_db; gen := 42%Z |})
    /\ get_current_state Z (Environment.init "user_2") {| dt_instant := 5000; dt_hour := 11 |}
         {| db := other_db; gen := 7%Z |}
       = (inr (Some key), {| db := other_db; gen := 7%Z |}).
Proof.
  apply (get_current_state_deterministic Z (Environment.init "user_1")
           (Environment.init "user_2") scenario_now {| dt_instant := 5000; dt_hour := 11 |}
           {| db := other_db; gen := 42%Z |} {| db := other_db; gen := 7%Z |}
           scenario_observation other_observation);
    reflexivity.
Defined.


Lemma generate_scenario_no_observation :
  get_current_state Z (Environment.init "user_3") scenario_now
    {| db := scenario_db; gen := 42%Z |}
  = (inr None, {| db := scenario_db; gen := 42%Z |})
  /\ generate_user_notification Z lcg_random lcg_randbelow flat_loads flat_str
       "user_3" scenario_now {| db := scenario_db; gen := 42%Z |}
     = (inl (HTTPException 404 "No cycle data found for user"),
        {| db := scenario_db; gen := 42%Z |}).
Proof.
  apply (generate_user_notification_without_observation Z lcg_random lcg_randbelow
           flat_loads flat_str "user_3" scenario_now {| db := scenario_db; gen := 42%Z |}).
  reflexivity.
Defined.

(* ================================================================== *)
(** ** Runs of the scenario *)

Example time_of_day_boundaries :
  map time_of_day [0; 4; 5; 11; 12; 16; 17; 21; 22; 23]%Z
  = ["night"; "night"; "morning"; "morning"; "afternoon"; "afternoon";
     "evening"; "evening"; "night"; "night"].
Proof. reflexivity. Qed.

Example scenario_key_decodes :
  flat_loads scenario_key
  = Some (JObj [("cycle_phase", JStr "menstrual"); ("sleep_score", JInt 6);
                ("mood_score", JInt 5); ("stress_level", JInt 7); ("pain_level", JInt 8);
                ("time_of_day", JStr "morning"); ("energy_level", JInt 4)]).
Proof. vm_compute. reflexivity. Qed.

Example scenario_key_at_query_time :
  fst (get_current_state Z (Environment.init "user_1") scenario_now
         {| db := scenario_db; gen := 42%Z |}) = inr (Some scenario_key)
  /\ fst (get_current_state Z (Environment.init "user_1") scenario_recorded
            {| db := scenario_db; gen := 42%Z |})
     = inr (Some (state_key "menstrual" 6 5 7 8 "evening" 4)).
Proof. split; reflexivity. Qed.

(** Feedback on the outstanding notification, twice: reward 5.5 moves
    Q(key, magnesium) from 0.9 to 1.441, then the penalty -1 moves it to
    1.32659; each submission appends a History Record. *)
Example scenario_feedback_twice :
  let w0 : world Z := {| db := scenario_db; gen := 42%Z |} in
  let r1 := process_notification_feedback Z lcg_random feedback_taken scenario_now w0 in
  let r2 := process_notification_feedback Z lcg_random feedback_ignored scenario_now (snd r1) in
  fst r1 = inr ("success", (11 # 2)%Q)
  /\ option_map Qred (lookup_q "user_1" scenario_key "magnesium_suggestion" (db (snd r1)))
     = Some 1.441%Q
  /\ fst r2 = inr ("success", (-1)%Q)
  /\ option_map Qred (lookup_q "user_1" scenario_key "magnesium_suggestion" (db (snd r2)))
     = Some 1.32659%Q
  /\ List.length (q_table_history (db (snd r2))) = 2
  /\ map Notification.action_taken (notifications (db (snd r2))) = [0%Z].
Proof. vm_compute. repeat split; reflexivity. Qed.

(** A first request for the user of [fresh_db] initialises the six
    Q-values of the state and stores one notification. *)
Example scenario_first_notification :
  let r := generate_user_notification Z lcg_random lcg_randbelow flat_loads flat_str
             "user_1" scenario_now {| db := fresh_db; gen := 42%Z |} in
  option_map NotificationResponse.action
    (match fst r with inr x => Some x | inl _ => None end) = Some "magnesium_suggestion"
  /\ map QTable.action (q_tables (db (snd r))) = six_actions
  /\ map Notification.id (notifications (db (snd r))) = [1%Z].
Proof. vm_compute. repeat split; reflexivity. Qed.

(* ================================================================== *)
(** ** Further runs of the scenario *)

Lemma lcg_randbelow_range (n : nat) (g : Z) : (fst (lcg_randbelow (S n) g) < S n)%nat.
Proof.
  unfold lcg_randbelow. cbn [fst].
  pose proof (Z.mod_pos_bound (lcg_next g) (Z.of_nat (S n)) ltac:(lia)). lia.
Qed.

Lemma choose_action_scenario_known :
  In "magnesium_suggestion" six_actions.
Proof.
  apply (choose_action_returns_known_action Z lcg_random lcg_randbelow flat_loads
           "user_1" (1 # 10) (9 # 10) 0 scenario_key
           {| db := scenario_db; gen := 42%Z |}
           (snd (choose_action Z lcg_random lcg_randbelow flat_loads
                   (Agent.mk "user_1" six_actions (1 # 10) (9 # 10) 0) scenario_key
                   {| db := scenario_db; gen := 42%Z |}))
           "magnesium_suggestion").
  vm_compute. reflexivity.
Defined.

Lemma choose_action_calm_scenario :
  exists w' : world Z,
    choose_action Z lcg_random lcg_randbelow flat_loads
      (Agent.mk "user_1" six_actions (1 # 10) (9 # 10) 0) calm_key
      {| db := calm_db; gen := 42%Z |}
    = (inr "healthy_snack", w').
Proof.
  destruct (choose_action_exploit_plain Z lcg_random lcg_randbelow flat_loads
              "user_1" (1 # 10) (9 # 10) 0 calm_key
              (state_dict "follicular" 7 7 5 3 "morning" 7)
              {| db := calm_db; gen := 42%Z |}
              (flat_loads_state_key _ _ _ _ _ _ _) (or_introl eq_refl) eq_refl)
    as (best & w' & before & after & Hrun & _).
  exists w'. rewrite Hrun. f_equal. f_equal.
  assert (H : fst (choose_action Z lcg_random lcg_randbelow flat_loads
                     (Agent.mk "user_1" six_actions (1 # 10) (9 # 10) 0) calm_key
                     {| db := calm_db; gen := 42%Z |}) = inr "healthy_snack")
    by (vm_compute; reflexivity).
  rewrite Hrun in H. now injection H.
Defined.

Lemma choose_action_explore_scenario :
  exists (a : string) (w' : world Z),
    choose_action Z lcg_random lcg_randbelow flat_loads
      (Agent.mk "user_1" six_actions (1 # 10) (9 # 10) 1) scenario_key
      {| db := scenario_db; gen := 42%Z |} = (inr a, w')
    /\ db w' = scenario_db
    /\ In a six_actions.
Proof.
  destruct (choose_action_explore Z lcg_random lcg_randbelow flat_loads
              "user_1" (1 # 10) (9 # 10) 1 scenario_key
              (state_dict "menstrual" 6 5 7 8 "morning" 4)
              {| db := scenario_db; gen := 42%Z |} true
              lcg_randbelow_range (flat_loads_state_key _ _ _ _ _ _ _) eq_refl eq_refl)
    as (a & w' & Hrun & Hdb & Hin & _).
  exists a, w'. split; [exact Hrun |]. split; [exact Hdb | exact Hin].
Defined.



Lemma reward_scenario_bounded :
  exists reward : Q,
    reward_function Z (Environment.init "user_1") feedback_taken
      {| db := scenario_db; gen := 42%Z |}
    = (inr reward, {| db := scenario_db; gen := 42%Z |})
    /\ (-14 <= reward)%Q /\ (reward <= 14)%Q.
Proof.
  apply (reward_function_bounded Z (Environment.init "user_1") feedback_taken
           {| db := scenario_db; gen := 42%Z |}).
  - vm_compute. discriminate.
  - vm_compute. discriminate.
  - vm_compute. split; discriminate.
  - vm_compute. split; discriminate.
  - intros prev [= <-]. vm_compute. repeat split; discriminate.
Defined.

Lemma add_cycle_data_scenario :
  get_current_state Z (Environment.init "user_1") scenario_now
    (snd (add_cycle_data Z new_reading scenario_now {| db := scenario_db; gen := 42%Z |}))
  = (inr (Some (state_key "luteal" 6 6 6 4 "morning" 6)),
     snd (add_cycle_data Z new_reading scenario_now {| db := scenario_db; gen := 42%Z |})).
Proof.
  apply (add_cycle_data_then_current_state Z new_reading scenario_now scenario_now
           {| db := scenario_db; gen := 42%Z |}).
  intros r [<- | []] _. vm_compute. reflexivity.
Defined.

Lemma add_cycle_data_scenario_other_user :
  latest_cycle_data "user_2"
    (db (snd (add_cycle_data Z new_reading scenario_now {| db := other_db; gen := 42%Z |})))
  = Some other_observation.
Proof.
  destruct (add_cycle_data_frame Z new_reading scenario_now
              {| db := other_db; gen := 42%Z |} "user_2" ltac:(discriminate))
    as (Hlatest & _).
  rewrite Hlatest. reflexivity.
Defined.

Lemma generate_scenario_success :
  exists (resp : NotificationResponse.t) (w' : world Z),
    generate_user_notification Z lcg_random lcg_randbelow flat_loads flat_str
      "user_1" scenario_now {| db := scenario_db; gen := 42%Z |} = (inr resp, w')
    /\ NotificationResponse.notification_id resp = 2%Z
    /\ In (NotificationResponse.action resp) six_actions
    /\ List.length (notifications (db w')) = 2%nat.
Proof.
  destruct (generate_user_notification_success Z lcg_random lcg_randbelow flat_loads flat_str
              "user_1" scenario_now {| db := scenario_db; gen := 42%Z |}
              scenario_observation lcg_randbelow_range eq_refl
              (flat_loads_state_key _ _ _ _ _ _ _))
    as (resp & w' & n & Hrun & Hact & _ & Hn & Hrows & _ & _).
  exists resp, w'. split; [exact Hrun |].
  assert (Hid : fst (generate_user_notification Z lcg_random lcg_randbelow flat_loads flat_str
                       "user_1" scenario_now {| db := scenario_db; gen := 42%Z |})
                = inr resp) by now rewrite Hrun.
  split; [| split; [exact Hact | now rewrite Hrows]].
  vm_compute in Hid. now injection Hid as <-.
Defined.

Lemma feedback_scenario_frame :
  cycle_data (db (snd (process_notification_feedback Z lcg_random feedback_taken scenario_now
                         {| db := scenario_db; gen := 42%Z |})))
  = [scenario_observation]
  /\ lookup_q "user_1" scenario_key "stretch_prompt"
       (db (snd (process_notification_feedback Z lcg_random feedback_taken scenario_now
                   {| db := scenario_db; gen := 42%Z |})))
     = Some (85 # 100)%Q.
Proof.
  destruct (process_notification_feedback_frame Z lcg_random feedback_taken scenario_now
              {| db := scenario_db; gen := 42%Z |} scenario_notification eq_refl eq_refl)
    as (_ & _ & Hcd & Hq).
  split; [exact Hcd |].
  apply Hq; [| reflexivity]. intro H. apply (f_equal snd) in H. discriminate H.
Defined.

Lemma notification_ids_scenario :
  NoDup (map Notification.id
           (notifications
              (db (snd (generate_user_notification Z lcg_random lcg_randbelow flat_loads
                          flat_str "user_1" scenario_now
                          {| db := scenario_db; gen := 42%Z |})))))
  /\ NoDup (map Notification.id
              (notifications
                 (db (snd (process_notification_feedback Z lcg_random feedback_taken
                             scenario_now {| db := scenario_db; gen := 42%Z |}))))).
Proof.
  apply (notification_ids_stay_distinct Z lcg_random lcg_randbelow flat_loads flat_str
           "user_1" feedback_taken scenario_now {| db := scenario_db; gen := 42%Z |}).
  cbn. constructor; [intros [] | constructor].
Defined.


Lemma state_key_scenario_injective :
  CycleData.cycle_phase scenario_observation = CycleData.cycle_phase other_observation
  /\ CycleData.pain_level scenario_observation = CycleData.pain_level other_observation
  /\ time_of_day 9 = time_of_day 11.
Proof.
  destruct (state_key_injective Z (Environment.init "user_1") (Environment.init "user_2")
              scenario_now {| dt_instant := 5000; dt_hour := 11 |}
              {| db := other_db; gen := 42%Z |} {| db := other_db; gen := 7%Z |}
              scenario_observation other_observation eq_refl eq_refl eq_refl)
    as (Hphase & _ & _ & _ & Hpain & _ & Hbucket).
  split; [exact Hphase |]. split; [exact Hpain | exact Hbucket].
Defined.

Lemma generate_notification_scenario_caveats :
  exists (base : string) (w' : world Z),
    generate_notification Z lcg_randbelow flat_loads flat_str "nap_suggestion"
      (state_key "menstrual" 6 5 7 8 "morning" 3) {| db := scenario_db; gen := 42%Z |}
    = (inr ((base ++ newline
               ++ "Remember to be gentle with yourself and listen to your body's needs.")
              ++ newline ++ "Keep it gentle and rest if needed.")%string, w').
Proof.
  destruct (generate_notification_caveats Z lcg_randbelow flat_loads flat_str
              "nap_suggestion" (state_key "menstrual" 6 5 7 8 "morning" 3)
              "menstrual" 6 5 7 8 "morning" 3 {| db := scenario_db; gen := 42%Z |}
              lcg_randbelow_range (flat_loads_state_key _ _ _ _ _ _ _))
    as (base & w' & Hrun & _).
  exists base, w'. exact Hrun.
Defined.

(* ================================================================== *)
(** ** Runs of [populate_db.py] *)

Lemma lcg_random_range (g : Z) :
  (0 <= fst (lcg_random g))%Q /\ (fst (lcg_random g) < 1)%Q.
Proof.
  unfold lcg_random. cbn [fst].
  pose proof (Z.mod_pos_bound (1103515245 * g + 12345) (Zpos lcg_modulus) eq_refl) as Hb.
  fold (lcg_next g) in Hb. unfold Qle, Qlt. cbn [Qnum Qden]. lia.
Qed.

Lemma create_cycle_data_scenario :
  exists w' : world Z,
    create_cycle_data Z lcg_randbelow scenario_users 3 (fun _ => scenario_now)
      {| db := fresh_db; gen := 42%Z |} = (inr tt, w')
    /\ List.length (cycle_data (db w')) = 7%nat.
Proof.
  destruct (create_cycle_data_seeds_state Z lcg_randbelow scenario_users 3
              (fun _ => scenario_now) {| db := fresh_db; gen := 42%Z |}
              lcg_randbelow_range ltac:(lia))
    as (w' & Hrun & Hlen & _).
  exists w'. split; [exact Hrun | exact Hlen].
Defined.

Lemma initialize_q_tables_scenario :
  exists (v : Q) (w' : world Z),
    initialize_q_tables Z lcg_random scenario_users {| db := fresh_db; gen := 42%Z |}
    = (inr tt, w')
    /\ lookup_q "user_2" (sample_state "luteal") "mindfulness" (db w') = Some v
    /\ (1 # 10 <= v)%Q /\ (v <= 7 # 10)%Q.
Proof.
  destruct (initialize_q_tables_seed_range Z lcg_random scenario_users
              {| db := fresh_db; gen := 42%Z |}
              (User.mk 2 "user_2" scenario_recorded) "luteal" "mindfulness"
              (1 # 10) (9 # 10) (1 # 10) lcg_random_range
              (or_intror (or_introl eq_refl))
              (or_intror (or_intror (or_intror (or_introl eq_refl))))
              (or_intror (or_introl eq_refl)) eq_refl)
    as (by_action & base & v & w' & Hrun & _ & _ & Hlookup & _ & _ & Hlo & Hhi & _).
  exists v, w'. split; [exact Hrun |]. split; [exact Hlookup |]. split; assumption.
Defined.

Lemma create_sample_notifications_scenario :
  exists w' : world Z,
    create_sample_notifications Z lcg_random lcg_randbelow scenario_users
      (fun _ => scenario_now) {| db := scenario_db; gen := 42%Z |} = (inr tt, w')
    /\ NoDup (map Notification.id (notifications (db w')))
    /\ cycle_data (db w') = [scenario_observation].
Proof.
  destruct (create_sample_notifications_rows Z lcg_random lcg_randbelow scenario_users
              (fun _ => scenario_now) {| db := scenario_db; gen := 42%Z |}
              lcg_randbelow_range lcg_random_range)
    as (w' & blocks & Hrun & _ & _ & Hnodup & Hcd & _).
  exists w'. split; [exact Hrun |]. split; [| exact Hcd].
  apply Hnodup. cbn. constructor; [intros [] | constructor].
Defined.

Lemma main_scenario :
  exists w' : world Z,
    main Z lcg_random lcg_randbelow (fun _ => scenario_recorded) (fun _ => scenario_now)
      (fun _ => scenario_now) [] {| db := fresh_db; gen := 42%Z |}
    = (inr (snd (create_sample_users 5 (fun _ => scenario_recorded) [])), w')
    /\ List.length (cycle_data (db w')) = 151%nat
    /\ List.length (q_tables (db w')) = 120%nat
    /\ List.length (notifications (db w')) = 15%nat.
Proof.
  destruct (main_populates Z lcg_random lcg_randbelow (fun _ => scenario_recorded)
              (fun _ => scenario_now) (fun _ => scenario_now) []
              {| db := fresh_db; gen := 42%Z |} lcg_randbelow_range lcg_random_range)
    as (w' & Hrun & Hcd & Hq & Hn & _).
  exists w'. split; [exact Hrun |]. split; [exact Hcd |]. split; [exact Hq | exact Hn].
Defined.

